(** * llm-story-app backend: a shallow embedding of [backend/server.js]

    - [JS] models the fragment of the JavaScript runtime that the server
      relies on: JSON values, truthiness, [ToString], [ToNumber], the string
      built-ins ([toLowerCase], [includes], [trim], [split], [join]),
      [Array.prototype.slice], and [JSON.stringify] / [JSON.parse].
    - [Server] embeds [server.js] itself, top-down: the configuration
      constants, [extractTextFromDeepInfra] and the handler of
      [POST /api/generate-story], written in a small state-and-exception
      monad whose state is the list of upstream calls issued so far together
      with the [images] accumulator.  The upstream service is a parameter.
    - [Vocabulary] and [Examples] hold what the statements are written
      with; the properties follow, grouped by the part of the handler they
      are about, and the round trip of [JSON.parse] after [JSON.stringify]
      comes last.

    Modelling decisions, all of them restrictions of the input domain:
    - a JavaScript string is a Rocq [string]; each [ascii] is one code unit in
      the range 0..255 (Latin-1).  Code units above 255 are not represented;
    - a JavaScript number is an integer ([Z]); [NaN] appears only as the
      result of [ToNumber] and is [None] there.  Fractions, exponents and
      infinities are not represented: [exact_numbers], [exact_count] and
      [prints_exactly] delimit the values on which the conversions of the
      model are those of JavaScript, and the statements that depend on a
      conversion or on the text of a value assume them;
    - an object is the list of its own properties in enumeration order. *)

From Stdlib Require Import ZArith List String Ascii Bool Lia Arith.
From Stdlib Require Import DecimalString DecimalZ.
Import ListNotations.

Local Open Scope string_scope.
Local Open Scope Z_scope.

(* ===================================================================== *)
(** * The JavaScript runtime fragment *)
(* ===================================================================== *)

Module JS.

(** ** Values *)

(** The values that [JSON.parse] can produce, with the integers for
    numbers: a fraction, a negative zero and the [Infinity] of a literal
    that overflows have no counterpart, and an integer stands for a
    JavaScript number only while it is safe ([exact_numbers], at the end of
    this module).  [undefined] is not a member: a property read that finds
    nothing is [None] in [option value]. *)
Unset Elimination Schemes.
Inductive value : Type :=
| JNull : value
| JBool : bool -> value
| JNum : Z -> value
| JStr : string -> value
| JArr : list value -> value
| JObj : list (string * value) -> value.
Set Elimination Schemes.

(** Characters that cannot be written inside the literals of this file. *)
Definition LF : ascii := "010"%char.
Definition DQUOTE : ascii := "034"%char.
Definition BACKSLASH : ascii := "092"%char.

Definition code (c : ascii) : nat := nat_of_ascii c.

(** ** Truthiness and nullish tests *)

(** [ToBoolean]: [null], [false], [0] and the empty string are falsy. *)
Definition truthy (v : value) : bool :=
  match v with
  | JNull => false
  | JBool b => b
  | JNum z => negb (z =? 0)
  | JStr s => negb (s =? "")%string
  | JArr _ => true
  | JObj _ => true
  end.

(** Truthiness of the result of a property read: [undefined] is falsy. *)
Definition truthy_opt (o : option value) : bool :=
  match o with
  | Some v => truthy v
  | None => false
  end.

(** [a ?? b] where [b] is a value: [b] when [a] is [undefined] or [null].
    A chain [a ?? b ?? c] nests to the right here; the two groupings agree
    because the result of a nullish [a ?? b] is itself nullish. *)
Definition coalesce (a : option value) (b : value) : value :=
  match a with
  | None | Some JNull => b
  | Some v => v
  end.

Definition isArray (o : option value) : bool :=
  match o with
  | Some (JArr _) => true
  | _ => false
  end.

Definition is_string (v : value) : bool :=
  match v with
  | JStr _ => true
  | _ => false
  end.

(** ** Property reads *)

Fixpoint lookup (k : string) (m : list (string * value)) : option value :=
  match m with
  | [] => None
  | (k', v) :: m' => if (k =? k')%string then Some v else lookup k m'
  end.

(** [v.name] for a property name that is neither an array index nor
    ["length"], nor a method of a built-in prototype: only an object can own
    it.  Every name that [server.js] reads ([output], [results], [choices],
    [text], [content], [message], [detail], [error], [output_url], [url],
    [genre], [characters], [paragraphs], [imagesPerParagraph]) is of that
    kind.  The receiver is never [null] where the source uses a plain dot. *)
Definition get (v : value) (name : string) : option value :=
  match v with
  | JObj m => lookup name m
  | _ => None
  end.

(** [o?.name]: short-circuits to [undefined] on [undefined] and [null]. *)
Definition get_opt (o : option value) (name : string) : option value :=
  match o with
  | None | Some JNull => None
  | Some v => get v name
  end.

(** [v[0]]: the first element of an array, the first code unit of a string,
    the property ["0"] of an object. *)
Definition index0 (v : value) : option value :=
  match v with
  | JArr (x :: _) => Some x
  | JStr (String c _) => Some (JStr (String c ""))
  | JObj m => lookup "0" m
  | _ => None
  end.

(** [o?.[0]]. *)
Definition index0_opt (o : option value) : option value :=
  match o with
  | None | Some JNull => None
  | Some v => index0 v
  end.

(** ** Strings *)

(** [Array.prototype.join] on already converted elements. *)
Fixpoint join (sep : string) (l : list string) : string :=
  match l with
  | [] => ""
  | [s] => s
  | s :: l' => s ++ sep ++ join sep l'
  end.

(** [Number.prototype.toString] on an integer: decimal digits with a
    leading minus sign for negatives.  This is the text of JavaScript for
    the safe integers ([safe_integer], below); the engine switches to
    exponent notation from [10^21] on, where the model goes on printing
    digits. *)
Definition NumberToString (z : Z) : string :=
  NilZero.string_of_int (Z.to_int z).

(** [ToString].  An array is its elements joined with a comma, where [null]
    elements are empty; a plain object is ["[object Object]"] (an object
    with a property [toString] of its own is not plain: [prints_exactly],
    at the end of this module). *)
Fixpoint ToString (v : value) : string :=
  match v with
  | JNull => "null"
  | JBool true => "true"
  | JBool false => "false"
  | JNum z => NumberToString z
  | JStr s => s
  | JArr l =>
      join "," (map (fun x => match x with
                              | JNull => ""
                              | _ => ToString x
                              end) l)
  | JObj _ => "[object Object]"
  end.

(** [arr.join(sep)]: [null] elements print as the empty string. *)
Definition Array_join (l : list value) (sep : string) : string :=
  join sep (map (fun x => match x with
                          | JNull => ""
                          | _ => ToString x
                          end) l).

(** [String.prototype.toLowerCase] on Latin-1 code units: [A]-[Z] and the
    accented capitals 192..222 except the multiplication sign 215. *)
Definition lower_char (c : ascii) : ascii :=
  let n := code c in
  if ((65 <=? n) && (n <=? 90))%nat then ascii_of_nat (n + 32)
  else if ((192 <=? n) && (n <=? 222) && negb (n =? 215))%nat
       then ascii_of_nat (n + 32)
  else c.

Fixpoint toLowerCase (s : string) : string :=
  match s with
  | "" => ""
  | String c r => String (lower_char c) (toLowerCase r)
  end.

(** [s.includes(pat)]. *)
Fixpoint includes (s pat : string) : bool :=
  prefix pat s ||
  match s with
  | "" => false
  | String _ r => includes r pat
  end.

(** White space and line terminators removed by [trim], within Latin-1:
    TAB, LF, VT, FF, CR, SP and NBSP. *)
Definition is_space (c : ascii) : bool :=
  let n := code c in
  (((9 <=? n) && (n <=? 13)) || (n =? 32) || (n =? 160))%nat.

Fixpoint trimStart (s : string) : string :=
  match s with
  | "" => ""
  | String c r => if is_space c then trimStart r else s
  end.

(** [trimEnd] keeps a character when it is not a space or when something
    survives after it. *)
Fixpoint trimEnd (s : string) : string :=
  match s with
  | "" => ""
  | String c r =>
      match trimEnd r with
      | "" => if is_space c then "" else String c ""
      | r' => String c r'
      end
  end.

Definition trim (s : string) : string := trimEnd (trimStart s).

(** [s.split(/\n{1,}/)].  The pattern is greedy, so each separator is a
    maximal run of line feeds; [cur] is the segment being read and [in_run]
    tells that the previous character belonged to a separator.  A separator
    at either end leaves an empty segment there, and the empty string splits
    into one empty segment. *)
Fixpoint split_lines (s : string) (cur : string) (in_run : bool)
  : list string :=
  match s with
  | "" => [cur]
  | String c r =>
      if (c =? LF)%char then
        if in_run then split_lines r cur true
        else cur :: split_lines r "" true
      else split_lines r (cur ++ String c "") false
  end.

Definition split_newlines (s : string) : list string :=
  split_lines s "" false.

(** ** Numbers *)

Definition is_digit (c : ascii) : bool :=
  ((48 <=? code c) && (code c <=? 57))%nat.

Definition digit_val (c : ascii) : Z := Z.of_nat (code c) - 48.

(** The value of a run of decimal digits read left to right; [None] when a
    character is not a digit. *)
Fixpoint digits_value (s : string) (acc : Z) : option Z :=
  match s with
  | "" => Some acc
  | String c r =>
      if is_digit c then digits_value r (10 * acc + digit_val c) else None
  end.

(** [StringToNumber] on the integer literals: the text is trimmed, the empty
    text is [0], an optional sign precedes a non-empty run of decimal
    digits.  Every other text is [None] here.  That is the [NaN] of
    JavaScript for the texts that are no numeric literal; the literals with
    a fraction, an exponent, a radix prefix or [Infinity] denote numbers
    outside the integer model, for which [None] is not what [Number]
    gives: [exact_text], below, tells the two kinds apart. *)
Definition StringToNumber (s : string) : option Z :=
  match trim s with
  | "" => Some 0
  | String c r =>
      if (c =? "-")%char then
        match r with
        | "" => None
        | _ => option_map Z.opp (digits_value r 0)
        end
      else if (c =? "+")%char then
        match r with
        | "" => None
        | _ => digits_value r 0
        end
      else digits_value (String c r) 0
  end.

(** [ToNumber] / [Number(v)]; [None] is [NaN]. *)
Definition ToNumber (v : value) : option Z :=
  match v with
  | JNull => Some 0
  | JBool true => Some 1
  | JBool false => Some 0
  | JNum z => Some z
  | JStr s => StringToNumber s
  | JArr _ => StringToNumber (ToString v)
  | JObj _ => None
  end.

(** [String(Number(v))]. *)
Definition number_text (n : option Z) : string :=
  match n with
  | Some z => NumberToString z
  | None => "NaN"
  end.

(** [ToLength] of a number: [NaN] and negatives are [0], the upper end is
    [2^53 - 1]. *)
Definition ToLength (n : option Z) : Z :=
  match n with
  | None => 0
  | Some z => Z.min (Z.max z 0) (2 ^ 53 - 1)
  end.

(** [arr.slice(0, end)]: [end] goes through [ToNumber]; [NaN] is [0], a
    negative [end] counts from the back, and the result never exceeds the
    array.  The integers of the model need no truncation; an [end] that
    [Number] turns into a fraction is outside the model ([exact_count]). *)
Definition slice0 {A : Type} (l : list A) (e : value) : list A :=
  match ToNumber e with
  | None => []
  | Some z =>
      if z <? 0 then firstn (Z.to_nat (Z.max (Z.of_nat (List.length l) + z) 0)) l
      else firstn (Z.to_nat z) l
  end.

(** ** Objects *)

(** An array index is the canonical decimal text of an integer in
    [0, 2^32 - 2]: own properties with such keys are enumerated first, in
    ascending numeric order, and the other keys follow in creation order. *)
Definition array_index (k : string) : option Z :=
  match k with
  | "" => None
  | String c r =>
      if ((c =? "0")%char && negb (r =? "")%string)%bool then None
      else match digits_value k 0 with
           | Some z => if z <=? 2 ^ 32 - 2 then Some z else None
           | None => None
           end
  end.

(** [goes_before k k']: a property created under the new key [k] is
    enumerated before the existing key [k']. *)
Definition goes_before (k k' : string) : bool :=
  match array_index k, array_index k' with
  | Some a, Some b => a <? b
  | Some _, None => true
  | None, _ => false
  end.

Fixpoint replace_value (k : string) (v : value) (m : list (string * value))
  : list (string * value) :=
  match m with
  | [] => []
  | (k', v') :: m' =>
      if (k =? k')%string then (k, v) :: m'
      else (k', v') :: replace_value k v m'
  end.

Fixpoint insert_key (k : string) (v : value) (m : list (string * value))
  : list (string * value) :=
  match m with
  | [] => [(k, v)]
  | (k', v') :: m' =>
      if goes_before k k' then (k, v) :: m
      else (k', v') :: insert_key k v m'
  end.

(** [CreateDataProperty]: an existing key keeps its place and takes the new
    value; a new key is created at its place in the enumeration order. *)
Definition obj_define (m : list (string * value)) (kv : string * value)
  : list (string * value) :=
  match lookup (fst kv) m with
  | Some _ => replace_value (fst kv) (snd kv) m
  | None => insert_key (fst kv) (snd kv) m
  end.

Definition keys (m : list (string * value)) : list string := map fst m.

Definition mem (k : string) (l : list string) : bool :=
  existsb (fun k' => (k =? k')%string) l.

(** The property lists that are the enumeration of some object: the keys
    are pairwise distinct and none would have gone before an earlier one. *)
Fixpoint enumerable (seen : list string) (m : list (string * value)) : bool :=
  match m with
  | [] => true
  | (k, _) :: m' =>
      negb (mem k seen)
      && forallb (fun k' => negb (goes_before k k')) seen
      && enumerable (seen ++ [k])%list m'
  end.

(** The values that exist at run time: every object in them is the
    enumeration of its own properties. *)
Fixpoint well_formed (v : value) : bool :=
  match v with
  | JArr l => forallb well_formed l
  | JObj m =>
      enumerable [] m
      && forallb (fun kv => match kv with (_, x) => well_formed x end) m
  | _ => true
  end.

(** ** [JSON.stringify] *)

Definition hex_digit (n : nat) : ascii :=
  if (n <? 10)%nat then ascii_of_nat (48 + n) else ascii_of_nat (87 + n).

(** [QuoteJSONString] on one code unit: the short escapes, [\u00XX] with
    lower-case digits for the other control characters, and the character
    itself otherwise. *)
Definition escape_char (c : ascii) : string :=
  let n := code c in
  if (n =? 8)%nat then String BACKSLASH "b"
  else if (n =? 9)%nat then String BACKSLASH "t"
  else if (n =? 10)%nat then String BACKSLASH "n"
  else if (n =? 12)%nat then String BACKSLASH "f"
  else if (n =? 13)%nat then String BACKSLASH "r"
  else if (n =? 34)%nat then String BACKSLASH (String DQUOTE "")
  else if (n =? 92)%nat then String BACKSLASH (String BACKSLASH "")
  else if (n <? 32)%nat then
    String BACKSLASH
      (String "u" (String "0" (String "0"
        (String (hex_digit (n / 16)) (String (hex_digit (n mod 16)) "")))))
  else String c "".

Fixpoint escape (s : string) : string :=
  match s with
  | "" => ""
  | String c r => escape_char c ++ escape r
  end.

Definition quote (s : string) : string :=
  String DQUOTE (escape s ++ String DQUOTE "").

(** [JSON.stringify(v)] without indentation, on a value that [JSON.parse]
    produced: such a value has no [undefined], function or cycle in it, so
    the result is always a string. *)
Fixpoint stringify (v : value) : string :=
  match v with
  | JNull => "null"
  | JBool true => "true"
  | JBool false => "false"
  | JNum z => NumberToString z
  | JStr s => quote s
  | JArr l => "[" ++ join "," (map stringify l) ++ "]"
  | JObj m =>
      "{" ++ join "," (map (fun kv => match kv with
                                      | (k, x) => quote k ++ ":" ++ stringify x
                                      end) m) ++ "}"
  end.

(** ** [JSON.parse] *)

(** JSON white space: TAB, LF, CR and SP. *)
Definition is_json_ws (c : ascii) : bool :=
  let n := code c in
  ((n =? 9) || (n =? 10) || (n =? 13) || (n =? 32))%nat.

Fixpoint skip_ws (s : string) : string :=
  match s with
  | "" => ""
  | String c r => if is_json_ws c then skip_ws r else s
  end.

Definition hex_val (c : ascii) : option nat :=
  let n := code c in
  if ((48 <=? n) && (n <=? 57))%nat then Some (n - 48)%nat
  else if ((97 <=? n) && (n <=? 102))%nat then Some (n - 87)%nat
  else if ((65 <=? n) && (n <=? 70))%nat then Some (n - 55)%nat
  else None.

(** The code unit written with four hexadecimal digits after a backslash
    and the letter u; [None] outside Latin-1. *)
Definition hex4 (h1 h2 h3 h4 : ascii) : option ascii :=
  match hex_val h1, hex_val h2, hex_val h3, hex_val h4 with
  | Some a, Some b, Some c, Some d =>
      if ((a =? 0) && (b =? 0))%nat then Some (ascii_of_nat (16 * c + d))
      else None
  | _, _, _, _ => None
  end.

(** The character denoted by a one-letter escape. *)
Definition simple_escape (e : ascii) : option ascii :=
  if (e =? DQUOTE)%char then Some DQUOTE
  else if (e =? BACKSLASH)%char then Some BACKSLASH
  else if (e =? "/")%char then Some "/"%char
  else if (e =? "b")%char then Some "008"%char
  else if (e =? "f")%char then Some "012"%char
  else if (e =? "n")%char then Some "010"%char
  else if (e =? "r")%char then Some "013"%char
  else if (e =? "t")%char then Some "009"%char
  else None.

Definition cons_char (c : ascii) (r : option (string * string))
  : option (string * string) :=
  match r with
  | Some (t, rest) => Some (String c t, rest)
  | None => None
  end.

(** The characters of a string literal after its opening quote, up to and
    including the closing quote; the result is the string and what follows
    the literal.  A raw control character is a syntax error. *)
Fixpoint parse_chars (s : string) : option (string * string) :=
  match s with
  | "" => None
  | String c r =>
      if (c =? DQUOTE)%char then Some ("", r)
      else if (c =? BACKSLASH)%char then
        match r with
        | "" => None
        | String e r1 =>
            if (e =? "u")%char then
              match r1 with
              | String h1 (String h2 (String h3 (String h4 r2))) =>
                  match hex4 h1 h2 h3 h4 with
                  | Some c' => cons_char c' (parse_chars r2)
                  | None => None
                  end
              | _ => None
              end
            else
              match simple_escape e with
              | Some c' => cons_char c' (parse_chars r1)
              | None => None
              end
        end
      else if (code c <? 32)%nat then None
      else cons_char c (parse_chars r)
  end.

(** A maximal run of decimal digits and what follows it. *)
Fixpoint span_digits (s : string) : string * string :=
  match s with
  | "" => ("", "")
  | String c r =>
      if is_digit c then
        match span_digits r with (d, rest) => (String c d, rest) end
      else ("", s)
  end.

Definition starts_fraction_or_exponent (s : string) : bool :=
  match s with
  | "" => false
  | String c _ => ((c =? ".") || (c =? "e") || (c =? "E"))%char
  end.

(** An unsigned JSON integer: [0], or a non-zero digit followed by digits.
    A fraction or an exponent after it is a number outside the integer
    model and is refused, where [JSON.parse] accepts it: the parser is
    applied to the texts that [stringify] writes, which have neither. *)
Definition parse_unsigned (s : string) : option (Z * string) :=
  match span_digits s with
  | ("", _) => None
  | (String c d, rest) =>
      if ((c =? "0")%char && negb (d =? "")%string)%bool then None
      else if starts_fraction_or_exponent rest then None
      else match digits_value (String c d) 0 with
           | Some z => Some (z, rest)
           | None => None
           end
  end.

Definition parse_number (s : string) : option (value * string) :=
  match s with
  | "" => None
  | String c r =>
      if (c =? "-")%char then
        match parse_unsigned r with
        | Some (z, rest) => Some (JNum (- z), rest)
        | None => None
        end
      else
        match parse_unsigned s with
        | Some (z, rest) => Some (JNum z, rest)
        | None => None
        end
  end.

(** [expect lit s]: [s] with the prefix [lit] removed. *)
Fixpoint expect (lit s : string) : option string :=
  match lit, s with
  | "", _ => Some s
  | String a lit', String b s' =>
      if (a =? b)%char then expect lit' s' else None
  | _, "" => None
  end.

(** The recursive-descent parser.  [fuel] bounds the number of nested calls;
    [JSON_parse] below provides the length of the text: every call that
    uses fuel is paid for by a character of its own.
    [parse_elements] reads the elements of a non-empty array after the
    opening bracket, [parse_members] the members of a non-empty object after
    the opening brace, both up to and including the closing delimiter. *)
Fixpoint parse_value (fuel : nat) (s : string) {struct fuel}
  : option (value * string) :=
  match fuel with
  | O => None
  | S fuel' =>
      match skip_ws s with
      | "" => None
      | String c r =>
          if (c =? "n")%char then
            option_map (fun rest => (JNull, rest)) (expect "ull" r)
          else if (c =? "t")%char then
            option_map (fun rest => (JBool true, rest)) (expect "rue" r)
          else if (c =? "f")%char then
            option_map (fun rest => (JBool false, rest)) (expect "alse" r)
          else if (c =? DQUOTE)%char then
            match parse_chars r with
            | Some (str, rest) => Some (JStr str, rest)
            | None => None
            end
          else if (c =? "[")%char then
            match skip_ws r with
            | String c' r' =>
                if (c' =? "]")%char then Some (JArr [], r')
                else match parse_elements fuel' r with
                     | Some (l, rest) => Some (JArr l, rest)
                     | None => None
                     end
            | "" => None
            end
          else if (c =? "{")%char then
            match skip_ws r with
            | String c' r' =>
                if (c' =? "}")%char then Some (JObj [], r')
                else match parse_members fuel' r with
                     | Some (m, rest) =>
                         Some (JObj (fold_left obj_define m []), rest)
                     | None => None
                     end
            | "" => None
            end
          else parse_number (String c r)
      end
  end

with parse_elements (fuel : nat) (s : string) {struct fuel}
  : option (list value * string) :=
  match fuel with
  | O => None
  | S fuel' =>
      match parse_value fuel' s with
      | None => None
      | Some (v, r) =>
          match skip_ws r with
          | "" => None
          | String c r' =>
              if (c =? ",")%char then
                match parse_elements fuel' r' with
                | Some (l, rest) => Some (v :: l, rest)
                | None => None
                end
              else if (c =? "]")%char then Some ([v], r')
              else None
          end
      end
  end

with parse_members (fuel : nat) (s : string) {struct fuel}
  : option (list (string * value) * string) :=
  match fuel with
  | O => None
  | S fuel' =>
      match skip_ws s with
      | "" => None
      | String q r0 =>
          if (q =? DQUOTE)%char then
            match parse_chars r0 with
            | None => None
            | Some (k, r1) =>
                match skip_ws r1 with
                | "" => None
                | String colon r2 =>
                    if (colon =? ":")%char then
                      match parse_value fuel' r2 with
                      | None => None
                      | Some (v, r3) =>
                          match skip_ws r3 with
                          | "" => None
                          | String c r4 =>
                              if (c =? ",")%char then
                                match parse_members fuel' r4 with
                                | Some (m, rest) => Some ((k, v) :: m, rest)
                                | None => None
                                end
                              else if (c =? "}")%char then Some ([(k, v)], r4)
                              else None
                          end
                      end
                    else None
                end
            end
          else None
      end
  end.

(** [JSON.parse(text)]: one value surrounded by optional white space;
    [None] is a [SyntaxError]. *)
Definition JSON_parse (text : string) : option value :=
  match parse_value (String.length text) text with
  | Some (v, rest) =>
      match skip_ws rest with
      | "" => Some v
      | _ => None
      end
  | None => None
  end.

(** ** Where the integers of the model are the numbers of JavaScript *)

(** The integers that a number holds exactly and prints digit by digit:
    those between [-(2^53 - 1)] and [2^53 - 1]. *)
Definition safe_integer (z : Z) : bool :=
  (- (2 ^ 53 - 1) <=? z) && (z <=? 2 ^ 53 - 1).

(** Every number inside a value is such an integer.  A payload read by
    [resp.json()] can hold other numbers (a fraction, or [Infinity] for a
    literal that overflows, which [JSON.stringify] writes as [null]); they
    are outside the model. *)
Fixpoint exact_numbers (v : value) : bool :=
  match v with
  | JNum z => safe_integer z
  | JArr l => forallb exact_numbers l
  | JObj m => forallb (fun kv => match kv with (_, x) => exact_numbers x end) m
  | _ => true
  end.

Fixpoint all_of (p : ascii -> bool) (s : string) : bool :=
  match s with
  | "" => true
  | String c r => p c && all_of p r
  end.

(** A non-empty run of characters of one class. *)
Definition run_of (p : ascii -> bool) (s : string) : bool :=
  negb (s =? "")%string && all_of p s.

Definition is_hex (c : ascii) : bool :=
  match hex_val c with
  | Some _ => true
  | None => false
  end.

Definition is_octal (c : ascii) : bool :=
  ((48 <=? code c) && (code c <=? 55))%nat.

Definition is_binary (c : ascii) : bool :=
  ((code c =? 48) || (code c =? 49))%nat.

Definition strip_sign (s : string) : string :=
  match s with
  | "" => ""
  | String c r => if ((c =? "+") || (c =? "-"))%char then r else s
  end.

(** [ExponentPart], or nothing. *)
Definition exponent_part (s : string) : bool :=
  match s with
  | "" => true
  | String c r =>
      ((c =? "e") || (c =? "E"))%char && run_of is_digit (strip_sign r)
  end.

(** [StrUnsignedDecimalLiteral]: [Infinity], or digits with an optional
    fraction and an optional exponent, where the digits before or after the
    point may be missing but not both. *)
Definition unsigned_decimal (s : string) : bool :=
  (s =? "Infinity")%string
  || match span_digits s with
     | (int, String "." r) =>
         match span_digits r with
         | (frac, rest) =>
             (negb (int =? "")%string || negb (frac =? "")%string)
             && exponent_part rest
         end
     | (int, rest) => negb (int =? "")%string && exponent_part rest
     end.

(** [NonDecimalIntegerLiteral]: hexadecimal, octal or binary digits after
    their prefix, without sign. *)
Definition non_decimal (s : string) : bool :=
  match s with
  | String z (String c r) =>
      (z =? "0")%char
      && ((((c =? "x") || (c =? "X"))%char && run_of is_hex r)
          || (((c =? "o") || (c =? "O"))%char && run_of is_octal r)
          || (((c =? "b") || (c =? "B"))%char && run_of is_binary r))
  | _ => false
  end.

(** [StringNumericLiteral]: the texts that [Number] does not turn into
    [NaN].  White space around the literal is allowed, and the empty text
    is [0]. *)
Definition numeric_text (s : string) : bool :=
  let t := trim s in
  (t =? "")%string || non_decimal t || unsigned_decimal (strip_sign t).

(** [StringToNumber] gives what [Number] gives: the text is an integer
    literal of a safe integer, or it is no numeric literal at all and both
    give [NaN].  The numeric texts in between (["2.5"], ["1e10"], ["0x10"],
    ["Infinity"]) are numbers for [Number] and outside the model. *)
Definition exact_text (s : string) : bool :=
  match StringToNumber s with
  | Some z => safe_integer z
  | None => negb (numeric_text s)
  end.

(** [String(v)] is the text that [ToString] computes: every number that
    is printed is a safe integer, and no object that is printed has a
    property [toString] of its own.  (A value read from JSON is not
    callable; with such a property in the way of the inherited method,
    [String], a template and [Number] throw a [TypeError], which the model
    does not have.) *)
Fixpoint prints_exactly (v : value) : bool :=
  match v with
  | JNum z => safe_integer z
  | JArr l => forallb prints_exactly l
  | JObj m => negb (mem "toString" (keys m))
  | _ => true
  end.

(** The values [v] for which the model computes [Number(v)], and with it
    [String(Number(v))], the length of [Array.from] and the end of
    [slice], as JavaScript does. *)
Definition exact_count (v : value) : bool :=
  match v with
  | JNum z => safe_integer z
  | JStr s => exact_text s
  | JArr _ => prints_exactly v && exact_text (ToString v)
  | JObj _ => prints_exactly v
  | _ => true
  end.

End JS.


(* ===================================================================== *)
(** * [server.js] *)
(* ===================================================================== *)

Module Server.
Import JS.

(** ** Configuration (lines 11-15) *)

(** The environment variables that the server reads. *)
Record Env : Type := {
  env_DEEPINFRA_API_KEY : option string;
  env_DEV_FALLBACK : option string;
  env_TEXT_MODEL : option string;
  env_IMAGE_MODEL : option string
}.

(** [process.env.X || fallback]: an unset or empty variable is falsy. *)
Definition env_or (x : option string) (fallback : string) : string :=
  match x with
  | Some s => if (s =? "")%string then fallback else s
  | None => fallback
  end.

Record Config : Type := {
  DEEPINFRA_API_KEY : string;
  DEV_FALLBACK : bool;
  TEXT_MODEL : string;
  IMAGE_MODEL : string
}.

Definition load_config (e : Env) : Config :=
  {| DEEPINFRA_API_KEY := env_or (env_DEEPINFRA_API_KEY e) "";
     DEV_FALLBACK :=
       (toLowerCase (env_or (env_DEV_FALLBACK e) "true") =? "true")%string;
     TEXT_MODEL := env_or (env_TEXT_MODEL e) "meta-llama/Meta-Llama-3-8B-Instruct";
     IMAGE_MODEL := env_or (env_IMAGE_MODEL e) "stabilityai/stable-diffusion-2-1" |}.

(** [!DEEPINFRA_API_KEY]. *)
Definition no_key (cfg : Config) : bool :=
  negb (truthy (JStr (DEEPINFRA_API_KEY cfg))).

(** ** The upstream service *)

(** What [fetchWithTimeout] is called with: the URL, the options (method,
    the two headers, body) and the timeout in milliseconds. *)
Record Request : Type := {
  url : string;
  method : string;
  authorization : string;
  content_type : string;
  body : string;
  timeout : Z
}.

(** A response of the upstream: its status, the result of [resp.text()]
    (reading the body as text is taken to succeed) and the result of
    [resp.json()], which is [inl err] when the promise rejects (the body is
    not JSON) with [String(err) = err].  The handler reads the body once,
    one way or the other, so the two fields are independent. *)
Record Response : Type := {
  status : Z;
  text : string;
  json : string + value
}.

(** [resp.ok]: the status is in the range 200-299. *)
Definition ok (r : Response) : bool :=
  (200 <=? status r) && (status r <=? 299).

(** The outcome of one [fetch]: it rejects (network failure, or the abort
    that the timer of [fetchWithTimeout] triggers) or resolves. *)
Inductive Fetched : Type :=
| Rejected (err : string)
| Resolved (r : Response).

(** The upstream decides the outcome of the [n]-th call of a request
    handling from its position and its content. *)
Definition Upstream : Type := nat -> Request -> Fetched.

(** ** Control flow: state and exceptions *)

(** The state of one run of the handler: the upstream calls issued so far,
    oldest first, and the [images] array of line 119. *)
Record State : Type := {
  calls : list Request;
  images : list value
}.

(** An exception is represented by its [String(err)]. *)
Inductive Outcome (A : Type) : Type :=
| Ok (a : A)
| Throw (err : string).
Arguments Ok {A} a.
Arguments Throw {A} err.

Definition M (A : Type) : Type := State -> Outcome A * State.

Definition ret {A : Type} (a : A) : M A := fun st => (Ok a, st).

Definition throw {A : Type} (err : string) : M A := fun st => (Throw err, st).

Definition bind {A B : Type} (m : M A) (k : A -> M B) : M B :=
  fun st =>
    match m st with
    | (Ok a, st') => k a st'
    | (Throw err, st') => (Throw err, st')
    end.

(** [try { m } catch (err) { h err }]: the state changes made before the
    exception are kept. *)
Definition try_catch {A : Type} (m : M A) (h : string -> M A) : M A :=
  fun st =>
    match m st with
    | (Ok a, st') => (Ok a, st')
    | (Throw err, st') => h err st'
    end.

Notation "x <- m ;; k" := (bind m (fun x => k))
  (at level 61, m at next level, right associativity).
Notation "m ;;; k" := (bind m (fun _ => k))
  (at level 61, right associativity).

(** [images.push(x)]. *)
Definition push (x : value) : M unit :=
  fun st => (Ok tt, {| calls := calls st; images := (images st ++ [x])%list |}).

Definition get_images : M (list value) := fun st => (Ok (images st), st).

(** ** HTTP responses of the server *)

Record HttpResponse : Type := {
  http_status : Z;
  http_body : value
}.

(** [res.json(b)] answers with status 200, [res.status(n).json(b)] with
    [n]. *)
Definition res_json (b : value) : HttpResponse :=
  {| http_status := 200; http_body := b |}.

Definition res_status_json (n : Z) (b : value) : HttpResponse :=
  {| http_status := n; http_body := b |}.

(** ** [extractTextFromDeepInfra] (lines 37-51) *)

(** Each [if (...) return ...;] of the function is an attempt: [Some v] when
    the statement returns [v], [None] when control falls through. *)

(** Line 41. *)
Definition try_output (respJson : value) : option value :=
  match get respJson "output" with
  | Some o => if truthy o then Some o else None
  | None => None
  end.

(** Lines 42-45. *)
Definition try_results (respJson : value) : option value :=
  if isArray (get respJson "results") then
    match index0_opt (get respJson "results") with
    | Some r0 =>
        if truthy r0 then
          Some (coalesce (get r0 "output")
                 (coalesce (get r0 "content")
                   (coalesce (get r0 "text") (JStr (stringify r0)))))
        else None
    | None => None
    end
  else None.

(** Lines 46-48. *)
Definition try_choices (respJson : value) : option value :=
  if truthy_opt (get respJson "choices") && isArray (get respJson "choices")
  then
    match index0_opt (get respJson "choices") with
    | Some c0 =>
        if truthy c0 then
          Some (coalesce (get c0 "text")
                 (coalesce (get_opt (get c0 "message") "content")
                   (JStr (stringify c0))))
        else None
    | None => None
    end
  else None.

(** Line 49. *)
Definition try_detail (respJson : value) : option value :=
  match get respJson "detail" with
  | Some d =>
      if truthy d && truthy_opt (get d "error") then Some (JStr (stringify d))
      else None
  | None => None
  end.

(** The result [JNull] is the [null] of line 39. *)
Definition extractTextFromDeepInfra (respJson : value) : value :=
  if negb (truthy respJson) then JNull
  else if is_string respJson then respJson
  else
    match try_output respJson with
    | Some v => v
    | None =>
    match try_results respJson with
    | Some v => v
    | None =>
    match try_choices respJson with
    | Some v => v
    | None =>
    match try_detail respJson with
    | Some v => v
    | None => JStr (stringify respJson)
    end end end end.

(** ** [POST /api/generate-story] (lines 53-162) *)

Definition NL : string := String LF "".

(** The destructured request body of line 55. *)
Record Params : Type := {
  genre : value;
  characters : value;
  paragraphs : value;
  imagesPerParagraph : value
}.

(** A default applies when the property is [undefined], that is, absent. *)
Definition with_default (o : option value) (d : value) : value :=
  match o with
  | Some v => v
  | None => d
  end.

(** The [String(err)] of the [TypeError] that destructuring [undefined] or
    [null] throws.  The wording is the engine's (here V8's) and names the
    value found; no statement depends on it. *)
Definition destructure_error (req_body : option value) : string :=
  "TypeError: Cannot destructure property 'genre' of 'req.body' as it is "
  ++ match req_body with
     | Some _ => "null"
     | None => "undefined"
     end
  ++ ".".

(** Line 55.  [req.body] is [None] when no body was parsed; destructuring
    [undefined] or [null] throws a [TypeError]. *)
Definition destructure (req_body : option value) : M Params :=
  match req_body with
  | None | Some JNull => throw (destructure_error req_body)
  | Some b =>
      ret {| genre := with_default (get b "genre") (JStr "fantasy");
             characters := with_default (get b "characters") (JArr []);
             paragraphs := with_default (get b "paragraphs") (JNum 3);
             imagesPerParagraph :=
               with_default (get b "imagesPerParagraph") (JBool false) |}
  end.

(** Line 56. *)
Definition charStr_of (characters : value) : value :=
  match characters with
  | JArr l => JStr (Array_join l ", ")
  | _ => characters
  end.

(** Line 59. *)
Definition prompt_of (p : Params) : string :=
  "System: You are a helpful creative fiction writer." ++ NL
  ++ "User: Write a " ++ number_text (ToNumber (paragraphs p))
  ++ "-paragraph " ++ ToString (genre p)
  ++ " short story for adults. Characters: "
  ++ ToString (charStr_of (characters p)) ++ "." ++ NL
  ++ "Constraints: Each paragraph should be distinct and between 2-6 sentences. After the story include a 1-2 sentence preface/summary. Output only the story and the preface.".

(** [a || b]. *)
Definition or_else (a b : value) : value := if truthy a then a else b.

(** [Array.from({ length: n }, f)]: the length goes through [ToLength], and
    creating an array of more than [2^32 - 1] elements throws. *)
Definition Array_from_length {A : Type} (n : option Z) (f : nat -> A)
  : M (list A) :=
  if 2 ^ 32 - 1 <? ToLength n then throw "RangeError: Invalid array length"
  else ret (map f (seq 0 (Z.to_nat (ToLength n)))).

(** [Number(paragraphs || 1)], the length asked of [Array.from] on lines 72
    and 109. *)
Definition placeholder_length (p : Params) : option Z :=
  ToNumber (or_else (paragraphs p) (JNum 1)).

(** The placeholder paragraphs of lines 72 and 109, which differ in the
    adjective [kind] only. *)
Definition dummy_paragraph (kind : string) (p : Params) (i : nat) : string :=
  "Paragraph " ++ NumberToString (Z.of_nat i + 1) ++ ": A " ++ kind ++ " "
  ++ ToString (genre p) ++ " scene featuring "
  ++ ToString (or_else (charStr_of (characters p)) (JStr "characters")) ++ ".".

(** Lines 72-74 with [kind = "short"] and [preface = "Preface: This is a
    placeholder summary."]; lines 109-111 with [kind = "fallback"] and
    [preface = "Preface: This is a fallback placeholder."]. *)
Definition dummy_response (kind preface : string) (p : Params)
  : M HttpResponse :=
  paragraphsArr <-
    Array_from_length (placeholder_length p) (dummy_paragraph kind p) ;;
  let dummyStory := join (NL ++ NL) paragraphsArr ++ NL ++ NL ++ preface in
  ret (res_json (JObj [("story", JStr dummyStory);
                       ("paragraphs", JArr (map JStr paragraphsArr));
                       ("images", JArr [])])).

Section Handler.

Variable cfg : Config.
Variable upstream : Upstream.

(** [fetchWithTimeout] (lines 23-34): the call is issued, and its outcome is
    returned or thrown again. *)
Definition fetchWithTimeout (rq : Request) : M Response :=
  fun st =>
    let st' := {| calls := (calls st ++ [rq])%list; images := images st |} in
    match upstream (List.length (calls st)) rq with
    | Rejected err => (Throw err, st')
    | Resolved r => (Ok r, st')
    end.

(** [await resp.json()]. *)
Definition resp_json (r : Response) : M value :=
  match json r with
  | inl err => throw err
  | inr v => ret v
  end.

Definition bearer : string := "Bearer " ++ DEEPINFRA_API_KEY cfg.

(** Lines 78 and 81-88: the request sent to the text model. *)
Definition text_request (p : Params) : Request :=
  let modelUrl := "https://api.deepinfra.com/v1/inference/" ++ TEXT_MODEL cfg in
  {| url := modelUrl;
     method := "POST";
     authorization := bearer;
     content_type := "application/json";
     body := stringify (JObj [("input", JStr (prompt_of p));
                              ("max_output_tokens", JNum 800)]);
     timeout := 60000 |}.

(** Lines 78-114: the call of the text model.  The result is [inl r] when
    the handler returns the response [r] from inside the block and
    [inr textResp] when control leaves the block normally. *)
Definition call_text_model (p : Params) : M (HttpResponse + value) :=
  try_catch
    (resp <- fetchWithTimeout (text_request p) ;;
     if negb (ok resp) then
       let bodyText := text resp in
       if includes (toLowerCase bodyText) "balance"
          || includes (toLowerCase bodyText) "top-up"
       then
         ret (inl (res_status_json 402
                (JObj [("code", JStr "insufficient_balance");
                       ("message", JStr "DeepInfra account has insufficient balance. Top up to enable inference.");
                       ("detail", JStr bodyText)])))
       else
         ret (inl (res_status_json 502
                (JObj [("code", JStr "upstream_error");
                       ("status", JNum (status resp));
                       ("detail", JStr bodyText)])))
     else
       textResp <- resp_json resp ;;
       ret (inr textResp))
    (fun err =>
       if DEV_FALLBACK cfg then
         r <- dummy_response "fallback"
                "Preface: This is a fallback placeholder." p ;;
         ret (inl r)
       else
         ret (inl (res_status_json 502
                (JObj [("error", JStr "network_or_upstream");
                       ("message", JStr err)])))).

(** Line 123. *)
Definition paraArr_of (storyText : value) (paragraphs : value) : list value :=
  match storyText with
  | JStr s =>
      map JStr
        (slice0 (filter (fun p => truthy (JStr (trim p))) (split_newlines s))
                paragraphs)
  | _ => [storyText]
  end.

(** Line 145. *)
Definition image_url (imgJson : value) : value :=
  coalesce (get_opt (Some imgJson) "output_url")
    (coalesce (get_opt (Some imgJson) "url")
      (coalesce (get_opt (index0_opt (get_opt (Some imgJson) "results"))
                   "output")
         JNull)).

(** Lines 126-135: the request sent to the image model for paragraph [p]. *)
Definition image_request (p : value) : Request :=
  let imgPrompt :=
    "Create an illustration for: " ++ ToString p ++ NL
    ++ "Style: cinematic, detailed, suitable for a book illustration." in
  let imgUrl := "https://api.deepinfra.com/v1/inference/" ++ IMAGE_MODEL cfg in
  {| url := imgUrl;
     method := "POST";
     authorization := bearer;
     content_type := "application/json";
     body := stringify (JObj [("prompt", JStr imgPrompt)]);
     timeout := 90000 |}.

(** Lines 124-148: the loop over [paraArr], from its current element on. *)
Fixpoint image_loop (paraArr : list value) : M unit :=
  match paraArr with
  | [] => ret tt
  | p :: rest =>
      resp <- fetchWithTimeout (image_request p) ;;
      if negb (ok resp) then
        let txt := text resp in
        push (JObj [("error",
                     JStr ("image_upstream_" ++ NumberToString (status resp)));
                    ("detail", JStr txt)]) ;;;
        image_loop rest
      else
        imgJson <- resp_json resp ;;
        let url := image_url imgJson in
        (if truthy url then push (JObj [("url", url)])
         else push (JObj [("raw", imgJson)])) ;;;
        image_loop rest
  end.

(** Lines 120-153. *)
Definition generate_images (storyText : value) (p : Params) : M unit :=
  if truthy (imagesPerParagraph p) then
    try_catch
      (image_loop (paraArr_of storyText (paragraphs p)))
      (fun err =>
         push (JObj [("error", JStr "image_generation_failed");
                     ("message", JStr err)]))
  else ret tt.

(** Lines 54-161. *)
Definition handler (req_body : option value) : M HttpResponse :=
  try_catch
    (p <- destructure req_body ;;
     if no_key cfg && DEV_FALLBACK cfg then
       dummy_response "short" "Preface: This is a placeholder summary." p
     else
       r <- call_text_model p ;;
       match r with
       | inl response => ret response
       | inr textResp =>
           let storyText :=
             coalesce (Some (extractTextFromDeepInfra textResp))
                      (JStr (stringify textResp)) in
           generate_images storyText p ;;;
           images <- get_images ;;
           ret (res_json (JObj [("story", JStr (ToString storyText));
                                ("raw", textResp);
                                ("images", JArr images)]))
       end)
    (fun err =>
       ret (res_status_json 500
              (JObj [("error", JStr "server_error");
                     ("message", JStr err)]))).

(** One request: the response sent and the upstream calls made for it. *)
Definition generate_story (req_body : option value)
  : option HttpResponse * list Request :=
  match handler req_body {| calls := []; images := [] |} with
  | (Ok r, st) => (Some r, calls st)
  | (Throw _, st) => (None, calls st)
  end.

End Handler.

End Server.


(* ===================================================================== *)
(** * Vocabulary of the statements *)
(* ===================================================================== *)

Module Vocabulary.
Import JS Server.

(** The parameters that line 55 extracts from a body that is neither
    [undefined] nor [null]. *)
Definition params_of (b : value) : Params :=
  {| genre := with_default (get b "genre") (JStr "fantasy");
     characters := with_default (get b "characters") (JArr []);
     paragraphs := with_default (get b "paragraphs") (JNum 3);
     imagesPerParagraph :=
       with_default (get b "imagesPerParagraph") (JBool false) |}.

(** The paragraphs and the body of a placeholder story. *)
Definition placeholder_paragraphs (kind : string) (p : Params) : list string :=
  map (dummy_paragraph kind p)
      (seq 0 (Z.to_nat (ToLength (placeholder_length p)))).

Definition placeholder_body (kind preface : string) (p : Params) : value :=
  let ps := placeholder_paragraphs kind p in
  JObj [("story", JStr (join (NL ++ NL) ps ++ NL ++ NL ++ preface));
        ("paragraphs", JArr (map JStr ps));
        ("images", JArr [])].

(** An upstream call fails with an exception [err]: the fetch rejects
    (network failure, timeout), or it resolves with a 2xx status and a body
    that is not JSON. *)
Definition fetch_throws (f : Fetched) (err : string) : Prop :=
  f = Rejected err
  \/ exists r, f = Resolved r /\ ok r = true /\ json r = inl err.

(** The upstream is reached: the early return of line 71 is not taken. *)
Definition calls_upstream (cfg : Config) : Prop :=
  no_key cfg && DEV_FALLBACK cfg = false.

(** The failure signature that line 94 looks for in the body of a non-2xx
    answer of the text model. *)
Definition mentions_balance (bodyText : string) : bool :=
  includes (toLowerCase bodyText) "balance"
  || includes (toLowerCase bodyText) "top-up".

(** The first element of an array, when it is truthy. *)
Definition has_truthy_first (o : option value) : bool :=
  match o with
  | Some (JArr (x :: _)) => truthy x
  | _ => false
  end.

(** The payload shapes that the extractor recognizes: a truthy [output], a
    [results] or a [choices] array with a truthy first element, a truthy
    [detail] with a truthy [error]. *)
Definition recognized_shape (payload : value) : bool :=
  truthy_opt (get payload "output")
  || has_truthy_first (get payload "results")
  || has_truthy_first (get payload "choices")
  || match get payload "detail" with
     | Some d => truthy d && truthy_opt (get d "error")
     | None => false
     end.

(** What may follow a value in a JSON text produced by [stringify]: the end
    of the text, a comma, or a closing bracket or brace. *)
Definition closes (rest : string) : Prop :=
  match rest with
  | "" => True
  | String c _ => c = ","%char \/ c = "]"%char \/ c = "}"%char
  end.

(** The characters that a printed value can start with. *)
Definition value_start (c : ascii) : bool :=
  is_digit c
  || existsb (Ascii.eqb c)
       ["-"; "n"; "t"; "f"; DQUOTE; "["; "{"]%char.

(** The text of one property. *)
Definition member_text (kv : string * value) : string :=
  match kv with
  | (k, x) => quote k ++ ":" ++ stringify x
  end.

(** The property proved by induction: a well-formed value, printed and
    followed by something that closes it, is read back with enough fuel. *)
Definition reads_back (v : value) : Prop :=
  well_formed v = true ->
  forall fuel rest,
    closes rest ->
    (String.length (stringify v) <= fuel)%nat ->
    parse_value fuel (stringify v ++ rest) = Some (v, rest).







(** The request as its sender means it, read off the body field by field:
    the genre (["fantasy"] when the field is missing), the character string
    (the names joined with a comma and a space when they come as an array,
    the value itself otherwise, the empty list when the field is missing),
    the paragraph count (an integer, 3 when the field is missing) and the
    image switch (off when the field is missing). *)
Definition genre_text (b : value) : string :=
  match get b "genre" with
  | Some g => ToString g
  | None => "fantasy"
  end.

Definition character_string (b : value) : value :=
  match get b "characters" with
  | Some (JArr names) => JStr (Array_join names ", ")
  | Some c => c
  | None => JStr (Array_join [] ", ")
  end.

Definition requested_count (b : value) (N : Z) : Prop :=
  get b "paragraphs" = Some (JNum N)
  \/ (get b "paragraphs" = None /\ N = 3).

Definition wants_images (b : value) : bool :=
  match get b "imagesPerParagraph" with
  | Some v => truthy v
  | None => false
  end.

(** The genre and the characters can be written into a text as the model
    writes them; strings and arrays of strings, as the data model has
    them, always can. *)
Definition plain_fields (b : value) : bool :=
  match get b "genre" with
  | Some g => prints_exactly g
  | None => true
  end
  && match get b "characters" with
     | Some c => prints_exactly c
     | None => true
     end.

(** The prompt that such a request is to produce, and its placeholder
    paragraphs. *)
Definition expected_prompt (b : value) (N : Z) : string :=
  "System: You are a helpful creative fiction writer." ++ NL
  ++ "User: Write a " ++ NumberToString N ++ "-paragraph " ++ genre_text b
  ++ " short story for adults. Characters: "
  ++ ToString (character_string b) ++ "." ++ NL
  ++ "Constraints: Each paragraph should be distinct and between 2-6 sentences. After the story include a 1-2 sentence preface/summary. Output only the story and the preface.".

Definition expected_paragraph (kind : string) (b : value) (i : nat) : string :=
  "Paragraph " ++ NumberToString (Z.of_nat i + 1) ++ ": A " ++ kind ++ " "
  ++ genre_text b ++ " scene featuring "
  ++ (if truthy (character_string b) then ToString (character_string b)
      else "characters")
  ++ ".".

End Vocabulary.

(* ===================================================================== *)
(** * Concrete configurations, upstreams and requests *)
(* ===================================================================== *)

Module Examples.
Import JS Server Vocabulary.

(** No variable set: no key, and fallback mode is on by default. *)
Definition cfg_no_key : Config :=
  load_config {| env_DEEPINFRA_API_KEY := None;
                 env_DEV_FALLBACK := None;
                 env_TEXT_MODEL := None;
                 env_IMAGE_MODEL := None |}.

(** A key is set; fallback mode is on by default. *)
Definition cfg_key : Config :=
  load_config {| env_DEEPINFRA_API_KEY := Some "sk-test";
                 env_DEV_FALLBACK := None;
                 env_TEXT_MODEL := None;
                 env_IMAGE_MODEL := None |}.


(** An upstream that cannot be reached. *)
Definition up_down : Upstream := fun _ _ => Rejected "AbortError: This operation was aborted".

(** What the form of the client sends, with images switched on. *)
Definition body_form : value :=
  JObj [("genre", JStr "mystery");
        ("characters", JArr [JStr "Arya"; JStr "Tom"]);
        ("paragraphs", JNum 3);
        ("imagesPerParagraph", JBool true)].


(** An upstream out of credit: status 402 and a body that says so. *)
Definition resp_no_credit : Response :=
  {| status := 402;
     text := "{'detail': 'Insufficient Balance, please top-up'}";
     json := inl "SyntaxError: Unexpected token" |}.

Definition up_no_credit : Upstream := fun _ _ => Resolved resp_no_credit.

(** A story of three paragraphs, as the text model may return it. *)
Definition story_three : string :=
  "One." ++ NL ++ NL ++ "Two." ++ NL ++ NL ++ "Three.".

Definition resp_story : Response :=
  {| status := 200;
     text := "";
     json := inr (JObj [("choices", JArr [JObj [("text", JStr story_three)]])]) |}.

Definition resp_image (u : string) : Response :=
  {| status := 200; text := ""; json := inr (JObj [("output_url", JStr u)]) |}.

Definition resp_overloaded : Response :=
  {| status := 503; text := "Service Unavailable"; json := inl "SyntaxError: Unexpected token" |}.

(** The text call and the image calls succeed, except the image call for
    the second paragraph (the third call of the run), answered with 503. *)
Definition up_second_image_503 : Upstream :=
  fun n _ =>
    match n with
    | 0%nat => Resolved resp_story
    | 1%nat => Resolved (resp_image "https://img.example/1.png")
    | 2%nat => Resolved resp_overloaded
    | _ => Resolved (resp_image "https://img.example/3.png")
    end.

(** The same, except that the image call for the second paragraph times
    out. *)
Definition up_second_image_timeout : Upstream :=
  fun n _ =>
    match n with
    | 0%nat => Resolved resp_story
    | 1%nat => Resolved (resp_image "https://img.example/1.png")
    | 2%nat => Rejected "AbortError: This operation was aborted"
    | _ => Resolved (resp_image "https://img.example/3.png")
    end.


End Examples.

(* ===================================================================== *)
(** * The client form ([App], the second source file) *)
(* ===================================================================== *)

Module Client.
Import JS Server.

(** The state of [App] (lines 5-10).  [paragraphs] starts as the number [3]
    and becomes the text of the input once the user edits it; [story]
    becomes [resp.data.story], which is [None] when the answer has no such
    field. *)
Record AppState : Type := {
  genre : string;
  characters : string;
  paragraphs : value;
  loading : bool;
  story : option value;
  images : value
}.

Definition initial : AppState :=
  {| genre := "fantasy";
     characters := "Arya, Tom";
     paragraphs := JNum 3;
     loading := false;
     story := Some (JStr "");
     images := JArr [] |}.

(** The [onChange] handlers of lines 27, 33 and 37: each stores
    [e.target.value], a string. *)
Definition setGenre (v : string) (st : AppState) : AppState :=
  {| genre := v; characters := characters st; paragraphs := paragraphs st;
     loading := loading st; story := story st; images := images st |}.

Definition setCharacters (v : string) (st : AppState) : AppState :=
  {| genre := genre st; characters := v; paragraphs := paragraphs st;
     loading := loading st; story := story st; images := images st |}.

Definition setParagraphs (v : string) (st : AppState) : AppState :=
  {| genre := genre st; characters := characters st; paragraphs := JStr v;
     loading := loading st; story := story st; images := images st |}.

(** [s.split(sep)] for a separator of one character: [cur] is the piece
    being read.  The empty string splits into one empty piece. *)
Fixpoint split_on (sep : ascii) (s : string) (cur : string) : list string :=
  match s with
  | "" => [cur]
  | String c r =>
      if (c =? sep)%char then cur :: split_on sep r ""
      else split_on sep r (cur ++ String c "")
  end.

(** [characters.split(",")]. *)
Definition split_comma (s : string) : list string := split_on "," s "".

(** The data posted on lines 14-16. *)
Definition request_body (st : AppState) : value :=
  JObj [("genre", JStr (genre st));
        ("characters",
         JArr (map (fun s => JStr (trim s)) (split_comma (characters st))));
        ("paragraphs", paragraphs st)].

(** What [await axios.post(...)] gives: the promise is fulfilled with a
    response whose [data] is the parsed body, or it rejects.  With the
    defaults of axios it rejects when no response arrives and when the
    status is outside 200-299. *)
Inductive AxiosResult : Type :=
| Fulfilled (data : value)
| Failed (err : string).

Definition Post : Type := value -> AxiosResult.

(** [resp.data.images || []]. *)
Definition images_or_empty (data : value) : value :=
  match get data "images" with
  | Some v => if truthy v then v else JArr []
  | None => JArr []
  end.

(** [submit] (lines 12-21), as the state left when it ends.  There is no
    [try] around the [await]: when the promise rejects, and when [resp.data]
    is [null] so that line 18 throws, the three last setters are not
    reached. *)
Definition submit (post : Post) (st : AppState) : AppState :=
  let waiting :=
    {| genre := genre st; characters := characters st;
       paragraphs := paragraphs st; loading := true;
       story := story st; images := images st |} in
  match post (request_body st) with
  | Failed _ => waiting
  | Fulfilled JNull => waiting
  | Fulfilled data =>
      {| genre := genre st; characters := characters st;
         paragraphs := paragraphs st; loading := false;
         story := get data "story"; images := images_or_empty data |}
  end.

(** What one entry of [images] renders as (lines 46-51): an [img] element,
    or the falsy value that [img.base64 && ...] leaves, which shows
    nothing unless it is a number. *)
Inductive Element : Type :=
| Img (src : string) (alt : string)
| Leftover (v : option value).

(** Line 49; [None] is the [TypeError] of reading a property of [null]. *)
Definition render_image (img : value) (i : nat) : option Element :=
  match img with
  | JNull => None
  | _ =>
      match get img "url" with
      | Some u =>
          if truthy u then
            Some (Img (ToString u) ("para-" ++ NumberToString (Z.of_nat i)))
          else
            match get img "base64" with
            | Some b =>
                if truthy b then
                  Some (Img ("data:image/png;base64," ++ ToString b) "img")
                else Some (Leftover (Some b))
            | None => Some (Leftover None)
            end
      | None =>
          match get img "base64" with
          | Some b =>
              if truthy b then
                Some (Img ("data:image/png;base64," ++ ToString b) "img")
              else Some (Leftover (Some b))
          | None => Some (Leftover None)
          end
      end
  end.

(** [axios.post] against the server of [server.js]: the data travels as
    JSON and [express.json()] parses it (a text that does not parse is
    refused with 400 before the handler runs); the answer travels as JSON
    and axios parses it back, keeping the text when it does not parse. *)
Definition post_to_server (cfg : Config) (up : Upstream) : Post :=
  fun data =>
    match JSON_parse (stringify data) with
    | None => Failed "Request failed with status code 400"
    | Some received =>
        match fst (generate_story cfg up (Some received)) with
        | None => Failed "Network Error"
        | Some r =>
            if (200 <=? http_status r) && (http_status r <=? 299) then
              Fulfilled
                (match JSON_parse (stringify (http_body r)) with
                 | Some v => v
                 | None => JStr (stringify (http_body r))
                 end)
            else
              Failed ("Request failed with status code "
                      ++ NumberToString (http_status r))
        end
    end.

End Client.

(* ===================================================================== *)
(** * Vocabulary of the further properties *)
(* ===================================================================== *)

Module Coverage.
Import JS Server Vocabulary.

(** The two successful answers of the handler (lines 74, 111 and 156). *)
Definition placeholder_shape (r : HttpResponse) : Prop :=
  http_status r = 200
  /\ exists story ps,
       http_body r = JObj [("story", JStr story);
                           ("paragraphs", JArr (map JStr ps));
                           ("images", JArr [])].

Definition story_shape (r : HttpResponse) : Prop :=
  http_status r = 200
  /\ exists story raw imgs,
       http_body r = JObj [("story", JStr story);
                           ("raw", raw);
                           ("images", JArr imgs)].

(** The four error answers (lines 95, 102, 113 and 160). *)
Definition error_shape (r : HttpResponse) : Prop :=
  (http_status r = 402
   /\ exists detail,
        http_body r
        = JObj [("code", JStr "insufficient_balance");
                ("message", JStr "DeepInfra account has insufficient balance. Top up to enable inference.");
                ("detail", JStr detail)])
  \/ (http_status r = 502
      /\ exists st detail,
           http_body r = JObj [("code", JStr "upstream_error");
                               ("status", JNum st);
                               ("detail", JStr detail)])
  \/ (http_status r = 502
      /\ exists message,
           http_body r = JObj [("error", JStr "network_or_upstream");
                               ("message", JStr message)])
  \/ (http_status r = 500
      /\ exists message,
           http_body r = JObj [("error", JStr "server_error");
                               ("message", JStr message)]).

(** The slots that one paragraph can leave in [images] (lines 139, 146 and
    147), and the descriptor of line 151. *)
Definition paragraph_slot (s : value) : Prop :=
  (exists u, s = JObj [("url", u)] /\ truthy u = true)
  \/ (exists imgJson, s = JObj [("raw", imgJson)])
  \/ (exists st txt,
        s = JObj [("error", JStr ("image_upstream_" ++ NumberToString st));
                  ("detail", JStr txt)]).

Definition failure_slot (s : value) : Prop :=
  exists err, s = JObj [("error", JStr "image_generation_failed");
                        ("message", JStr err)].

(** The paragraphs that the image phase goes through (lines 120-123): none
    when images are not requested. *)
Definition image_paragraphs (storyText : value) (p : Params) : list value :=
  if truthy (imagesPerParagraph p) then paraArr_of storyText (paragraphs p)
  else [].

(** The story text of line 116. *)
Definition storyText_of (textResp : value) : value :=
  coalesce (Some (extractTextFromDeepInfra textResp))
           (JStr (stringify textResp)).



(** A value is absent or [null]. *)
Definition nullish (o : option value) : Prop := o = None \/ o = Some JNull.

(** A name of the form: no comma in it, no white space around it. *)
Fixpoint no_comma (s : string) : bool :=
  match s with
  | "" => true
  | String c r => negb (c =? ",")%char && no_comma r
  end.

End Coverage.

(* ===================================================================== *)
(** * Properties *)
(* ===================================================================== *)

Import JS Server Vocabulary Examples.


(** Evaluates the test and the value of a literal digit. *)
Ltac digit_step :=
  match goal with
  | |- context [is_digit ?c] => change (is_digit c) with true
  end;
  match goal with
  | |- context [digit_val ?c] =>
      let v := eval vm_compute in (digit_val c) in
      change (digit_val c) with v
  end;
  cbv iota.

(** ** The runtime fragment on small inputs *)

Example truthy_samples :
  map truthy [JNull; JBool false; JNum 0; JStr ""; JStr "0"; JArr []; JObj []]
  = [false; false; false; false; true; true; true].
Proof. reflexivity. Qed.

Example ToString_nested_array :
  ToString (JArr [JNum 1; JNull; JArr [JStr "a"; JBool true]; JObj []])
  = "1,,a,true,[object Object]".
Proof. reflexivity. Qed.

Example ToNumber_samples :
  map ToNumber [JStr " 12 "; JStr ""; JStr "-7"; JStr "abc"; JArr [JNum 5];
                JArr []; JBool true; JNull; JObj []]
  = [Some 12; Some 0; Some (-7); None; Some 5; Some 0; Some 1; Some 0; None].
Proof. reflexivity. Qed.

Example numeric_text_samples :
  map numeric_text ["12"; " -7 "; ""; "2.5"; "5."; ".5"; "1e10"; "1E+5";
                    "0x10"; "0b101"; "0O17"; "Infinity"; "-Infinity"]
  = [true; true; true; true; true; true; true; true; true; true; true; true;
     true]
  /\ map numeric_text ["abc"; "."; "e5"; "1e"; "0x"; "+0x10"; "infinity";
                       "1,2"; "5px"; "1.2.3"; "--5"]
     = [false; false; false; false; false; false; false; false; false;
        false; false].
Proof. split; reflexivity. Qed.

Example exact_count_samples :
  map exact_count [JNum 3; JStr "3"; JStr "abc"; JNull; JArr [JNum 5];
                   JStr "2.5"; JStr "1e10"; JStr "Infinity"; JNum (2 ^ 53);
                   JArr [JStr "0x10"]]
  = [true; true; true; true; true; false; false; false; false; false].
Proof. reflexivity. Qed.

(** The integer literals that [StringToNumber] evaluates are numeric
    literals: the texts that [exact_text] leaves out are numeric texts that
    are no integer literal, or integer literals of unsafe integers. *)
Lemma digits_value_all_digits (s : string) :
  forall acc z, digits_value s acc = Some z -> all_of is_digit s = true.
Proof.
  induction s as [|c s IH]; intros acc z H; [reflexivity|].
  cbn [digits_value] in H. cbn [all_of].
  destruct (is_digit c); [|discriminate]. exact (IH _ _ H).
Qed.

Lemma span_digits_all (s : string) :
  all_of is_digit s = true -> span_digits s = (s, "").
Proof.
  induction s as [|c s IH]; intros H; [reflexivity|].
  cbn [all_of] in H. apply andb_true_iff in H. destruct H as [Hc Hs].
  cbn [span_digits]. rewrite Hc, (IH Hs). reflexivity.
Qed.

Lemma unsigned_decimal_digits (c : ascii) (s : string) :
  all_of is_digit (String c s) = true -> unsigned_decimal (String c s) = true.
Proof.
  intros H. unfold unsigned_decimal. rewrite (span_digits_all _ H).
  apply orb_true_r.
Qed.

Lemma integer_literal_is_numeric (s : string) (z : Z) :
  StringToNumber s = Some z -> numeric_text s = true.
Proof.
  unfold StringToNumber, numeric_text. cbv zeta.
  destruct (trim s) as [|c r]; [reflexivity|].
  assert (Hsign : forall a t,
             all_of is_digit (String a t) = true ->
             non_decimal (String c r) || unsigned_decimal (String a t)
             = true).
  { intros a t H. rewrite (unsigned_decimal_digits a t H).
    apply orb_true_r. }
  cbn [String.eqb orb].
  destruct (Ascii.eqb_spec c "-") as [E|Hm].
  { subst c. destruct r as [|a t]; [discriminate|].
    destruct (digits_value (String a t) 0) as [n|] eqn:Hd; [|discriminate].
    intros _. apply Hsign. exact (digits_value_all_digits _ _ _ Hd). }
  destruct (Ascii.eqb_spec c "+") as [E|Hp].
  { subst c. destruct r as [|a t]; [discriminate|].
    intros Hd. apply Hsign. exact (digits_value_all_digits _ _ _ Hd). }
  intros Hd. unfold strip_sign.
  destruct (Ascii.eqb_spec c "+") as [E|_]; [contradiction|].
  destruct (Ascii.eqb_spec c "-") as [E|_]; [contradiction|].
  apply Hsign. exact (digits_value_all_digits _ _ _ Hd).
Qed.

Example toLowerCase_sample :
  toLowerCase "Insufficient BALANCE; Top-Up" = "insufficient balance; top-up".
Proof. reflexivity. Qed.

Example trim_sample : trim ("  a b " ++ NL) = "a b".
Proof. reflexivity. Qed.

Example split_newlines_samples :
  split_newlines ("a" ++ NL ++ NL ++ NL ++ "b") = ["a"; "b"]
  /\ split_newlines (NL ++ "a" ++ NL) = [""; "a"; ""]
  /\ split_newlines "" = [""]
  /\ split_newlines "a b" = ["a b"].
Proof. repeat split. Qed.

Example slice0_samples :
  slice0 [1; 2; 3; 4] (JNum 2) = [1; 2]
  /\ slice0 [1; 2; 3; 4] (JNum 9) = [1; 2; 3; 4]
  /\ slice0 [1; 2; 3; 4] (JNum (-1)) = [1; 2; 3]
  /\ slice0 [1; 2; 3; 4] (JStr "3") = [1; 2; 3]
  /\ slice0 [1; 2; 3; 4] JNull = []
  /\ slice0 [1; 2; 3; 4] (JStr "many") = [].
Proof. repeat split. Qed.

Example stringify_sample :
  stringify (JObj [("a", JArr [JNum 1; JNum (-20); JNull]);
                   ("b", JStr ("x" ++ NL ++ "y"));
                   ("c", JObj [])])
  = "{" ++ quote "a" ++ ":[1,-20,null]," ++ quote "b" ++ ":"
    ++ String DQUOTE ("x" ++ String BACKSLASH "ny" ++ String DQUOTE "")
    ++ "," ++ quote "c" ++ ":{}}".
Proof. reflexivity. Qed.

(** White space is skipped, the index key goes first, the second value of
    a repeated key wins and keeps the place of the first. *)
Example JSON_parse_sample :
  JSON_parse (" { " ++ quote "b" ++ " : [ 1 , true ] ," ++ quote "a" ++ ":null,"
              ++ quote "0" ++ ":{}," ++ quote "b" ++ ":2 } ")
  = Some (JObj [("0", JObj []); ("b", JNum 2); ("a", JNull)]).
Proof. reflexivity. Qed.

Example JSON_parse_rejects :
  map JSON_parse ["[1,]"; "01"; "nul"; "[1 2]"; "{a:1}"; ""]
  = [None; None; None; None; None; None].
Proof. reflexivity. Qed.

Example extractor_order :
  extractTextFromDeepInfra
    (JObj [("results", JArr [JObj [("text", JStr "from results")]]);
           ("output", JStr "from output")])
  = JStr "from output"
  /\ extractTextFromDeepInfra
       (JObj [("choices", JArr [JObj [("message",
                                       JObj [("content", JStr "chat")])]])])
     = JStr "chat"
  /\ extractTextFromDeepInfra JNull = JNull
  /\ extractTextFromDeepInfra (JObj [("output", JStr "")])
     = JStr (stringify (JObj [("output", JStr "")])).
Proof. repeat split. Qed.

(** ** Running the monad *)

Lemma bind_ok {A B : Type} (m : M A) (k : A -> M B) (st st' : State) (a : A) :
  m st = (Ok a, st') -> bind m k st = k a st'.
Proof. intros H. unfold bind. rewrite H. reflexivity. Qed.

Lemma bind_throw {A B : Type} (m : M A) (k : A -> M B) (st st' : State)
  (err : string) :
  m st = (Throw err, st') -> bind m k st = (Throw err, st').
Proof. intros H. unfold bind. rewrite H. reflexivity. Qed.

Lemma try_catch_ok {A : Type} (m : M A) (h : string -> M A) (st st' : State)
  (a : A) :
  m st = (Ok a, st') -> try_catch m h st = (Ok a, st').
Proof. intros H. unfold try_catch. rewrite H. reflexivity. Qed.

Lemma try_catch_throw {A : Type} (m : M A) (h : string -> M A)
  (st st' : State) (err : string) :
  m st = (Throw err, st') -> try_catch m h st = h err st'.
Proof. intros H. unfold try_catch. rewrite H. reflexivity. Qed.

(** ** The placeholder story *)

Lemma ToLength_range (n : option Z) : 0 <= ToLength n <= 2 ^ 53 - 1.
Proof. destruct n as [z|]; simpl; lia. Qed.


Lemma Array_from_length_ok {A : Type} (n : option Z) (f : nat -> A)
  (st : State) :
  ToLength n <= 2 ^ 32 - 1 ->
  Array_from_length n f st = (Ok (map f (seq 0 (Z.to_nat (ToLength n)))), st).
Proof.
  intros H. unfold Array_from_length.
  destruct (Z.ltb_spec (2 ^ 32 - 1) (ToLength n)); [lia | reflexivity].
Qed.

Lemma Array_from_length_throw {A : Type} (n : option Z) (f : nat -> A)
  (st : State) :
  2 ^ 32 - 1 < ToLength n ->
  Array_from_length n f st = (Throw "RangeError: Invalid array length", st).
Proof.
  intros H. unfold Array_from_length.
  destruct (Z.ltb_spec (2 ^ 32 - 1) (ToLength n)); [reflexivity | lia].
Qed.

Lemma dummy_response_ok (kind preface : string) (p : Params) (st : State) :
  ToLength (placeholder_length p) <= 2 ^ 32 - 1 ->
  dummy_response kind preface p st
  = (Ok (res_json (placeholder_body kind preface p)), st).
Proof.
  intros H. unfold dummy_response.
  rewrite (bind_ok _ _ _ _ _ (Array_from_length_ok _ _ st H)).
  reflexivity.
Qed.

Lemma dummy_response_throw (kind preface : string) (p : Params) (st : State) :
  2 ^ 32 - 1 < ToLength (placeholder_length p) ->
  dummy_response kind preface p st
  = (Throw "RangeError: Invalid array length", st).
Proof.
  intros H. unfold dummy_response.
  rewrite (bind_throw _ _ _ _ _ (Array_from_length_throw _ _ st H)).
  reflexivity.
Qed.



Lemma destructure_value (b : value) (st : State) :
  b <> JNull -> destructure (Some b) st = (Ok (params_of b), st).
Proof. intros H. destruct b; try reflexivity. congruence. Qed.


(** A count given as an integer, or left out. *)
Lemma requested_count_paragraphs (b : value) (N : Z) :
  requested_count b N -> paragraphs (params_of b) = JNum N.
Proof.
  unfold params_of. cbn [paragraphs].
  intros [H|[H E]]; rewrite H; [|subst N]; reflexivity.
Qed.

Lemma requested_count_length (b : value) (N : Z) :
  requested_count b N -> 1 <= N <= 2 ^ 32 - 1 ->
  ToLength (placeholder_length (params_of b)) = N.
Proof.
  intros Hn [H1 H2].
  assert (E : placeholder_length (params_of b) = Some N).
  { unfold placeholder_length, or_else.
    rewrite (requested_count_paragraphs b N Hn). cbn [truthy ToNumber].
    destruct (Z.eqb_spec N 0); [lia | reflexivity]. }
  rewrite E. unfold ToLength.
  change (2 ^ 32 - 1) with 4294967295 in H2.
  change (2 ^ 53 - 1) with 9007199254740991.
  lia.
Qed.

(** The fields of the request, as the handler reads them. *)
Lemma charStr_character_string (b : value) :
  charStr_of (characters (params_of b)) = character_string b.
Proof.
  unfold params_of, character_string. cbn [characters].
  destruct (get b "characters") as [[]|]; reflexivity.
Qed.

Lemma prompt_of_expected (b : value) (N : Z) :
  requested_count b N -> prompt_of (params_of b) = expected_prompt b N.
Proof.
  intros Hn. unfold prompt_of, expected_prompt.
  rewrite charStr_character_string, (requested_count_paragraphs b N Hn).
  cbn [ToNumber number_text].
  unfold genre_text, params_of. cbn [genre].
  destruct (get b "genre"); reflexivity.
Qed.

Lemma dummy_paragraph_expected (kind : string) (b : value) (i : nat) :
  dummy_paragraph kind (params_of b) i = expected_paragraph kind b i.
Proof.
  unfold dummy_paragraph, expected_paragraph, or_else.
  rewrite charStr_character_string.
  unfold genre_text, params_of. cbn [genre].
  destruct (get b "genre"); destruct (truthy (character_string b));
    reflexivity.
Qed.

Lemma value_eq_null (b : value) : {b = JNull} + {b <> JNull}.
Proof. destruct b; (left; reflexivity) || (right; discriminate). Qed.



(** ** The early return of line 71 *)

Lemma handler_without_key (cfg : Config) (up : Upstream) (b : value)
  (st : State) :
  b <> JNull -> no_key cfg = true -> DEV_FALLBACK cfg = true ->
  handler cfg up (Some b) st
  = try_catch
      (dummy_response "short" "Preface: This is a placeholder summary."
         (params_of b))
      (fun err =>
         ret (res_status_json 500
                (JObj [("error", JStr "server_error");
                       ("message", JStr err)]))) st.
Proof.
  intros Hb Hk Hf. unfold handler, try_catch.
  rewrite (bind_ok _ _ _ _ _ (destructure_value b st Hb)).
  rewrite Hk, Hf. reflexivity.
Qed.




(** ** The upstream calls of a run *)

Lemma fetchWithTimeout_resolved (up : Upstream) (rq : Request) (st : State)
  (r : Response) :
  up (List.length (calls st)) rq = Resolved r ->
  fetchWithTimeout up rq st
  = (Ok r, {| calls := (calls st ++ [rq])%list; images := images st |}).
Proof. intros H. unfold fetchWithTimeout. rewrite H. reflexivity. Qed.

Lemma fetchWithTimeout_rejected (up : Upstream) (rq : Request) (st : State)
  (err : string) :
  up (List.length (calls st)) rq = Rejected err ->
  fetchWithTimeout up rq st
  = (Throw err, {| calls := (calls st ++ [rq])%list; images := images st |}).
Proof. intros H. unfold fetchWithTimeout. rewrite H. reflexivity. Qed.

Lemma dummy_response_state (kind preface : string) (p : Params) (st : State) :
  exists o, dummy_response kind preface p st = (o, st).
Proof.
  destruct (Z_le_gt_dec (ToLength (placeholder_length p)) (2 ^ 32 - 1)).
  - eexists. apply dummy_response_ok. assumption.
  - eexists. apply dummy_response_throw. lia.
Qed.

(** The block of lines 78-114 issues exactly one call, the text request, and
    leaves [images] alone. *)
Lemma call_text_model_state (cfg : Config) (up : Upstream) (p : Params)
  (st : State) :
  exists o,
    call_text_model cfg up p st
    = (o, {| calls := (calls st ++ [text_request cfg p])%list;
             images := images st |}).
Proof.
  unfold call_text_model, try_catch, bind, fetchWithTimeout.
  destruct (up (List.length (calls st)) (text_request cfg p)) as [err|r].
  - destruct (DEV_FALLBACK cfg).
    + destruct (dummy_response_state "fallback"
                  "Preface: This is a fallback placeholder." p
                  {| calls := (calls st ++ [text_request cfg p])%list;
                     images := images st |}) as [o Ho].
      rewrite Ho. destruct o; eexists; reflexivity.
    + eexists; reflexivity.
  - destruct (ok r); simpl.
    + unfold resp_json. destruct (json r) as [err|v]; simpl.
      * destruct (DEV_FALLBACK cfg).
        -- destruct (dummy_response_state "fallback"
                       "Preface: This is a fallback placeholder." p
                       {| calls := (calls st ++ [text_request cfg p])%list;
                          images := images st |}) as [o Ho].
           rewrite Ho. destruct o; eexists; reflexivity.
        -- eexists; reflexivity.
      * eexists; reflexivity.
    + destruct (includes (toLowerCase (text r)) "balance"
                || includes (toLowerCase (text r)) "top-up");
        eexists; reflexivity.
Qed.

(** The image loop only appends to the list of calls. *)
Lemma image_loop_calls (cfg : Config) (up : Upstream) (paraArr : list value) :
  forall st, exists o st' tl,
    image_loop cfg up paraArr st = (o, st')
    /\ calls st' = (calls st ++ tl)%list.
Proof.
  induction paraArr as [|p rest IH]; intros st; simpl.
  - exists (Ok tt), st, []. rewrite app_nil_r. split; reflexivity.
  - unfold bind at 1. unfold fetchWithTimeout.
    destruct (up (List.length (calls st)) (image_request cfg p)) as [err|r].
    + do 2 eexists. exists [image_request cfg p]. split; reflexivity.
    + destruct (ok r); simpl.
      * unfold bind at 1. unfold resp_json.
        destruct (json r) as [err|v]; simpl.
        -- do 2 eexists. exists [image_request cfg p]. split; reflexivity.
        -- unfold bind at 1.
           destruct (truthy (image_url v)); simpl;
             match goal with
             | |- context [image_loop cfg up rest ?s] =>
                 destruct (IH s) as (o & st' & tl & E & Hc)
             end;
             rewrite E; exists o, st', (image_request cfg p :: tl);
             (split; [reflexivity|]); rewrite Hc; simpl;
             rewrite <- app_assoc; reflexivity.
      * unfold bind at 1. simpl.
        match goal with
        | |- context [image_loop cfg up rest ?s] =>
            destruct (IH s) as (o & st' & tl & E & Hc)
        end.
        rewrite E. exists o, st', (image_request cfg p :: tl).
        split; [reflexivity|]. rewrite Hc. simpl.
        rewrite <- app_assoc. reflexivity.
Qed.

Lemma generate_images_calls (cfg : Config) (up : Upstream) (storyText : value)
  (p : Params) (st : State) :
  exists st' tl,
    generate_images cfg up storyText p st = (Ok tt, st')
    /\ calls st' = (calls st ++ tl)%list.
Proof.
  unfold generate_images. destruct (truthy (imagesPerParagraph p)).
  - unfold try_catch.
    destruct (image_loop_calls cfg up
                (paraArr_of storyText (paragraphs p)) st)
      as (o & st' & tl & E & Hc).
    rewrite E. destruct o as [[]|err].
    + exists st', tl. split; [reflexivity | exact Hc].
    + eexists. exists tl. split; [reflexivity | exact Hc].
  - exists st, []. rewrite app_nil_r. split; reflexivity.
Qed.

(** The handler never lets an exception escape (lines 158-161). *)
Lemma handler_never_throws (cfg : Config) (up : Upstream)
  (body : option value) (st : State) :
  exists r st', handler cfg up body st = (Ok r, st').
Proof.
  unfold handler, try_catch.
  match goal with |- context [match ?m st with _ => _ end] =>
    destruct (m st) as [[r|err] st'] end; do 2 eexists; reflexivity.
Qed.

Lemma handler_null_body (cfg : Config) (up : Upstream) (body : option value)
  (st : State) :
  body = None \/ body = Some JNull ->
  handler cfg up body st
  = (Ok (res_status_json 500
           (JObj [("error", JStr "server_error");
                  ("message", JStr (destructure_error body))])),
     st).
Proof. intros [H|H]; subst body; reflexivity. Qed.

(** When the upstream is reached, the handler first runs the block of
    lines 78-114, then lines 116-156 on the payload. *)
Lemma handler_with_upstream (cfg : Config) (up : Upstream) (b : value)
  (st : State) :
  b <> JNull -> calls_upstream cfg ->
  handler cfg up (Some b) st
  = try_catch
      (r <- call_text_model cfg up (params_of b) ;;
       match r with
       | inl response => ret response
       | inr textResp =>
           let storyText :=
             coalesce (Some (extractTextFromDeepInfra textResp))
                      (JStr (stringify textResp)) in
           generate_images cfg up storyText (params_of b) ;;;
           images <- get_images ;;
           ret (res_json (JObj [("story", JStr (ToString storyText));
                                ("raw", textResp);
                                ("images", JArr images)]))
       end)
      (fun err =>
         ret (res_status_json 500
                (JObj [("error", JStr "server_error");
                       ("message", JStr err)]))) st.
Proof.
  intros Hb Hc. unfold handler, try_catch.
  rewrite (bind_ok _ _ _ _ _ (destructure_value b st Hb)).
  unfold calls_upstream in Hc. rewrite Hc. reflexivity.
Qed.

(** The first upstream call of a run, if there is one, is the text request
    built from the body, and the upstream was reached. *)
Lemma first_call_is_text_request (cfg : Config) (up : Upstream)
  (body : option value) (resp : option HttpResponse) (log : list Request)
  (rq : Request) :
  generate_story cfg up body = (resp, log) ->
  nth_error log 0 = Some rq ->
  exists b, body = Some b /\ b <> JNull /\ calls_upstream cfg
            /\ rq = text_request cfg (params_of b).
Proof.
  unfold generate_story. intros Hrun Hrq.
  destruct body as [b|].
  2:{ rewrite handler_null_body in Hrun by (left; reflexivity).
      inversion Hrun; subst. discriminate. }
  destruct (value_eq_null b) as [E|Hb].
  { subst b. rewrite handler_null_body in Hrun by (right; reflexivity).
    inversion Hrun; subst. discriminate. }
  destruct (no_key cfg && DEV_FALLBACK cfg) eqn:Hc.
  - apply andb_true_iff in Hc. destruct Hc as [Hk Hf].
    rewrite (handler_without_key cfg up b _ Hb Hk Hf) in Hrun.
    unfold try_catch in Hrun.
    destruct (dummy_response_state "short"
                "Preface: This is a placeholder summary." (params_of b)
                {| calls := []; images := [] |}) as [o Ho].
    rewrite Ho in Hrun. destruct o; inversion Hrun; subst; discriminate.
  - exists b. repeat split; try assumption.
    rewrite (handler_with_upstream cfg up b _ Hb Hc) in Hrun.
    unfold try_catch, bind in Hrun.
    destruct (call_text_model_state cfg up (params_of b)
                {| calls := []; images := [] |}) as [o Ho].
    rewrite Ho in Hrun. simpl in Hrun.
    destruct o as [[response|textResp]|err].
    + inversion Hrun; subst. simpl in Hrq. congruence.
    + match type of Hrun with
      | context [generate_images cfg up ?s ?p ?st] =>
          destruct (generate_images_calls cfg up s p st)
            as (st' & tl & E & Hcalls)
      end.
      rewrite E in Hrun. simpl in Hrun. inversion Hrun; subst.
      rewrite Hcalls in Hrq. simpl in Hrq. congruence.
    + inversion Hrun; subst. simpl in Hrq. congruence.
Qed.

(** ** Substrings and letter case *)

Lemma prefix_app (w post : string) : prefix w (w ++ post) = true.
Proof.
  induction w as [|a w IH]; simpl.
  - destruct post; reflexivity.
  - destruct (ascii_dec a a); [exact IH | congruence].
Qed.

Lemma prefix_inv (w s : string) :
  prefix w s = true -> exists post, s = w ++ post.
Proof.
  revert s. induction w as [|a w IH]; intros s H.
  - exists s. reflexivity.
  - destruct s as [|b s]; simpl in H; [discriminate|].
    destruct (ascii_dec a b); [|discriminate]. subst b.
    destruct (IH s H) as [post E]. exists post. simpl. rewrite <- E.
    reflexivity.
Qed.

(** [includes s w] holds exactly when [w] occurs somewhere in [s]. *)
Lemma includes_iff (s w : string) :
  includes s w = true <-> exists pre post, s = pre ++ w ++ post.
Proof.
  split.
  - induction s as [|c s IH]; cbn [includes]; intros H.
    + rewrite orb_false_r in H. apply prefix_inv in H.
      destruct H as [post E]. exists "", post. exact E.
    + apply orb_true_iff in H. destruct H as [H|H].
      * apply prefix_inv in H. destruct H as [post E].
        exists "", post. exact E.
      * destruct (IH H) as (pre & post & E).
        exists (String c pre), post. simpl. rewrite E. reflexivity.
  - intros (pre & post & E). subst s.
    induction pre as [|c pre IH].
    + change ("" ++ w ++ post) with (w ++ post).
      destruct (w ++ post) eqn:E; cbn [includes];
        rewrite <- E, prefix_app; reflexivity.
    + change (String c pre ++ w ++ post) with (String c (pre ++ w ++ post)).
      cbn [includes]. rewrite IH. apply orb_true_r.
Qed.

Lemma toLowerCase_app (a b : string) :
  toLowerCase (a ++ b) = toLowerCase a ++ toLowerCase b.
Proof. induction a as [|c a IH]; simpl; [|rewrite IH]; reflexivity. Qed.

Lemma toLowerCase_split (s a b : string) :
  toLowerCase s = a ++ b ->
  exists sa sb, s = sa ++ sb /\ toLowerCase sa = a /\ toLowerCase sb = b.
Proof.
  revert s. induction a as [|c a IH]; intros s H.
  - exists "", s. repeat split. exact H.
  - destruct s as [|d s]; simpl in H; [discriminate|].
    inversion H as [[Hc Hs]]. destruct (IH s Hs) as (sa & sb & E & Ea & Eb).
    exists (String d sa), sb. simpl. rewrite E, Ea. repeat split. exact Eb.
Qed.

(** The test of line 94 holds exactly when the body contains, in any letter
    case, one of the two words. *)
Lemma mentions_balance_iff (bodyText : string) :
  mentions_balance bodyText = true
  <-> exists pre w post,
        bodyText = pre ++ w ++ post
        /\ (toLowerCase w = "balance" \/ toLowerCase w = "top-up").
Proof.
  unfold mentions_balance. rewrite orb_true_iff, !includes_iff. split.
  - intros [(pre & post & E)|(pre & post & E)];
      apply toLowerCase_split in E; destruct E as (sa & sb & E & Ea & Eb);
      apply toLowerCase_split in Eb; destruct Eb as (sw & sc & E' & Ew & Ec);
      exists sa, sw, sc; subst; auto.
  - intros (pre & w & post & E & [Hw|Hw]); [left|right];
      exists (toLowerCase pre), (toLowerCase post);
      subst bodyText; rewrite !toLowerCase_app, Hw; reflexivity.
Qed.

(** ** The text call: non-2xx answers, failures, successes *)

Lemma call_text_model_not_ok (cfg : Config) (up : Upstream) (p : Params)
  (st : State) (r : Response) :
  up (List.length (calls st)) (text_request cfg p) = Resolved r ->
  ok r = false ->
  call_text_model cfg up p st
  = (Ok (inl
       (if mentions_balance (text r) then
          res_status_json 402
            (JObj [("code", JStr "insufficient_balance");
                   ("message", JStr "DeepInfra account has insufficient balance. Top up to enable inference.");
                   ("detail", JStr (text r))])
        else
          res_status_json 502
            (JObj [("code", JStr "upstream_error");
                   ("status", JNum (status r));
                   ("detail", JStr (text r))]))),
     {| calls := (calls st ++ [text_request cfg p])%list;
        images := images st |}).
Proof.
  intros Hup Hok. unfold call_text_model, try_catch.
  rewrite (bind_ok _ _ _ _ _ (fetchWithTimeout_resolved up _ st r Hup)).
  rewrite Hok. simpl. unfold mentions_balance.
  destruct (includes (toLowerCase (text r)) "balance"
            || includes (toLowerCase (text r)) "top-up"); reflexivity.
Qed.

Lemma call_text_model_throws (cfg : Config) (up : Upstream) (p : Params)
  (st : State) (err : string) :
  fetch_throws (up (List.length (calls st)) (text_request cfg p)) err ->
  call_text_model cfg up p st
  = (if DEV_FALLBACK cfg then
       r <- dummy_response "fallback"
              "Preface: This is a fallback placeholder." p ;;
       ret (inl r)
     else
       ret (inl (res_status_json 502
              (JObj [("error", JStr "network_or_upstream");
                     ("message", JStr err)]))))
      {| calls := (calls st ++ [text_request cfg p])%list;
         images := images st |}.
Proof.
  intros [Hup|(r & Hup & Hok & Hjson)]; unfold call_text_model.
  - erewrite try_catch_throw; [reflexivity|].
    apply bind_throw. apply fetchWithTimeout_rejected. exact Hup.
  - erewrite try_catch_throw; [reflexivity|].
    rewrite (bind_ok _ _ _ _ _ (fetchWithTimeout_resolved up _ st r Hup)).
    rewrite Hok. simpl. apply bind_throw. unfold resp_json. rewrite Hjson.
    reflexivity.
Qed.

Lemma call_text_model_payload (cfg : Config) (up : Upstream) (p : Params)
  (st : State) (r : Response) (textResp : value) :
  up (List.length (calls st)) (text_request cfg p) = Resolved r ->
  ok r = true -> json r = inr textResp ->
  call_text_model cfg up p st
  = (Ok (inr textResp),
     {| calls := (calls st ++ [text_request cfg p])%list;
        images := images st |}).
Proof.
  intros Hup Hok Hjson. unfold call_text_model. apply try_catch_ok.
  rewrite (bind_ok _ _ _ _ _ (fetchWithTimeout_resolved up _ st r Hup)).
  rewrite Hok. simpl. unfold resp_json. rewrite Hjson. reflexivity.
Qed.

(** C4.  In any run whose first upstream call, the text request, is answered
    with a status outside 200-299: when the body of the answer contains the
    word balance or the word top-up in any letter case, the server responds
    with status 402 and code [insufficient_balance]; when it contains
    neither, the server responds with status 502 and code [upstream_error],
    carrying the upstream status.  In both cases no further upstream call is
    made. *)
Theorem non_2xx_text_answer_is_classified
  (cfg : Config) (up : Upstream) (body : option value)
  (resp : option HttpResponse) (log : list Request) (rq : Request)
  (r : Response) :
  generate_story cfg up body = (resp, log) ->
  nth_error log 0 = Some rq ->
  up 0%nat rq = Resolved r ->
  ok r = false ->
  ((exists pre w post,
       text r = pre ++ w ++ post
       /\ (toLowerCase w = "balance" \/ toLowerCase w = "top-up")) ->
   resp = Some {| http_status := 402;
                  http_body :=
                    JObj [("code", JStr "insufficient_balance");
                          ("message", JStr "DeepInfra account has insufficient balance. Top up to enable inference.");
                          ("detail", JStr (text r))] |})
  /\ (~ (exists pre w post,
           text r = pre ++ w ++ post
           /\ (toLowerCase w = "balance" \/ toLowerCase w = "top-up")) ->
      resp = Some {| http_status := 502;
                     http_body :=
                       JObj [("code", JStr "upstream_error");
                             ("status", JNum (status r));
                             ("detail", JStr (text r))] |})
  /\ log = [rq].
Proof.
  intros Hrun Hrq Hup Hok.
  destruct (first_call_is_text_request cfg up body resp log rq Hrun Hrq)
    as (b & Eb & Hb & Hc & Erq).
  subst body rq. unfold generate_story in Hrun.
  rewrite (handler_with_upstream cfg up b _ Hb Hc) in Hrun.
  unfold try_catch, bind in Hrun.
  rewrite (call_text_model_not_ok cfg up _ {| calls := []; images := [] |}
             r Hup Hok) in Hrun.
  simpl in Hrun. inversion Hrun; subst resp log. clear Hrun.
  split; [|split].
  - intros H. apply mentions_balance_iff in H. rewrite H. reflexivity.
  - intros H. destruct (mentions_balance (text r)) eqn:E.
    + apply mentions_balance_iff in E. contradiction.
    + reflexivity.
  - reflexivity.
Qed.

(** C4 at an upstream that answers 402 with a body mentioning the balance
    with a capital letter. *)
Lemma non_2xx_text_answer_witness :
  fst (generate_story cfg_key up_no_credit (Some body_form))
  = Some {| http_status := 402;
            http_body :=
              JObj [("code", JStr "insufficient_balance");
                    ("message", JStr "DeepInfra account has insufficient balance. Top up to enable inference.");
                    ("detail", JStr (text resp_no_credit))] |}.
Proof.
  refine (proj1 (non_2xx_text_answer_is_classified cfg_key up_no_credit
                   (Some body_form) _ _ _ resp_no_credit
                   (surjective_pairing _) eq_refl eq_refl eq_refl) _).
  exists "{'detail': 'Insufficient ", "Balance", ", please top-up'}".
  split; [reflexivity | left; reflexivity].
Defined.

Lemma handler_text_throws (cfg : Config) (up : Upstream) (b : value)
  (err : string) :
  b <> JNull -> calls_upstream cfg ->
  fetch_throws (up 0%nat (text_request cfg (params_of b))) err ->
  generate_story cfg up (Some b)
  = (Some
       (if DEV_FALLBACK cfg then
          if ToLength (placeholder_length (params_of b)) <=? 2 ^ 32 - 1 then
            res_json (placeholder_body "fallback"
                        "Preface: This is a fallback placeholder."
                        (params_of b))
          else
            res_status_json 500
              (JObj [("error", JStr "server_error");
                     ("message", JStr "RangeError: Invalid array length")])
        else
          res_status_json 502
            (JObj [("error", JStr "network_or_upstream");
                   ("message", JStr err)])),
     [text_request cfg (params_of b)]).
Proof.
  intros Hb Hc Hth. unfold generate_story.
  rewrite (handler_with_upstream cfg up b _ Hb Hc).
  unfold try_catch, bind.
  rewrite (call_text_model_throws cfg up (params_of b)
             {| calls := []; images := [] |} err Hth).
  destruct (DEV_FALLBACK cfg); [|reflexivity].
  unfold bind.
  destruct (Z.leb_spec (ToLength (placeholder_length (params_of b)))
              (2 ^ 32 - 1)) as [H|H].
  - rewrite (dummy_response_ok _ _ _ _ H). reflexivity.
  - rewrite (dummy_response_throw _ _ _ _ H). reflexivity.
Qed.

(** A 2xx answer with a JSON payload leads to the response of line 156. *)
Lemma handler_text_payload (cfg : Config) (up : Upstream) (b : value)
  (r : Response) (textResp : value) :
  b <> JNull -> calls_upstream cfg ->
  up 0%nat (text_request cfg (params_of b)) = Resolved r ->
  ok r = true -> json r = inr textResp ->
  let storyText :=
    coalesce (Some (extractTextFromDeepInfra textResp))
             (JStr (stringify textResp)) in
  exists st',
    generate_images cfg up storyText (params_of b)
      {| calls := [text_request cfg (params_of b)]; images := [] |}
    = (Ok tt, st')
    /\ generate_story cfg up (Some b)
       = (Some (res_json (JObj [("story", JStr (ToString storyText));
                                ("raw", textResp);
                                ("images", JArr (images st'))])),
          calls st').
Proof.
  intros Hb Hc Hup Hok Hjson storyText.
  destruct (generate_images_calls cfg up storyText (params_of b)
              {| calls := [text_request cfg (params_of b)]; images := [] |})
    as (st' & tl & E & _).
  exists st'. split; [exact E|].
  unfold generate_story.
  rewrite (handler_with_upstream cfg up b _ Hb Hc).
  unfold try_catch, bind.
  rewrite (call_text_model_payload cfg up (params_of b)
             {| calls := []; images := [] |} r textResp Hup Hok Hjson).
  cbv beta iota. cbn [calls images app]. fold storyText. rewrite E.
  reflexivity.
Qed.

(** Outside the requests of the data model, whose count is between 1 and
    10: with a key, fallback mode enabled and an upstream that cannot be
    reached, a request for [2^32] paragraphs is not answered with the
    fallback story.  Building the placeholder throws inside the [catch]
    block of line 105, and the handler of line 158 answers 500. *)
Lemma fallback_fails_beyond_array_length :
  DEV_FALLBACK cfg_key = true
  /\ up_down 0%nat
       (text_request cfg_key (params_of (JObj [("paragraphs", JNum (2 ^ 32))])))
     = Rejected "AbortError: This operation was aborted"
  /\ generate_story cfg_key up_down
       (Some (JObj [("paragraphs", JNum (2 ^ 32))]))
     = (Some {| http_status := 500;
                http_body :=
                  JObj [("error", JStr "server_error");
                        ("message", JStr "RangeError: Invalid array length")] |},
        [text_request cfg_key
           (params_of (JObj [("paragraphs", JNum (2 ^ 32))]))]).
Proof. repeat split. Qed.



(** Beyond the largest array length the placeholder cannot be built, and the
    handler of line 158 answers for it. *)
Lemma oversized_placeholder_is_server_error (cfg : Config) (up : Upstream)
  (b : value) :
  b <> JNull -> no_key cfg = true -> DEV_FALLBACK cfg = true ->
  2 ^ 32 - 1 < ToLength (placeholder_length (params_of b)) ->
  generate_story cfg up (Some b)
  = (Some (res_status_json 500
             (JObj [("error", JStr "server_error");
                    ("message", JStr "RangeError: Invalid array length")])),
     []).
Proof.
  intros Hb Hk Hf Hlen. unfold generate_story.
  rewrite (handler_without_key cfg up b _ Hb Hk Hf).
  unfold try_catch. rewrite (dummy_response_throw _ _ _ _ Hlen). reflexivity.
Qed.

(** C9.  With fallback mode enabled, a response with status 200 that is
    produced because no key is configured, or because the text call failed
    (the fetch rejected, or its 2xx body was not JSON), has an empty
    [images] array whatever the request asked for, and the run made no
    upstream call other than, in the second case, the text request. *)
Theorem fallback_responses_have_no_images
  (cfg : Config) (up : Upstream) (body : option value) (r : HttpResponse)
  (log : list Request) :
  DEV_FALLBACK cfg = true ->
  generate_story cfg up body = (Some r, log) ->
  http_status r = 200 ->
  (no_key cfg = true
   \/ exists rq err,
        nth_error log 0 = Some rq /\ fetch_throws (up 0%nat rq) err) ->
  get (http_body r) "images" = Some (JArr [])
  /\ (log = []
      \/ exists b, body = Some b /\ log = [text_request cfg (params_of b)]).
Proof.
  intros Hf Hrun Hst [Hk|(rq & err & Hrq & Hth)].
  - destruct body as [b|].
    2:{ unfold generate_story in Hrun.
        rewrite handler_null_body in Hrun by (left; reflexivity).
        inversion Hrun; subst. discriminate. }
    destruct (value_eq_null b) as [E|Hb].
    { subst b. unfold generate_story in Hrun.
      rewrite handler_null_body in Hrun by (right; reflexivity).
      inversion Hrun; subst. discriminate. }
    unfold generate_story in Hrun.
    rewrite (handler_without_key cfg up b _ Hb Hk Hf) in Hrun.
    unfold try_catch in Hrun.
    destruct (Z_le_gt_dec (ToLength (placeholder_length (params_of b)))
                (2 ^ 32 - 1)) as [H|H].
    + rewrite (dummy_response_ok _ _ _ _ H) in Hrun.
      inversion Hrun; subst. split; [reflexivity | left; reflexivity].
    + rewrite (dummy_response_throw _ _ _ _ (Z.gt_lt _ _ H)) in Hrun.
      inversion Hrun; subst. discriminate.
  - destruct (first_call_is_text_request cfg up body (Some r) log rq Hrun Hrq)
      as (b & Eb & Hb & Hc & Erq).
    subst body rq.
    rewrite (handler_text_throws cfg up b err Hb Hc Hth) in Hrun.
    rewrite Hf in Hrun.
    destruct (ToLength (placeholder_length (params_of b)) <=? 2 ^ 32 - 1);
      inversion Hrun; subst; [|discriminate].
    split; [reflexivity|]. right. exists b. split; reflexivity.
Qed.

(** C9 at a request that asks for images, with no key configured. *)
Lemma fallback_responses_witness :
  truthy (imagesPerParagraph (params_of body_form)) = true
  /\ exists r,
       fst (generate_story cfg_no_key up_down (Some body_form)) = Some r
       /\ get (http_body r) "images" = Some (JArr []).
Proof.
  split; [reflexivity|]. eexists. split; [reflexivity|].
  exact (proj1 (fallback_responses_have_no_images cfg_no_key up_down
                  (Some body_form) _ _ eq_refl eq_refl eq_refl
                  (or_introl eq_refl))).
Defined.

(** ** The paragraph count *)

Lemma slice0_count {A : Type} (l : list A) (N : Z) :
  0 <= N -> slice0 l (JNum N) = firstn (Z.to_nat N) l.
Proof.
  intros H. unfold slice0. simpl.
  destruct (Z.ltb_spec N 0); [lia | reflexivity].
Qed.




(** ** The image loop, one iteration at a time *)

Section ImageLoop.

Variable cfg : Config.
Variable up : Upstream.

Lemma image_loop_not_ok (p : value) (rest : list value) (st : State)
  (r : Response) :
  up (List.length (calls st)) (image_request cfg p) = Resolved r ->
  ok r = false ->
  image_loop cfg up (p :: rest) st
  = image_loop cfg up rest
      {| calls := (calls st ++ [image_request cfg p])%list;
         images :=
           (images st
            ++ [JObj [("error",
                       JStr ("image_upstream_" ++ NumberToString (status r)));
                      ("detail", JStr (text r))]])%list |}.
Proof.
  intros Hup Hok. cbn [image_loop].
  rewrite (bind_ok _ _ _ _ _ (fetchWithTimeout_resolved up _ st r Hup)).
  rewrite Hok. cbn [negb]. unfold bind, push; cbn [calls images].
  reflexivity.
Qed.

Lemma image_loop_payload (p : value) (rest : list value) (st : State)
  (r : Response) (imgJson : value) :
  up (List.length (calls st)) (image_request cfg p) = Resolved r ->
  ok r = true -> json r = inr imgJson ->
  image_loop cfg up (p :: rest) st
  = image_loop cfg up rest
      {| calls := (calls st ++ [image_request cfg p])%list;
         images :=
           (images st
            ++ [if truthy (image_url imgJson)
                then JObj [("url", image_url imgJson)]
                else JObj [("raw", imgJson)]])%list |}.
Proof.
  intros Hup Hok Hjson. cbn [image_loop].
  rewrite (bind_ok _ _ _ _ _ (fetchWithTimeout_resolved up _ st r Hup)).
  rewrite Hok. cbn [negb]. unfold resp_json. rewrite Hjson.
  unfold bind, ret, push. cbv zeta.
  destruct (truthy (image_url imgJson)); cbn [calls images]; reflexivity.
Qed.

Lemma image_loop_throws (p : value) (rest : list value) (st : State)
  (err : string) :
  fetch_throws (up (List.length (calls st)) (image_request cfg p)) err ->
  image_loop cfg up (p :: rest) st
  = (Throw err,
     {| calls := (calls st ++ [image_request cfg p])%list;
        images := images st |}).
Proof.
  intros [Hup|(r & Hup & Hok & Hjson)]; cbn [image_loop].
  - apply bind_throw. apply fetchWithTimeout_rejected. exact Hup.
  - rewrite (bind_ok _ _ _ _ _ (fetchWithTimeout_resolved up _ st r Hup)).
    rewrite Hok. cbn [negb]. apply bind_throw. unfold resp_json.
    rewrite Hjson. reflexivity.
Qed.


End ImageLoop.






(** ** Splitting the story (line 123) *)

Lemma append_nil_r (s : string) : s ++ "" = s.
Proof. induction s as [|c s IH]; simpl; [|rewrite IH]; reflexivity. Qed.

Lemma append_assoc (a b c : string) : (a ++ b) ++ c = a ++ b ++ c.
Proof. induction a as [|x a IH]; simpl; [|rewrite IH]; reflexivity. Qed.












(* ===================================================================== *)
(** * [JSON.parse] after [JSON.stringify] *)
(* ===================================================================== *)

(** Induction over values, with the hypothesis available for every element
    of an array and every property of an object. *)
Lemma value_ind (P : value -> Prop)
  (HNull : P JNull)
  (HBool : forall b, P (JBool b))
  (HNum : forall z, P (JNum z))
  (HStr : forall s, P (JStr s))
  (HArr : forall l, Forall P l -> P (JArr l))
  (HObj : forall m, Forall (fun kv => P (snd kv)) m -> P (JObj m)) :
  forall v, P v.
Proof.
  fix IH 1. intros [ | b | z | s | l | m].
  - exact HNull.
  - apply HBool.
  - apply HNum.
  - apply HStr.
  - apply HArr. induction l as [|x l IHl]; constructor; [apply IH | exact IHl].
  - apply HObj.
    induction m as [|[k x] m IHm]; constructor; [apply IH | exact IHm].
Qed.

(** ** Numbers *)

Lemma closes_not_digit (rest : string) :
  closes rest ->
  match rest with
  | "" => True
  | String c _ => is_digit c = false
  end.
Proof.
  destruct rest as [|c r]; [trivial|].
  intros [H|[H|H]]; subst c; reflexivity.
Qed.

Lemma closes_not_fraction (rest : string) :
  closes rest -> starts_fraction_or_exponent rest = false.
Proof.
  destruct rest as [|c r]; [reflexivity|].
  intros [H|[H|H]]; subst c; reflexivity.
Qed.

Lemma closes_skip_ws (rest : string) : closes rest -> skip_ws rest = rest.
Proof.
  destruct rest as [|c r]; [reflexivity|].
  intros [H|[H|H]]; subst c; reflexivity.
Qed.

Lemma span_digits_uint (d : Decimal.uint) (rest : string) :
  match rest with "" => True | String c _ => is_digit c = false end ->
  span_digits (NilEmpty.string_of_uint d ++ rest)
  = (NilEmpty.string_of_uint d, rest).
Proof.
  intros Hrest. induction d; simpl;
    try (rewrite IHd; reflexivity).
  destruct rest as [|c r]; [reflexivity|]. simpl. rewrite Hrest. reflexivity.
Qed.

Lemma digits_value_acc (d : Decimal.uint) (acc : positive) :
  digits_value (NilEmpty.string_of_uint d) (Z.pos acc)
  = Some (Z.pos (Pos.of_uint_acc d acc)).
Proof.
  revert acc. induction d; intros acc;
    cbn [NilEmpty.string_of_uint digits_value Pos.of_uint_acc];
    [reflexivity | digit_step; rewrite <- IHd; f_equal; lia ..].
Qed.

Lemma digits_value_uint (d : Decimal.uint) :
  digits_value (NilEmpty.string_of_uint d) 0 = Some (Z.of_N (Pos.of_uint d)).
Proof.
  induction d;
    cbn [NilEmpty.string_of_uint digits_value Pos.of_uint];
    [reflexivity | digit_step; exact IHd
    | digit_step; cbn [Z.of_N]; rewrite <- digits_value_acc; reflexivity ..].
Qed.

Lemma to_uint_head (p : positive) :
  exists c r,
    NilEmpty.string_of_uint (Pos.to_uint p) = String c r
    /\ is_digit c = true /\ c <> "0"%char.
Proof.
  pose proof (DecimalPos.Unsigned.to_uint_nonzero p) as Hnz.
  assert (Hn : Decimal.unorm (Pos.to_uint p) = Pos.to_uint p).
  { rewrite <- (DecimalN.Unsigned.to_of (Pos.to_uint p)).
    unfold N.of_uint. rewrite DecimalPos.Unsigned.of_to. reflexivity. }
  assert (Hh : Decimal.nzhead (Pos.to_uint p) = Pos.to_uint p).
  { unfold Decimal.unorm in Hn.
    destruct (Decimal.nzhead (Pos.to_uint p)) eqn:E; try exact Hn.
    exfalso. apply Hnz. symmetry. exact Hn. }
  pose proof (DecimalFacts.nzhead_nonzero (Pos.to_uint p)) as Hd0.
  rewrite Hh in Hd0.
  pose proof (DecimalPos.Unsigned.to_uint_nonnil p) as Hnil.
  destruct (Pos.to_uint p) as [|u|u|u|u|u|u|u|u|u|u];
    [congruence | exfalso; exact (Hd0 u eq_refl) | ..];
    simpl; do 2 eexists; (split; [reflexivity|]);
    (split; [reflexivity | discriminate]).
Qed.

Lemma parse_unsigned_pos (p : positive) (rest : string) :
  closes rest ->
  parse_unsigned (NilEmpty.string_of_uint (Pos.to_uint p) ++ rest)
  = Some (Z.pos p, rest).
Proof.
  intros Hc. unfold parse_unsigned.
  rewrite (span_digits_uint _ rest (closes_not_digit rest Hc)).
  destruct (to_uint_head p) as (c & r & E & Hd & Hz).
  pose proof (digits_value_uint (Pos.to_uint p)) as Hv.
  rewrite DecimalPos.Unsigned.of_to in Hv. rewrite E in Hv |- *.
  destruct (Ascii.eqb_spec c "0"); [contradiction|]. cbn [andb].
  rewrite (closes_not_fraction rest Hc). rewrite Hv. reflexivity.
Qed.

(** A printed number is read back. *)
Lemma parse_number_roundtrip (z : Z) (rest : string) :
  closes rest ->
  parse_number (NumberToString z ++ rest) = Some (JNum z, rest).
Proof.
  intros Hc. unfold NumberToString. destruct z as [|p|p].
  - change (NilZero.string_of_int (Z.to_int 0))
      with (NilEmpty.string_of_uint (Decimal.D0 Decimal.Nil)).
    assert (E : parse_unsigned
                  (NilEmpty.string_of_uint (Decimal.D0 Decimal.Nil) ++ rest)
                = Some (0, rest)).
    { unfold parse_unsigned.
      rewrite (span_digits_uint _ rest (closes_not_digit rest Hc)).
      cbn [NilEmpty.string_of_uint].
      change (("0" =? "0")%char && negb ("" =? "")%string) with false.
      cbv iota. rewrite (closes_not_fraction rest Hc). reflexivity. }
    cbn [NilEmpty.string_of_uint append] in E |- *.
    unfold parse_number. change (("0" =? "-")%char) with false. cbv iota.
    rewrite E. reflexivity.
  - cbn [Z.to_int NilZero.string_of_int NilZero.string_of_uint].
    replace (NilZero.string_of_uint (Pos.to_uint p))
      with (NilEmpty.string_of_uint (Pos.to_uint p)).
    2:{ pose proof (DecimalPos.Unsigned.to_uint_nonnil p).
        unfold NilZero.string_of_uint. destruct (Pos.to_uint p); congruence. }
    destruct (to_uint_head p) as (c & r & E & Hd & Hz).
    pose proof (parse_unsigned_pos p rest Hc) as Hp.
    rewrite E in Hp |- *. cbn [append]. unfold parse_number.
    destruct (Ascii.eqb_spec c "-") as [Em|_].
    { subst c. discriminate. }
    cbn [append] in Hp. rewrite Hp. reflexivity.
  - cbn [Z.to_int NilZero.string_of_int].
    replace (NilZero.string_of_uint (Pos.to_uint p))
      with (NilEmpty.string_of_uint (Pos.to_uint p)).
    2:{ pose proof (DecimalPos.Unsigned.to_uint_nonnil p).
        unfold NilZero.string_of_uint. destruct (Pos.to_uint p); congruence. }
    cbn [append parse_number]. cbn.
    rewrite (parse_unsigned_pos p rest Hc). reflexivity.
Qed.

(** ** Strings *)

(** An escaped character is read back, whatever it is. *)
Lemma parse_chars_escape_char (c : ascii) (r : string) :
  parse_chars (escape_char c ++ r) = cons_char c (parse_chars r).
Proof.
  destruct c as [[] [] [] [] [] [] [] []]; reflexivity.
Qed.

Lemma parse_chars_escape (s rest : string) :
  parse_chars (escape s ++ String DQUOTE rest) = Some (s, rest).
Proof.
  induction s as [|c s IH]; [reflexivity|].
  cbn [escape]. rewrite append_assoc, parse_chars_escape_char, IH.
  reflexivity.
Qed.

(** ** Objects *)

Lemma mem_false_lookup (k : string) (m : list (string * value)) :
  mem k (keys m) = false -> lookup k m = None.
Proof.
  induction m as [|[k' v] m IH]; [reflexivity|].
  unfold mem, keys. cbn. intros H. apply orb_false_iff in H.
  destruct H as [Hk Hm]. rewrite Hk. apply IH. exact Hm.
Qed.

Lemma insert_key_last (k : string) (v : value) (m : list (string * value)) :
  forallb (fun k' => negb (goes_before k k')) (keys m) = true ->
  insert_key k v m = (m ++ [(k, v)])%list.
Proof.
  induction m as [|[k' v'] m IH]; [reflexivity|].
  cbn. intros H. apply andb_true_iff in H. destruct H as [Hk Hm].
  apply negb_true_iff in Hk. rewrite Hk, (IH Hm). reflexivity.
Qed.

(** Creating the properties of an enumeration in order rebuilds it. *)
Lemma fold_obj_define (m : list (string * value)) :
  forall acc,
    enumerable (keys acc) m = true ->
    fold_left obj_define m acc = (acc ++ m)%list.
Proof.
  induction m as [|[k v] m IH]; intros acc H.
  - rewrite app_nil_r. reflexivity.
  - cbn [enumerable] in H. apply andb_true_iff in H. destruct H as [H Hm].
    apply andb_true_iff in H. destruct H as [Hk Ho].
    apply negb_true_iff in Hk.
    cbn [fold_left]. unfold obj_define at 2. cbn [fst snd].
    rewrite (mem_false_lookup k acc Hk), (insert_key_last k v acc Ho).
    rewrite IH.
    + rewrite <- app_assoc. reflexivity.
    + unfold keys in *. rewrite map_app. exact Hm.
Qed.

(** ** Values *)

Lemma NumberToString_head (z : Z) :
  exists c r,
    NumberToString z = String c r
    /\ (is_digit c = true \/ c = "-"%char).
Proof.
  unfold NumberToString. destruct z as [|p|p].
  - exists "0"%char, "". split; [reflexivity | left; reflexivity].
  - cbn [Z.to_int NilZero.string_of_int].
    destruct (to_uint_head p) as (c & r & E & Hd & _).
    exists c, r. split; [|left; exact Hd].
    pose proof (DecimalPos.Unsigned.to_uint_nonnil p).
    unfold NilZero.string_of_uint. rewrite <- E.
    destruct (Pos.to_uint p); congruence.
  - cbn [Z.to_int NilZero.string_of_int]. do 2 eexists.
    split; [reflexivity | right; reflexivity].
Qed.

Lemma stringify_head (v : value) :
  exists c r, stringify v = String c r /\ value_start c = true.
Proof.
  destruct v as [ | [|] | z | s | l | m]; cbn [stringify];
    try (do 2 eexists; split; reflexivity).
  destruct (NumberToString_head z) as (c & r & E & [Hd|Hm]).
  - exists c, r. split; [exact E|]. unfold value_start. rewrite Hd.
    reflexivity.
  - exists c, r. split; [exact E|]. subst c. reflexivity.
Qed.

Lemma stringify_length (v : value) : (1 <= String.length (stringify v))%nat.
Proof.
  destruct (stringify_head v) as (c & r & E & _). rewrite E. simpl. lia.
Qed.

Lemma value_start_skip_ws (c : ascii) (r : string) :
  value_start c = true -> skip_ws (String c r) = String c r.
Proof.
  intros H. cbn [skip_ws].
  destruct (is_json_ws c) eqn:Hw; [|reflexivity].
  exfalso. revert H Hw.
  destruct c as [[] [] [] [] [] [] [] []]; discriminate.
Qed.

Lemma length_append (a b : string) :
  String.length (a ++ b) = (String.length a + String.length b)%nat.
Proof. induction a as [|c a IH]; simpl; [|rewrite IH]; reflexivity. Qed.

(** The parser, one step at a time. *)

Lemma parse_value_number (fuel : nat) (c : ascii) (r : string) :
  is_digit c = true \/ c = "-"%char ->
  parse_value (S fuel) (String c r) = parse_number (String c r).
Proof.
  intros H.
  destruct c as [[] [] [] [] [] [] [] []];
    first [ reflexivity | exfalso; destruct H; discriminate ].
Qed.

Lemma parse_value_string (fuel : nat) (r : string) :
  parse_value (S fuel) (String DQUOTE r)
  = match parse_chars r with
    | Some (str, rest) => Some (JStr str, rest)
    | None => None
    end.
Proof. reflexivity. Qed.

Lemma parse_value_array (fuel : nat) (r : string) :
  parse_value (S fuel) (String "[" r)
  = match skip_ws r with
    | String c' r' =>
        if (c' =? "]")%char then Some (JArr [], r')
        else match parse_elements fuel r with
             | Some (l, rest) => Some (JArr l, rest)
             | None => None
             end
    | "" => None
    end.
Proof. reflexivity. Qed.

Lemma parse_value_object (fuel : nat) (r : string) :
  parse_value (S fuel) (String "{" r)
  = match skip_ws r with
    | String c' r' =>
        if (c' =? "}")%char then Some (JObj [], r')
        else match parse_members fuel r with
             | Some (m, rest) => Some (JObj (fold_left obj_define m []), rest)
             | None => None
             end
    | "" => None
    end.
Proof. reflexivity. Qed.

Lemma parse_elements_step (fuel : nat) (s : string) :
  parse_elements (S fuel) s
  = match parse_value fuel s with
    | None => None
    | Some (v, r) =>
        match skip_ws r with
        | "" => None
        | String c r' =>
            if (c =? ",")%char then
              match parse_elements fuel r' with
              | Some (l, rest) => Some (v :: l, rest)
              | None => None
              end
            else if (c =? "]")%char then Some ([v], r')
            else None
        end
    end.
Proof. reflexivity. Qed.

Lemma parse_members_step (fuel : nat) (r0 : string) :
  parse_members (S fuel) (String DQUOTE r0)
  = match parse_chars r0 with
    | None => None
    | Some (k, r1) =>
        match skip_ws r1 with
        | "" => None
        | String colon r2 =>
            if (colon =? ":")%char then
              match parse_value fuel r2 with
              | None => None
              | Some (v, r3) =>
                  match skip_ws r3 with
                  | "" => None
                  | String c r4 =>
                      if (c =? ",")%char then
                        match parse_members fuel r4 with
                        | Some (m, rest) => Some ((k, v) :: m, rest)
                        | None => None
                        end
                      else if (c =? "}")%char then Some ([(k, v)], r4)
                      else None
                  end
              end
            else None
        end
    end.
Proof. reflexivity. Qed.

Lemma join_cons2 (sep a b : string) (l : list string) :
  join sep (a :: b :: l) = a ++ sep ++ join sep (b :: l).
Proof. reflexivity. Qed.

Lemma elements_read_back (l : list value) :
  Forall reads_back l ->
  forallb well_formed l = true ->
  l <> [] ->
  forall fuel rest,
    (String.length (join "," (map stringify l)) + 1 <= fuel)%nat ->
    parse_elements fuel (join "," (map stringify l) ++ String "]" rest)
    = Some (l, rest).
Proof.
  induction l as [|x l IH]; intros Hall Hwf Hne fuel rest Hfuel;
    [congruence|].
  inversion Hall as [|? ? Hx Hl]; subst.
  cbn [forallb] in Hwf. apply andb_true_iff in Hwf. destruct Hwf as [Hwx Hwl].
  destruct fuel as [|fuel]; [lia|].
  rewrite parse_elements_step.
  destruct l as [|y l].
  - cbn [map join] in *.
    rewrite (Hx Hwx fuel (String "]" rest)); [reflexivity | cbn; auto | lia].
  - cbn [map] in *. rewrite join_cons2 in *.
    rewrite length_append in Hfuel. cbn [append String.length] in Hfuel.
    rewrite !append_assoc. cbn [append].
    rewrite (Hx Hwx fuel); [| cbn; auto | lia].
    cbn [skip_ws]. change (is_json_ws ",") with false. cbv iota.
    change ((","  =? ",")%char) with true. cbv iota.
    pose proof (stringify_length x).
    rewrite (IH Hl Hwl ltac:(discriminate) fuel rest); [reflexivity | lia].
Qed.

Lemma member_text_eq (k : string) (x : value) (rest : string) :
  member_text (k, x) ++ rest
  = String DQUOTE (escape k ++ String DQUOTE (String ":" (stringify x ++ rest))).
Proof.
  unfold member_text, quote. cbn [append].
  rewrite !append_assoc. cbn [append]. reflexivity.
Qed.

Lemma member_text_length (k : string) (x : value) :
  (String.length (stringify x) + 3 <= String.length (member_text (k, x)))%nat.
Proof.
  unfold member_text, quote. cbn [String.length append].
  rewrite !length_append. cbn [String.length]. lia.
Qed.

Lemma members_read_back (m : list (string * value)) :
  Forall (fun kv => reads_back (snd kv)) m ->
  forallb (fun kv => match kv with (_, x) => well_formed x end) m = true ->
  m <> [] ->
  forall fuel rest,
    (String.length (join "," (map member_text m)) + 1 <= fuel)%nat ->
    parse_members fuel (join "," (map member_text m) ++ String "}" rest)
    = Some (m, rest).
Proof.
  induction m as [|[k x] m IH]; intros Hall Hwf Hne fuel rest Hfuel;
    [congruence|].
  inversion Hall as [|? ? Hx Hl]; subst. cbn [snd] in Hx.
  cbn [forallb] in Hwf. apply andb_true_iff in Hwf. destruct Hwf as [Hwx Hwl].
  destruct fuel as [|fuel]; [lia|].
  pose proof (member_text_length k x) as Hlen.
  destruct m as [|kv m].
  - cbn [map join] in *.
    rewrite member_text_eq, parse_members_step, parse_chars_escape.
    cbn [skip_ws]. change (is_json_ws ":") with false. cbv iota.
    change ((":" =? ":")%char) with true. cbv iota.
    rewrite (Hx Hwx fuel (String "}" rest)); [reflexivity | cbn; auto | lia].
  - cbn [map] in *. rewrite join_cons2 in *.
    rewrite length_append in Hfuel. cbn [append String.length] in Hfuel.
    rewrite append_assoc, member_text_eq, parse_members_step,
      parse_chars_escape.
    cbn [skip_ws]. change (is_json_ws ":") with false. cbv iota.
    change ((":" =? ":")%char) with true. cbv iota.
    cbn [append].
    rewrite (Hx Hwx fuel); [| cbn; auto | lia].
    cbn [skip_ws]. change (is_json_ws ",") with false. cbv iota.
    change ((","  =? ",")%char) with true. cbv iota.
    rewrite (IH Hl Hwl ltac:(discriminate) fuel rest); [reflexivity | lia].
Qed.

Lemma value_start_not_closing (c : ascii) :
  value_start c = true ->
  is_json_ws c = false /\ (c =? "]")%char = false /\ (c =? "}")%char = false.
Proof.
  destruct c as [[] [] [] [] [] [] [] []]; intros H;
    first [ discriminate H | repeat split ].
Qed.

Lemma join_head (l : list string) (a : string) (c : ascii) (r : string) :
  a = String c r ->
  exists r', join "," (a :: l) = String c r'.
Proof.
  intros E. subst a. destruct l as [|b l]; cbn [join append]; eauto.
Qed.

Lemma value_reads_back (v : value) : reads_back v.
Proof.
  induction v as [ | b | z | s | l IHl | m IHm] using value_ind;
    intros Hwf fuel rest Hc Hfuel.
  - destruct fuel; [cbn in Hfuel; lia | reflexivity].
  - destruct fuel; [destruct b; cbn in Hfuel; lia | destruct b; reflexivity].
  - cbn [stringify] in *.
    destruct (NumberToString_head z) as (c & r & E & Hd).
    destruct fuel; [rewrite E in Hfuel; cbn in Hfuel; lia|].
    pose proof (parse_number_roundtrip z rest Hc) as Hp.
    rewrite E in Hp |- *. cbn [append] in Hp |- *.
    rewrite (parse_value_number fuel c _ Hd). exact Hp.
  - cbn [stringify] in *. unfold quote in *.
    destruct fuel; [cbn in Hfuel; lia|].
    cbn [append]. rewrite append_assoc. cbn [append].
    rewrite parse_value_string, parse_chars_escape. reflexivity.
  - cbn [stringify well_formed] in *.
    destruct fuel; [cbn in Hfuel; lia|].
    cbn [append] in *. rewrite append_assoc. cbn [append].
    rewrite parse_value_array.
    destruct l as [|x l].
    + reflexivity.
    + destruct (stringify_head x) as (c & r & E & Hs).
      destruct (join_head (map stringify l) _ c r E) as (r' & Ej).
      cbn [map] in *. rewrite Ej. cbn [append skip_ws].
      destruct (value_start_not_closing c Hs) as (Hw & Hb & _).
      rewrite Hw, Hb.
      change (String c (r' ++ String "]" rest))
        with ((String c r') ++ String "]" rest).
      rewrite <- Ej.
      rewrite (elements_read_back (x :: l) IHl Hwf ltac:(discriminate)).
      * reflexivity.
      * cbn [String.length] in Hfuel. rewrite length_append in Hfuel.
        cbn [String.length map] in Hfuel |- *. lia.
  - cbn [stringify well_formed] in *.
    apply andb_true_iff in Hwf. destruct Hwf as [Henum Hwf].
    destruct fuel; [cbn in Hfuel; lia|].
    change (fun kv : string * value =>
              match kv with (k, x) => quote k ++ ":" ++ stringify x end)
      with member_text in *.
    cbn [append] in *. rewrite append_assoc. cbn [append].
    rewrite parse_value_object.
    destruct m as [|[k x] m].
    + reflexivity.
    + assert (Ej : exists r', join "," (map member_text ((k, x) :: m))
                              = String DQUOTE r').
      { cbn [map]. eapply join_head. unfold member_text, quote. reflexivity. }
      destruct Ej as (r' & Ej). rewrite Ej. cbn [append skip_ws].
      change (is_json_ws DQUOTE) with false. cbv iota.
      change ((DQUOTE =? "}")%char) with false. cbv iota.
      change (String DQUOTE (r' ++ String "}" rest))
        with ((String DQUOTE r') ++ String "}" rest).
      rewrite <- Ej.
      rewrite (members_read_back ((k, x) :: m) IHm Hwf ltac:(discriminate)).
      * rewrite (fold_obj_define ((k, x) :: m) [] Henum). reflexivity.
      * cbn [String.length] in Hfuel. rewrite length_append in Hfuel.
        cbn [String.length map] in Hfuel |- *. lia.
Qed.

(** [JSON.parse(JSON.stringify(v))] is [v], for every value whose objects
    are enumerations. *)
Lemma JSON_parse_stringify (v : value) :
  well_formed v = true -> JSON_parse (stringify v) = Some v.
Proof.
  intros Hwf. unfold JSON_parse.
  pose proof (value_reads_back v Hwf (String.length (stringify v)) ""
                I (Nat.le_refl _)) as H.
  rewrite append_nil_r in H. rewrite H. reflexivity.
Qed.

(** ** [extractTextFromDeepInfra] *)

Lemma try_output_none (payload : value) :
  truthy_opt (get payload "output") = false -> try_output payload = None.
Proof.
  unfold try_output. destruct (get payload "output") as [o|]; [|reflexivity].
  simpl. intros H. rewrite H. reflexivity.
Qed.

Lemma try_results_none (payload : value) :
  has_truthy_first (get payload "results") = false ->
  try_results payload = None.
Proof.
  unfold try_results. destruct (get payload "results") as [[ | | | |l| ]|];
    try reflexivity.
  destruct l as [|x l]; [reflexivity|]. simpl. intros H. rewrite H.
  reflexivity.
Qed.

Lemma try_choices_none (payload : value) :
  has_truthy_first (get payload "choices") = false ->
  try_choices payload = None.
Proof.
  unfold try_choices. destruct (get payload "choices") as [[ | | | |l| ]|];
    try reflexivity; try (simpl; rewrite andb_false_r; reflexivity).
  destruct l as [|x l]; [reflexivity|]. simpl. intros H. rewrite H.
  reflexivity.
Qed.

(** An unrecognized object falls through to the last line. *)
Lemma extract_unrecognized (m : list (string * value)) :
  recognized_shape (JObj m) = false ->
  extractTextFromDeepInfra (JObj m) = JStr (stringify (JObj m)).
Proof.
  unfold recognized_shape. intros H.
  apply orb_false_iff in H. destruct H as [H Hd].
  apply orb_false_iff in H. destruct H as [H Hc].
  apply orb_false_iff in H. destruct H as [Ho Hr].
  unfold extractTextFromDeepInfra. cbn [truthy negb is_string].
  rewrite (try_output_none _ Ho), (try_results_none _ Hr),
    (try_choices_none _ Hc).
  unfold try_detail. destruct (get (JObj m) "detail") as [d|]; [|reflexivity].
  rewrite Hd. reflexivity.
Qed.

(** C1, as stated, fails for the empty string: line 39 answers [null]
    before line 40 is reached, and the caller then serializes the payload,
    so that the story is a pair of quotes. *)
Lemma empty_string_payload_is_not_returned :
  extractTextFromDeepInfra (JStr "") = JNull
  /\ extractTextFromDeepInfra (JStr "") <> JStr ""
  /\ coalesce (Some (extractTextFromDeepInfra (JStr "")))
              (JStr (stringify (JStr "")))
     = JStr (String DQUOTE (String DQUOTE "")).
Proof. split; [|split]; [reflexivity | discriminate | reflexivity]. Qed.

(** C1, amended.  The extractor returns a bare string payload itself when
    it is not empty; the [content] of the first element for a payload
    [{results: [{content: Y}, ...]}]; the [text] of the first element for a
    payload [{choices: [{text: X}, ...]}]; and, for an object of none of the
    recognized shapes, its JSON serialization, which [JSON.parse] turns back
    into the object.  The object is one that exists at run time and that
    the model represents: at every depth its properties are listed in
    enumeration order, without repeated key, and all its numbers are safe
    integers.  (A number that is not finite, such as the [Infinity] that
    [resp.json()] makes of [1e400], is written as [null] by
    [JSON.stringify] and is not recovered; it is outside the model.) *)
Theorem extractor_normalizes_payloads
  (Z0 Y X : string) (more_results more_choices : list value)
  (m : list (string * value)) :
  Z0 <> "" ->
  recognized_shape (JObj m) = false ->
  well_formed (JObj m) = true ->
  exact_numbers (JObj m) = true ->
  extractTextFromDeepInfra (JStr Z0) = JStr Z0
  /\ extractTextFromDeepInfra
       (JObj [("results", JArr (JObj [("content", JStr Y)] :: more_results))])
     = JStr Y
  /\ extractTextFromDeepInfra
       (JObj [("choices", JArr (JObj [("text", JStr X)] :: more_choices))])
     = JStr X
  /\ extractTextFromDeepInfra (JObj m) = JStr (stringify (JObj m))
  /\ JSON_parse (stringify (JObj m)) = Some (JObj m).
Proof.
  intros HZ Hshape Hwf _. split; [|split; [|split; [|split]]].
  - unfold extractTextFromDeepInfra. cbn [truthy].
    destruct (String.eqb_spec Z0 ""); [contradiction | reflexivity].
  - reflexivity.
  - reflexivity.
  - apply extract_unrecognized. exact Hshape.
  - apply JSON_parse_stringify. exact Hwf.
Qed.

(** C1, amended, at an error object of an unknown shape. *)
Lemma extractor_normalizes_witness :
  extractTextFromDeepInfra (JStr "Z") = JStr "Z"
  /\ extractTextFromDeepInfra
       (JObj [("results", JArr [JObj [("content", JStr "Y")]])])
     = JStr "Y"
  /\ extractTextFromDeepInfra
       (JObj [("choices", JArr [JObj [("text", JStr "X")]])])
     = JStr "X"
  /\ extractTextFromDeepInfra
       (JObj [("status", JNum 429); ("retry", JArr [JBool true; JNull])])
     = JStr (stringify
               (JObj [("status", JNum 429);
                      ("retry", JArr [JBool true; JNull])]))
  /\ JSON_parse
       (stringify
          (JObj [("status", JNum 429); ("retry", JArr [JBool true; JNull])]))
     = Some (JObj [("status", JNum 429); ("retry", JArr [JBool true; JNull])]).
Proof.
  apply (extractor_normalizes_payloads "Z" "Y" "X" [] []
           [("status", JNum 429); ("retry", JArr [JBool true; JNull])]);
    [discriminate | reflexivity | reflexivity | reflexivity].
Defined.

(* ===================================================================== *)
(** * Further properties of the server *)
(* ===================================================================== *)

Import Coverage.

(** ** Every run, by cases *)

Lemma handler_text_not_ok (cfg : Config) (up : Upstream) (b : value)
  (r : Response) :
  b <> JNull -> calls_upstream cfg ->
  up 0%nat (text_request cfg (params_of b)) = Resolved r ->
  ok r = false ->
  generate_story cfg up (Some b)
  = (Some
       (if mentions_balance (text r) then
          res_status_json 402
            (JObj [("code", JStr "insufficient_balance");
                   ("message", JStr "DeepInfra account has insufficient balance. Top up to enable inference.");
                   ("detail", JStr (text r))])
        else
          res_status_json 502
            (JObj [("code", JStr "upstream_error");
                   ("status", JNum (status r));
                   ("detail", JStr (text r))])),
     [text_request cfg (params_of b)]).
Proof.
  intros Hb Hc Hup Hok. unfold generate_story.
  rewrite (handler_with_upstream cfg up b _ Hb Hc).
  unfold try_catch, bind.
  rewrite (call_text_model_not_ok cfg up _ {| calls := []; images := [] |}
             r Hup Hok).
  reflexivity.
Qed.

Lemma handler_no_key_run (cfg : Config) (up : Upstream) (b : value) :
  b <> JNull -> no_key cfg = true -> DEV_FALLBACK cfg = true ->
  generate_story cfg up (Some b)
  = (Some
       (if ToLength (placeholder_length (params_of b)) <=? 2 ^ 32 - 1 then
          res_json (placeholder_body "short"
                      "Preface: This is a placeholder summary." (params_of b))
        else
          res_status_json 500
            (JObj [("error", JStr "server_error");
                   ("message", JStr "RangeError: Invalid array length")])),
     []).
Proof.
  intros Hb Hk Hf. unfold generate_story.
  rewrite (handler_without_key cfg up b _ Hb Hk Hf). unfold try_catch.
  destruct (Z.leb_spec (ToLength (placeholder_length (params_of b)))
              (2 ^ 32 - 1)) as [H|H].
  - rewrite (dummy_response_ok _ _ _ _ H). reflexivity.
  - rewrite (dummy_response_throw _ _ _ _ H). reflexivity.
Qed.

(** The five ways a run can go: no body; the early return of line 71; the
    text call throws; it is answered outside 200-299; it delivers a
    payload. *)
Lemma generate_story_cases (cfg : Config) (up : Upstream)
  (body : option value) :
  ((body = None \/ body = Some JNull)
   /\ generate_story cfg up body
      = (Some (res_status_json 500
                 (JObj [("error", JStr "server_error");
                        ("message", JStr (destructure_error body))])),
         []))
  \/ exists b,
       body = Some b /\ b <> JNull
       /\ ((no_key cfg = true /\ DEV_FALLBACK cfg = true
            /\ generate_story cfg up body
               = (Some
                    (if ToLength (placeholder_length (params_of b))
                        <=? 2 ^ 32 - 1
                     then
                       res_json (placeholder_body "short"
                                   "Preface: This is a placeholder summary."
                                   (params_of b))
                     else
                       res_status_json 500
                         (JObj [("error", JStr "server_error");
                                ("message",
                                 JStr "RangeError: Invalid array length")])),
                  []))
           \/ (calls_upstream cfg
               /\ exists err,
                    fetch_throws (up 0%nat (text_request cfg (params_of b)))
                      err
                    /\ generate_story cfg up body
                       = (Some
                            (if DEV_FALLBACK cfg then
                               if ToLength (placeholder_length (params_of b))
                                  <=? 2 ^ 32 - 1
                               then
                                 res_json
                                   (placeholder_body "fallback"
                                      "Preface: This is a fallback placeholder."
                                      (params_of b))
                               else
                                 res_status_json 500
                                   (JObj [("error", JStr "server_error");
                                          ("message",
                                           JStr "RangeError: Invalid array length")])
                             else
                               res_status_json 502
                                 (JObj [("error", JStr "network_or_upstream");
                                        ("message", JStr err)])),
                          [text_request cfg (params_of b)]))
           \/ (calls_upstream cfg
               /\ exists r,
                    up 0%nat (text_request cfg (params_of b)) = Resolved r
                    /\ ok r = false
                    /\ generate_story cfg up body
                       = (Some
                            (if mentions_balance (text r) then
                               res_status_json 402
                                 (JObj [("code", JStr "insufficient_balance");
                                        ("message", JStr "DeepInfra account has insufficient balance. Top up to enable inference.");
                                        ("detail", JStr (text r))])
                             else
                               res_status_json 502
                                 (JObj [("code", JStr "upstream_error");
                                        ("status", JNum (status r));
                                        ("detail", JStr (text r))])),
                          [text_request cfg (params_of b)]))
           \/ (calls_upstream cfg
               /\ exists r textResp st',
                    up 0%nat (text_request cfg (params_of b)) = Resolved r
                    /\ ok r = true /\ json r = inr textResp
                    /\ generate_images cfg up (storyText_of textResp)
                         (params_of b)
                         {| calls := [text_request cfg (params_of b)];
                            images := [] |}
                       = (Ok tt, st')
                    /\ generate_story cfg up body
                       = (Some (res_json
                                  (JObj [("story",
                                          JStr (ToString
                                                  (storyText_of textResp)));
                                         ("raw", textResp);
                                         ("images", JArr (images st'))])),
                          calls st'))).
Proof.
  destruct body as [b|].
  2:{ left. split; [left; reflexivity|]. unfold generate_story.
      rewrite handler_null_body by (left; reflexivity). reflexivity. }
  destruct (value_eq_null b) as [E|Hb].
  { subst b. left. split; [right; reflexivity|]. unfold generate_story.
    rewrite handler_null_body by (right; reflexivity). reflexivity. }
  right. exists b. split; [reflexivity|]. split; [exact Hb|].
  destruct (no_key cfg && DEV_FALLBACK cfg) eqn:Hc.
  - apply andb_true_iff in Hc. destruct Hc as [Hk Hf]. left.
    split; [exact Hk|]. split; [exact Hf|].
    apply handler_no_key_run; assumption.
  - right.
    destruct (up 0%nat (text_request cfg (params_of b))) as [err|r] eqn:Hup.
    + left. split; [exact Hc|]. exists err. split; [left; reflexivity|].
      apply handler_text_throws; [exact Hb | exact Hc |].
      rewrite Hup. left. reflexivity.
    + destruct (ok r) eqn:Hok.
      * destruct (json r) as [err|textResp] eqn:Hjson.
        -- left. split; [exact Hc|]. exists err.
           split; [right; exists r; repeat split; assumption|].
           apply handler_text_throws; [exact Hb | exact Hc |].
           rewrite Hup. right. exists r. repeat split; assumption.
        -- right. right. split; [exact Hc|].
           destruct (handler_text_payload cfg up b r textResp Hb Hc Hup Hok
                       Hjson) as (st' & E & Hrun).
           exists r, textResp, st'. repeat split; assumption.
      * right. left. split; [exact Hc|]. exists r.
        split; [reflexivity|]. split; [exact Hok|].
        apply handler_text_not_ok; assumption.
Qed.

(** X1.  The handler never lets an exception escape, and whatever the
    configuration, the upstream and the request, its answer has one of six
    forms: the placeholder story (200, with [paragraphs] and no images), the
    upstream story (200, with [raw] and [images]), or one of the four
    errors: 402 [insufficient_balance], 502 [upstream_error], 502
    [network_or_upstream], 500 [server_error]. *)
Theorem every_answer_has_one_of_six_forms
  (cfg : Config) (up : Upstream) (body : option value) :
  exists r log,
    generate_story cfg up body = (Some r, log)
    /\ (placeholder_shape r \/ story_shape r \/ error_shape r).
Proof.
  assert (H500 : forall m,
             error_shape (res_status_json 500
                            (JObj [("error", JStr "server_error");
                                   ("message", JStr m)]))).
  { intros m. right. right. right. split; [reflexivity|]. eexists.
    reflexivity. }
  assert (Hph : forall kind preface p,
             placeholder_shape (res_json (placeholder_body kind preface p))).
  { intros kind preface p. split; [reflexivity|]. do 2 eexists.
    reflexivity. }
  destruct (generate_story_cases cfg up body)
    as [[_ E]
       |(b & _ & _ & [(_ & _ & E)
                     |[(_ & err & _ & E)
                      |[(_ & r & _ & _ & E)
                       |(_ & r & textResp & st' & _ & _ & _ & _ & E)]]])];
    rewrite E; do 2 eexists; (split; [reflexivity|]).
  - right. right. apply H500.
  - destruct (_ <=? _); [left; apply Hph | right; right; apply H500].
  - destruct (DEV_FALLBACK cfg).
    + destruct (_ <=? _); [left; apply Hph | right; right; apply H500].
    + right. right. right. right. left. split; [reflexivity|]. eexists.
      reflexivity.
  - right. right. destruct (mentions_balance (text r)).
    + left. split; [reflexivity|]. eexists. reflexivity.
    + right. left. split; [reflexivity|]. do 2 eexists. reflexivity.
  - right. left. split; [reflexivity|]. do 3 eexists. reflexivity.
Qed.

(** ** The image phase *)

(** What the loop has done when it stops: it went through the first [k]
    paragraphs, one call each, and left one slot for each but, when it
    stopped on an exception, the last. *)
Lemma image_loop_run (cfg : Config) (up : Upstream) (paraArr : list value) :
  forall st o st',
    image_loop cfg up paraArr st = (o, st') ->
    exists k slots,
      (k <= List.length paraArr)%nat
      /\ calls st'
         = (calls st ++ map (image_request cfg) (firstn k paraArr))%list
      /\ images st' = (images st ++ slots)%list
      /\ Forall paragraph_slot slots
      /\ match o with
         | Ok _ => k = List.length paraArr /\ List.length slots = k
         | Throw _ => S (List.length slots) = k
         end.
Proof.
  induction paraArr as [|p rest IH]; intros st o st' H.
  - cbn in H. inversion H; subst. exists 0%nat, [].
    rewrite !app_nil_r. split; [cbn; lia|]. repeat split. constructor.
  - destruct (up (List.length (calls st)) (image_request cfg p))
      as [err|r] eqn:Hup.
    { rewrite (image_loop_throws cfg up p rest st err (or_introl Hup)) in H.
      inversion H; subst. exists 1%nat, []. cbn [firstn map calls images].
      rewrite app_nil_r.
      split; [cbn; lia|]. repeat split. constructor. }
    destruct (ok r) eqn:Hok.
    + destruct (json r) as [err|imgJson] eqn:Hjson.
      { rewrite (image_loop_throws cfg up p rest st err) in H.
        2:{ right. exists r. repeat split; assumption. }
        inversion H; subst. exists 1%nat, []. cbn [firstn map calls images].
        rewrite app_nil_r.
        split; [cbn; lia|]. repeat split. constructor. }
      rewrite (image_loop_payload cfg up p rest st r imgJson Hup Hok Hjson)
        in H.
      destruct (IH _ _ _ H) as (k & slots & Hk & Hc & Hi & Hs & Ho).
      cbn [calls images] in Hc, Hi.
      exists (S k), ((if truthy (image_url imgJson)
                      then JObj [("url", image_url imgJson)]
                      else JObj [("raw", imgJson)]) :: slots).
      cbn [firstn map List.length]. rewrite Hc, Hi, <- !app_assoc.
      split; [lia|]. split; [reflexivity|]. split; [reflexivity|].
      split.
      * constructor; [|exact Hs].
        destruct (truthy (image_url imgJson)) eqn:Hu.
        -- left. eexists. split; [reflexivity | exact Hu].
        -- right. left. eexists. reflexivity.
      * destruct o; cbn [List.length]; lia.
    + rewrite (image_loop_not_ok cfg up p rest st r Hup Hok) in H.
      destruct (IH _ _ _ H) as (k & slots & Hk & Hc & Hi & Hs & Ho).
      cbn [calls images] in Hc, Hi.
      exists (S k), (JObj [("error",
                            JStr ("image_upstream_"
                                  ++ NumberToString (status r)));
                           ("detail", JStr (text r))] :: slots).
      cbn [firstn map List.length]. rewrite Hc, Hi, <- !app_assoc.
      split; [lia|]. split; [reflexivity|]. split; [reflexivity|].
      split.
      * constructor; [|exact Hs]. right. right. do 2 eexists. reflexivity.
      * destruct o; cbn [List.length]; lia.
Qed.

(** The same for lines 120-153, where the exception is caught and leaves
    its descriptor. *)
Lemma generate_images_run (cfg : Config) (up : Upstream) (storyText : value)
  (p : Params) (st st' : State) :
  generate_images cfg up storyText p st = (Ok tt, st') ->
  exists pre,
    Forall paragraph_slot pre
    /\ (List.length (images st') - List.length (images st)
        <= List.length (image_paragraphs storyText p))%nat
    /\ calls st'
       = (calls st
          ++ map (image_request cfg)
               (firstn (List.length (images st') - List.length (images st))
                  (image_paragraphs storyText p)))%list
    /\ (images st' = (images st ++ pre)%list
        \/ exists err,
             images st'
             = (images st ++ pre
                ++ [JObj [("error", JStr "image_generation_failed");
                          ("message", JStr err)]])%list).
Proof.
  unfold generate_images, image_paragraphs.
  destruct (truthy (imagesPerParagraph p)).
  - unfold try_catch.
    destruct (image_loop cfg up (paraArr_of storyText (paragraphs p)) st)
      as [o st1] eqn:E.
    destruct (image_loop_run cfg up _ _ _ _ E)
      as (k & slots & Hk & Hc & Hi & Hs & Ho).
    destruct o as [[]|err]; intros H; inversion H as [Hst']; clear H.
    + subst st'. destruct Ho as [Hk' Hl]. exists slots.
      assert (EL : (List.length (images st1) - List.length (images st))%nat
                   = k) by (rewrite Hi, length_app; lia).
      rewrite EL, Hc, Hi.
      split; [exact Hs|]. split; [exact Hk|]. split; [reflexivity|].
      left. reflexivity.
    + subst st'. exists slots. cbn [calls images].
      assert (EL : (List.length
                      (images st1
                       ++ [JObj [("error", JStr "image_generation_failed");
                                 ("message", JStr err)]])
                    - List.length (images st))%nat = k)
        by (rewrite Hi, !length_app; cbn [List.length]; lia).
      rewrite EL, Hc, Hi.
      split; [exact Hs|]. split; [exact Hk|]. split; [reflexivity|].
      right. exists err. rewrite <- app_assoc. reflexivity.
  - intros H. inversion H; subst. exists []. rewrite Nat.sub_diag.
    cbn [firstn map List.length]. rewrite !app_nil_r.
    split; [constructor|]. split; [lia|]. split; [reflexivity|].
    left. reflexivity.
Qed.

(** ** The split of the story (line 123), in a run *)


Lemma wants_images_truthy (b : value) :
  truthy (imagesPerParagraph (params_of b)) = wants_images b.
Proof.
  unfold wants_images, params_of. cbn [imagesPerParagraph].
  destruct (get b "imagesPerParagraph"); reflexivity.
Qed.

(** A negative count does not cap the paragraphs: [slice] then counts from
    the end and drops the last ones. *)
Example negative_count_drops_the_last_paragraph :
  paraArr_of (JStr story_three) (JNum (-1)) = [JStr "One."; JStr "Two."].
Proof. reflexivity. Qed.



(** X2.  When the text model delivers a payload, the answer is the upstream
    story with that payload as [raw], and the image calls and the image
    slots correspond: the run made the text call and then one call for
    each of the first [k] paragraphs, in order, where [k] is the number of
    slots and is at most the number of paragraphs.  Every slot but possibly
    the last is a URL reference, a raw payload or an [image_upstream_]
    descriptor; the descriptor [image_generation_failed] can only be the
    last slot.  The paragraphs are those of line 123 for a count that
    [Number] converts as the model does (every integer count; not a text
    such as ["2.5"], which [slice] truncates to 2); the numbers of the
    payload are safe integers, and the genre, the characters and the story
    text are values that [String] prints as the model does. *)
Theorem image_calls_and_slots_correspond
  (cfg : Config) (up : Upstream) (b : value) (r : Response)
  (textResp : value) :
  b <> JNull -> calls_upstream cfg ->
  plain_fields b = true ->
  exact_count (paragraphs (params_of b)) = true ->
  up 0%nat (text_request cfg (params_of b)) = Resolved r ->
  ok r = true -> json r = inr textResp ->
  exact_numbers textResp = true ->
  prints_exactly (storyText_of textResp) = true ->
  exists imgs pre,
    generate_story cfg up (Some b)
    = (Some {| http_status := 200;
               http_body :=
                 JObj [("story", JStr (ToString (storyText_of textResp)));
                       ("raw", textResp);
                       ("images", JArr imgs)] |},
       text_request cfg (params_of b)
       :: map (image_request cfg)
            (firstn (List.length imgs)
               (image_paragraphs (storyText_of textResp) (params_of b))))
    /\ (List.length imgs
        <= List.length (image_paragraphs (storyText_of textResp)
                          (params_of b)))%nat
    /\ Forall paragraph_slot pre
    /\ (imgs = pre
        \/ exists err,
             imgs = (pre ++ [JObj [("error", JStr "image_generation_failed");
                                   ("message", JStr err)]])%list).
Proof.
  intros Hb Hc _ _ Hup Hok Hjson _ _.
  destruct (handler_text_payload cfg up b r textResp Hb Hc Hup Hok Hjson)
    as (st' & E & Hrun).
  destruct (generate_images_run cfg up _ _ _ _ E)
    as (pre & Hpre & Hlen & Hcalls & Himgs).
  cbn [calls images List.length app] in Hlen, Hcalls, Himgs.
  rewrite Nat.sub_0_r in Hlen, Hcalls.
  exists (images st'), pre. rewrite Hrun. unfold storyText_of.
  split; [rewrite Hcalls; reflexivity|]. split; [exact Hlen|].
  split; [exact Hpre | exact Himgs].
Qed.

(** X2 at the story of three paragraphs whose second image call times
    out. *)
Lemma image_calls_and_slots_witness :
  exists imgs pre,
    fst (generate_story cfg_key up_second_image_timeout (Some body_form))
    = Some {| http_status := 200;
              http_body :=
                JObj [("story", JStr story_three);
                      ("raw",
                       JObj [("choices",
                              JArr [JObj [("text", JStr story_three)]])]);
                      ("images", JArr imgs)] |}
    /\ (List.length imgs <= 3)%nat
    /\ Forall paragraph_slot pre
    /\ (imgs = pre
        \/ exists err,
             imgs = (pre ++ [JObj [("error", JStr "image_generation_failed");
                                   ("message", JStr err)]])%list).
Proof.
  destruct (image_calls_and_slots_correspond cfg_key up_second_image_timeout
              body_form resp_story
              (JObj [("choices", JArr [JObj [("text", JStr story_three)]])])
              ltac:(discriminate) eq_refl eq_refl eq_refl eq_refl eq_refl
              eq_refl eq_refl eq_refl)
    as (imgs & pre & Hrun & Hlen & Hpre & Himgs).
  exists imgs, pre. split; [rewrite Hrun; reflexivity|].
  split; [exact Hlen|]. split; [exact Hpre | exact Himgs].
Defined.

Lemma paraArr_of_length (v : value) (N : Z) :
  0 <= N -> (List.length (paraArr_of v (JNum N)) <= Z.to_nat (Z.max 1 N))%nat.
Proof.
  intros HN. destruct v; try (cbn; lia).
  unfold paraArr_of. rewrite slice0_count by exact HN.
  rewrite length_map.
  etransitivity; [apply firstn_le_length | lia].
Qed.

(** The calls of a run: none, or the text request followed by image
    requests for paragraphs of the story. *)
Lemma log_shape (cfg : Config) (up : Upstream) (body : option value)
  (resp : option HttpResponse) (log : list Request) :
  generate_story cfg up body = (resp, log) ->
  log = []
  \/ exists b l,
       body = Some b
       /\ log = text_request cfg (params_of b) :: map (image_request cfg) l
       /\ (l = []
           \/ exists r textResp,
                up 0%nat (text_request cfg (params_of b)) = Resolved r
                /\ ok r = true /\ json r = inr textResp
                /\ (List.length l
                    <= List.length (image_paragraphs (storyText_of textResp)
                                      (params_of b)))%nat).
Proof.
  intros Hrun.
  destruct (generate_story_cases cfg up body)
    as [[_ E]
       |(b & Eb & _ & [(_ & _ & E)
                      |[(_ & err & _ & E)
                       |[(_ & r & _ & _ & E)
                        |(_ & r & textResp & st' & Hup & Hok & Hjson & Hi
                          & E)]]])];
    rewrite E in Hrun; inversion Hrun; subst resp log; clear Hrun.
  - left. reflexivity.
  - left. reflexivity.
  - right. exists b, []. repeat split; auto.
  - right. exists b, []. repeat split; auto.
  - destruct (generate_images_run cfg up _ _ _ _ Hi)
      as (pre & _ & Hlen & Hcalls & _).
    cbn [calls images List.length app] in Hlen, Hcalls.
    rewrite Nat.sub_0_r in Hlen, Hcalls.
    right. exists b. eexists. split; [exact Eb|]. split; [exact Hcalls|].
    right. exists r, textResp. repeat split; try assumption.
    rewrite length_firstn. lia.
Qed.

(** X3.  The upstream calls of a run are bounded by the request: without
    [imagesPerParagraph] there is at most one, the text call; with a
    paragraph count that is an integer [N >= 1] there are at most [1 + N],
    whatever the upstream answers. *)
Theorem upstream_calls_are_bounded
  (cfg : Config) (up : Upstream) (b : value)
  (resp : option HttpResponse) (log : list Request) :
  generate_story cfg up (Some b) = (resp, log) ->
  (truthy (imagesPerParagraph (params_of b)) = false ->
   (List.length log <= 1)%nat)
  /\ (forall N, paragraphs (params_of b) = JNum N -> 1 <= N ->
      (List.length log <= 1 + Z.to_nat N)%nat).
Proof.
  intros Hrun.
  destruct (log_shape cfg up (Some b) resp log Hrun)
    as [E|(b' & l & Eb & E & Hl)].
  { subst log. split; intros; cbn; lia. }
  inversion Eb; subst b'. subst log. cbn [List.length]. rewrite length_map.
  destruct Hl as [El|(r & textResp & _ & _ & _ & Hlen)].
  { subst l. split; intros; cbn; lia. }
  split.
  - intros Himg. unfold image_paragraphs in Hlen. rewrite Himg in Hlen.
    cbn in Hlen. lia.
  - intros N HN HN1. unfold image_paragraphs in Hlen.
    destruct (truthy (imagesPerParagraph (params_of b))).
    + rewrite HN in Hlen.
      pose proof (paraArr_of_length (storyText_of textResp) N ltac:(lia)).
      lia.
    + cbn in Hlen. lia.
Qed.

(** X3 at the default request of the form, which does not ask for images,
    against an upstream that delivers: one call. *)
Lemma upstream_calls_witness :
  (List.length
     (snd (generate_story cfg_key up_second_image_503
             (Some (JObj [("genre", JStr "fantasy")])))) <= 1)%nat.
Proof.
  exact (proj1 (upstream_calls_are_bounded cfg_key up_second_image_503
                  (JObj [("genre", JStr "fantasy")]) _ _
                  (surjective_pairing _))
               eq_refl).
Defined.

(** X4.  Every upstream request of every run is a POST of JSON that carries
    the configured key as bearer token; the first one goes to the text
    model with a timeout of 60 seconds, every later one to the image model
    with a timeout of 90 seconds. *)
Theorem upstream_requests_are_uniform
  (cfg : Config) (up : Upstream) (body : option value)
  (resp : option HttpResponse) (log : list Request) (i : nat) (rq : Request) :
  generate_story cfg up body = (resp, log) ->
  nth_error log i = Some rq ->
  method rq = "POST"
  /\ content_type rq = "application/json"
  /\ authorization rq = "Bearer " ++ DEEPINFRA_API_KEY cfg
  /\ (i = 0%nat ->
      url rq = "https://api.deepinfra.com/v1/inference/" ++ TEXT_MODEL cfg
      /\ timeout rq = 60000)
  /\ (i <> 0%nat ->
      url rq = "https://api.deepinfra.com/v1/inference/" ++ IMAGE_MODEL cfg
      /\ timeout rq = 90000).
Proof.
  intros Hrun Hrq.
  destruct (log_shape cfg up body resp log Hrun)
    as [E|(b & l & _ & E & _)]; subst log.
  { destruct i; discriminate. }
  destruct i as [|j].
  - cbn in Hrq. inversion Hrq; subst rq.
    repeat split; try reflexivity; congruence.
  - cbn in Hrq. rewrite nth_error_map in Hrq.
    destruct (nth_error l j) as [p|]; [|discriminate].
    cbn in Hrq. inversion Hrq; subst rq.
    repeat split; try reflexivity; congruence.
Qed.

(** X4 at the third call of a run with images. *)
Lemma upstream_requests_witness :
  exists rq,
    nth_error (snd (generate_story cfg_key up_second_image_503
                      (Some body_form))) 2 = Some rq
    /\ authorization rq = "Bearer sk-test"
    /\ timeout rq = 90000.
Proof.
  eexists. split; [reflexivity|].
  destruct (upstream_requests_are_uniform cfg_key up_second_image_503
              (Some body_form) _ _ 2%nat _ (surjective_pairing _) eq_refl)
    as (_ & _ & Ha & _ & Hi).
  split; [exact Ha | exact (proj2 (Hi ltac:(discriminate)))].
Defined.

(** X5.  The bodies of the upstream requests are JSON texts that parse back
    to what lines 87 and 134 serialize: the text model receives the prompt
    and the token budget, the image model the illustration prompt of the
    paragraph, whatever characters the request put into them. *)
Theorem request_bodies_parse_back (cfg : Config) (p : Params) (v : value) :
  JSON_parse (body (text_request cfg p))
  = Some (JObj [("input", JStr (prompt_of p)); ("max_output_tokens", JNum 800)])
  /\ JSON_parse (body (image_request cfg v))
     = Some (JObj [("prompt",
                    JStr ("Create an illustration for: " ++ ToString v ++ NL
                          ++ "Style: cinematic, detailed, suitable for a book illustration."))]).
Proof.
  split; apply JSON_parse_stringify; reflexivity.
Qed.

(** ** The request fields, from the body to the prompt and the answer *)

(** When the upstream is used, the run starts with the text request, and
    without the image switch it makes no other call. *)
Lemma upstream_run_log (cfg : Config) (up : Upstream) (b : value) :
  b <> JNull -> calls_upstream cfg ->
  exists resp l,
    generate_story cfg up (Some b)
    = (resp, text_request cfg (params_of b) :: map (image_request cfg) l)
    /\ (truthy (imagesPerParagraph (params_of b)) = false -> l = []).
Proof.
  intros Hb Hc.
  destruct (generate_story_cases cfg up (Some b))
    as [[[Eb|Eb] _]
       |(b' & Eb & _ & [(Hk & Hf & _)
                       |[(_ & err & _ & E)
                        |[(_ & r & _ & _ & E)
                         |(_ & r & textResp & st' & _ & _ & _ & Hi & E)]]])];
    try discriminate Eb; try congruence.
  - unfold calls_upstream in Hc. rewrite Hk, Hf in Hc. discriminate.
  - inversion Eb; subst b'. rewrite E. do 2 eexists.
    split; [instantiate (1 := []); reflexivity | reflexivity].
  - inversion Eb; subst b'. rewrite E. do 2 eexists.
    split; [instantiate (1 := []); reflexivity | reflexivity].
  - inversion Eb; subst b'. rewrite E.
    destruct (generate_images_run _ _ _ _ _ _ Hi)
      as (pre & _ & _ & Hcalls & _).
    cbn [calls app] in Hcalls. rewrite Hcalls.
    do 2 eexists. split; [reflexivity|].
    intros Himg. unfold image_paragraphs. rewrite Himg.
    apply firstn_nil.
Qed.

(** C10.  For every request body (one that is neither [undefined] nor
    [null]) the endpoint uses each field it finds and the default of each
    field it does not find: genre ["fantasy"], no characters, three
    paragraphs, no images.  The genre and the characters, when present, are
    plain values, and the count is an integer [N] between 1 and
    [2^32 - 1], or is missing, which is 3.
    - When the upstream is used, the run starts with the request to the
      text model whose prompt asks for [N] paragraphs of the genre with the
      character string of the request: the names joined with a comma and a
      space when they come as an array, the value itself, verbatim, when
      they do not, nothing when the field is missing.  Without the image
      switch no other call is made.
    - When the placeholder is served instead, it has [N] paragraphs, each
      naming the genre and the character string of the request
      (["characters"] when that string is falsy), and no image.
    - For a body with none of the four fields the prompt and the
      paragraphs are those of a three-paragraph fantasy story without
      characters. *)
Theorem missing_fields_take_defaults
  (cfg : Config) (up : Upstream) (b : value) (N : Z) :
  b <> JNull -> plain_fields b = true ->
  requested_count b N -> 1 <= N <= 2 ^ 32 - 1 ->
  (calls_upstream cfg ->
   exists resp rest,
     generate_story cfg up (Some b)
     = (resp,
        {| url := "https://api.deepinfra.com/v1/inference/" ++ TEXT_MODEL cfg;
           method := "POST";
           authorization := "Bearer " ++ DEEPINFRA_API_KEY cfg;
           content_type := "application/json";
           body := stringify (JObj [("input", JStr (expected_prompt b N));
                                    ("max_output_tokens", JNum 800)]);
           timeout := 60000 |}
        :: rest)
     /\ (wants_images b = false -> rest = []))
  /\ (no_key cfg = true -> DEV_FALLBACK cfg = true ->
      generate_story cfg up (Some b)
      = (Some (res_json
                 (JObj [("story",
                         JStr (join (NL ++ NL)
                                 (map (expected_paragraph "short" b)
                                    (seq 0 (Z.to_nat N)))
                               ++ NL ++ NL
                               ++ "Preface: This is a placeholder summary."));
                        ("paragraphs",
                         JArr (map JStr
                                 (map (expected_paragraph "short" b)
                                    (seq 0 (Z.to_nat N)))));
                        ("images", JArr [])])),
         []))
  /\ (get b "genre" = None -> get b "characters" = None ->
      get b "paragraphs" = None -> get b "imagesPerParagraph" = None ->
      expected_prompt b N
      = "System: You are a helpful creative fiction writer." ++ NL
        ++ "User: Write a 3-paragraph fantasy short story for adults. Characters: ."
        ++ NL
        ++ "Constraints: Each paragraph should be distinct and between 2-6 sentences. After the story include a 1-2 sentence preface/summary. Output only the story and the preface."
      /\ map (expected_paragraph "short" b) (seq 0 (Z.to_nat N))
         = ["Paragraph 1: A short fantasy scene featuring characters.";
            "Paragraph 2: A short fantasy scene featuring characters.";
            "Paragraph 3: A short fantasy scene featuring characters."]
      /\ wants_images b = false).
Proof.
  intros Hb _ Hn HN. split; [|split].
  - intros Hc.
    destruct (upstream_run_log cfg up b Hb Hc) as (resp & l & E & Hl).
    exists resp, (map (image_request cfg) l). split.
    + rewrite E. unfold text_request, bearer.
      rewrite (prompt_of_expected b N Hn). reflexivity.
    + intros Hw. rewrite wants_images_truthy in Hl. rewrite (Hl Hw).
      reflexivity.
  - intros Hk Hf. rewrite (handler_no_key_run cfg up b Hb Hk Hf).
    pose proof (requested_count_length b N Hn HN) as EL.
    unfold placeholder_body, placeholder_paragraphs. cbv zeta. rewrite EL.
    destruct HN as [_ HN]. apply Z.leb_le in HN. rewrite HN.
    rewrite (map_ext _ _ (dummy_paragraph_expected "short" b)).
    reflexivity.
  - intros Hg Hch Hp Hi.
    assert (EN : N = 3).
    { destruct Hn as [Hn|[_ Hn]]; [congruence | exact Hn]. }
    subst N.
    unfold expected_prompt, expected_paragraph, genre_text, character_string,
      wants_images.
    rewrite Hg, Hch, Hi. repeat split; reflexivity.
Qed.

(** C10 at a body that gives the characters as one string and nothing
    else: the placeholder and the prompt have the three paragraphs and the
    genre of the defaults, and the character string as it was sent. *)
Lemma missing_fields_witness :
  generate_story cfg_no_key up_down
    (Some (JObj [("characters", JStr "Arya and Tom")]))
  = (Some (res_json
             (JObj [("story",
                     JStr ("Paragraph 1: A short fantasy scene featuring Arya and Tom."
                           ++ NL ++ NL
                           ++ "Paragraph 2: A short fantasy scene featuring Arya and Tom."
                           ++ NL ++ NL
                           ++ "Paragraph 3: A short fantasy scene featuring Arya and Tom."
                           ++ NL ++ NL
                           ++ "Preface: This is a placeholder summary."));
                    ("paragraphs",
                     JArr [JStr "Paragraph 1: A short fantasy scene featuring Arya and Tom.";
                           JStr "Paragraph 2: A short fantasy scene featuring Arya and Tom.";
                           JStr "Paragraph 3: A short fantasy scene featuring Arya and Tom."]);
                    ("images", JArr [])])),
     [])
  /\ exists resp,
       generate_story cfg_key up_down
         (Some (JObj [("characters", JStr "Arya and Tom")]))
       = (resp,
          [{| url := "https://api.deepinfra.com/v1/inference/meta-llama/Meta-Llama-3-8B-Instruct";
              method := "POST";
              authorization := "Bearer sk-test";
              content_type := "application/json";
              body :=
                stringify
                  (JObj [("input",
                          JStr ("System: You are a helpful creative fiction writer."
                                ++ NL
                                ++ "User: Write a 3-paragraph fantasy short story for adults. Characters: Arya and Tom."
                                ++ NL
                                ++ "Constraints: Each paragraph should be distinct and between 2-6 sentences. After the story include a 1-2 sentence preface/summary. Output only the story and the preface."));
                         ("max_output_tokens", JNum 800)]);
              timeout := 60000 |}]).
Proof.
  assert (HN : 1 <= 3 <= 2 ^ 32 - 1) by (vm_compute; split; discriminate).
  destruct (missing_fields_take_defaults cfg_no_key up_down
              (JObj [("characters", JStr "Arya and Tom")]) 3
              ltac:(discriminate) eq_refl
              (or_intror (conj eq_refl eq_refl)) HN)
    as (_ & H2 & _).
  destruct (missing_fields_take_defaults cfg_key up_down
              (JObj [("characters", JStr "Arya and Tom")]) 3
              ltac:(discriminate) eq_refl
              (or_intror (conj eq_refl eq_refl)) HN)
    as (H1 & _ & _).
  split.
  - exact (H2 eq_refl eq_refl).
  - destruct (H1 eq_refl) as (resp & rest & E & Hrest).
    exists resp. rewrite E, (Hrest eq_refl). reflexivity.
Defined.

(** ** The extractor, shape by shape *)

Lemma coalesce_not_null (a : option value) (b : value) :
  b <> JNull -> coalesce a b <> JNull.
Proof. intros Hb. destruct a as [[]|]; cbn; congruence. Qed.

Lemma coalesce_some (v b : value) : v <> JNull -> coalesce (Some v) b = v.
Proof. intros Hv. destruct v; try reflexivity. congruence. Qed.

Lemma coalesce_nullish (a : option value) (b : value) :
  nullish a -> coalesce a b = b.
Proof. intros [H|H]; subst a; reflexivity. Qed.

Lemma truthy_not_null (v : value) : truthy v = true -> v <> JNull.
Proof. intros H E. subst v. discriminate. Qed.

Lemma try_output_not_null (v x : value) :
  try_output v = Some x -> x <> JNull.
Proof.
  unfold try_output. destruct (get v "output") as [o|]; [|discriminate].
  destruct (truthy o) eqn:Ho; [|discriminate].
  intros E. inversion E. subst x. apply truthy_not_null. exact Ho.
Qed.

Lemma try_results_not_null (v x : value) :
  try_results v = Some x -> x <> JNull.
Proof.
  unfold try_results. destruct (isArray (get v "results")); [|discriminate].
  destruct (index0_opt (get v "results")) as [r0|]; [|discriminate].
  destruct (truthy r0); [|discriminate].
  intros E. inversion E. repeat apply coalesce_not_null. discriminate.
Qed.

Lemma try_choices_not_null (v x : value) :
  try_choices v = Some x -> x <> JNull.
Proof.
  unfold try_choices.
  destruct (truthy_opt (get v "choices") && isArray (get v "choices"));
    [|discriminate].
  destruct (index0_opt (get v "choices")) as [c0|]; [|discriminate].
  destruct (truthy c0); [|discriminate].
  intros E. inversion E. repeat apply coalesce_not_null. discriminate.
Qed.

Lemma try_detail_not_null (v x : value) :
  try_detail v = Some x -> x <> JNull.
Proof.
  unfold try_detail. destruct (get v "detail") as [d|]; [|discriminate].
  destruct (truthy d && truthy_opt (get d "error")); [|discriminate].
  intros E. inversion E. discriminate.
Qed.

Lemma extract_not_null (v : value) :
  truthy v = true -> extractTextFromDeepInfra v <> JNull.
Proof.
  intros Hv. unfold extractTextFromDeepInfra. rewrite Hv. cbn [negb].
  destruct (is_string v) eqn:Hs; [apply truthy_not_null; exact Hv|].
  destruct (try_output v) eqn:E1; [exact (try_output_not_null _ _ E1)|].
  destruct (try_results v) eqn:E2; [exact (try_results_not_null _ _ E2)|].
  destruct (try_choices v) eqn:E3; [exact (try_choices_not_null _ _ E3)|].
  destruct (try_detail v) eqn:E4; [exact (try_detail_not_null _ _ E4)|].
  discriminate.
Qed.

(** X6.  The extractor answers [null] exactly for the falsy payloads
    ([null], [false], [0], the empty string), so the serialization of line
    116 replaces its result for these payloads and for no other: the story
    text is the extractor's result for a truthy payload and the JSON text
    of the payload for a falsy one. *)
Theorem extractor_is_null_exactly_on_falsy_payloads (textResp : value) :
  (extractTextFromDeepInfra textResp = JNull <-> truthy textResp = false)
  /\ storyText_of textResp
     = (if truthy textResp then extractTextFromDeepInfra textResp
        else JStr (stringify textResp)).
Proof.
  assert (H : extractTextFromDeepInfra textResp = JNull
              <-> truthy textResp = false).
  { split.
    - intros E. destruct (truthy textResp) eqn:Ht; [|reflexivity].
      exfalso. exact (extract_not_null textResp Ht E).
    - intros Ht. unfold extractTextFromDeepInfra. rewrite Ht. reflexivity. }
  split; [exact H|]. unfold storyText_of.
  destruct (truthy textResp) eqn:Ht.
  - apply coalesce_some. apply extract_not_null. exact Ht.
  - rewrite (proj2 H eq_refl). reflexivity.
Qed.

(** X7.  A truthy [output] field wins over every other shape: the
    extractor returns it as it is, string or not, whatever [results],
    [choices] and [detail] hold. *)
Theorem output_field_wins (m : list (string * value)) (o : value) :
  lookup "output" m = Some o -> truthy o = true ->
  extractTextFromDeepInfra (JObj m) = o.
Proof.
  intros Hl Ho. unfold extractTextFromDeepInfra, try_output.
  cbn [truthy negb is_string get]. rewrite Hl, Ho. reflexivity.
Qed.

(** X7 at a payload that has both an [output] and [choices]. *)
Lemma output_field_wins_witness :
  extractTextFromDeepInfra
    (JObj [("choices", JArr [JObj [("text", JStr "from choices")]]);
           ("output", JArr [JStr "from"; JStr "output"])])
  = JArr [JStr "from"; JStr "output"].
Proof.
  apply (output_field_wins
           [("choices", JArr [JObj [("text", JStr "from choices")]]);
            ("output", JArr [JStr "from"; JStr "output"])]);
    reflexivity.
Defined.

Lemma extract_results (m : list (string * value)) (r0 : value)
  (more : list value) :
  truthy_opt (lookup "output" m) = false ->
  lookup "results" m = Some (JArr (r0 :: more)) ->
  truthy r0 = true ->
  extractTextFromDeepInfra (JObj m)
  = coalesce (get r0 "output")
      (coalesce (get r0 "content")
         (coalesce (get r0 "text") (JStr (stringify r0)))).
Proof.
  intros Ho Hr Ht. unfold extractTextFromDeepInfra.
  cbn [truthy negb is_string].
  rewrite (try_output_none (JObj m) Ho).
  unfold try_results. cbn [get]. rewrite Hr. cbn [isArray index0_opt index0].
  rewrite Ht. reflexivity.
Qed.

(** X8.  When there is no truthy [output] and [results] is an array with a
    truthy first element, the extractor looks at that element only, and
    whatever [choices] and [detail] hold: it returns the element's [output]
    when it is not [null] (even when it is falsy), else its [content], else
    its [text]; when all three are absent or [null], and the element is
    one that the model represents (well formed, all its numbers safe
    integers), it returns the JSON text of the element, which parses back
    to the element. *)
Theorem results_element_is_read_in_order
  (m : list (string * value)) (r0 : value) (more : list value) :
  truthy_opt (lookup "output" m) = false ->
  lookup "results" m = Some (JArr (r0 :: more)) ->
  truthy r0 = true ->
  (forall v, get r0 "output" = Some v -> v <> JNull ->
             extractTextFromDeepInfra (JObj m) = v)
  /\ (nullish (get r0 "output") ->
      forall v, get r0 "content" = Some v -> v <> JNull ->
                extractTextFromDeepInfra (JObj m) = v)
  /\ (nullish (get r0 "output") -> nullish (get r0 "content") ->
      forall v, get r0 "text" = Some v -> v <> JNull ->
                extractTextFromDeepInfra (JObj m) = v)
  /\ (nullish (get r0 "output") -> nullish (get r0 "content") ->
      nullish (get r0 "text") ->
      well_formed r0 = true -> exact_numbers r0 = true ->
      extractTextFromDeepInfra (JObj m) = JStr (stringify r0)
      /\ JSON_parse (stringify r0) = Some r0).
Proof.
  intros Ho Hr Ht. rewrite (extract_results m r0 more Ho Hr Ht).
  split; [|split; [|split]].
  - intros v Hv Hn. rewrite Hv. apply coalesce_some. exact Hn.
  - intros H1 v Hv Hn. rewrite (coalesce_nullish _ _ H1), Hv.
    apply coalesce_some. exact Hn.
  - intros H1 H2 v Hv Hn.
    rewrite (coalesce_nullish _ _ H1), (coalesce_nullish _ _ H2), Hv.
    apply coalesce_some. exact Hn.
  - intros H1 H2 H3 Hwf _.
    rewrite (coalesce_nullish _ _ H1), (coalesce_nullish _ _ H2),
      (coalesce_nullish _ _ H3).
    split; [reflexivity | apply JSON_parse_stringify; exact Hwf].
Qed.

(** X8 at an element whose [output] is [null] and whose [content] is the
    empty string: the empty string is returned, not the [text]. *)
Lemma results_element_witness :
  extractTextFromDeepInfra
    (JObj [("results",
            JArr [JObj [("output", JNull); ("content", JStr "");
                        ("text", JStr "later")]]);
           ("choices", JArr [JObj [("text", JStr "from choices")]])])
  = JStr "".
Proof.
  refine (proj1 (proj2 (results_element_is_read_in_order
                          [("results",
                            JArr [JObj [("output", JNull);
                                        ("content", JStr "");
                                        ("text", JStr "later")]]);
                           ("choices",
                            JArr [JObj [("text", JStr "from choices")]])]
                          (JObj [("output", JNull); ("content", JStr "");
                                 ("text", JStr "later")])
                          [] eq_refl eq_refl eq_refl))
            (or_intror eq_refl) (JStr "") eq_refl _).
  discriminate.
Defined.

Lemma extract_choices (m : list (string * value)) (c0 : value)
  (more : list value) :
  truthy_opt (lookup "output" m) = false ->
  has_truthy_first (lookup "results" m) = false ->
  lookup "choices" m = Some (JArr (c0 :: more)) ->
  truthy c0 = true ->
  extractTextFromDeepInfra (JObj m)
  = coalesce (get c0 "text")
      (coalesce (get_opt (get c0 "message") "content")
         (JStr (stringify c0))).
Proof.
  intros Ho Hr Hc Ht. unfold extractTextFromDeepInfra.
  cbn [truthy negb is_string].
  rewrite (try_output_none (JObj m) Ho), (try_results_none (JObj m) Hr).
  unfold try_choices. cbn [get]. rewrite Hc.
  cbn [truthy_opt truthy isArray andb index0_opt index0].
  rewrite Ht. reflexivity.
Qed.

(** X9.  When neither [output] nor [results] matches and [choices] is an
    array with a truthy first element, the extractor returns that element's
    [text] when it is not [null], else the [content] of its [message] (the
    chat shape); when both are absent or [null], and the element is one
    that the model represents (well formed, all its numbers safe
    integers), it returns the JSON text of the element, which parses back
    to the element. *)
Theorem choices_element_is_read_in_order
  (m : list (string * value)) (c0 : value) (more : list value) :
  truthy_opt (lookup "output" m) = false ->
  has_truthy_first (lookup "results" m) = false ->
  lookup "choices" m = Some (JArr (c0 :: more)) ->
  truthy c0 = true ->
  (forall v, get c0 "text" = Some v -> v <> JNull ->
             extractTextFromDeepInfra (JObj m) = v)
  /\ (nullish (get c0 "text") ->
      forall msg v, get c0 "message" = Some msg ->
                    get msg "content" = Some v -> v <> JNull ->
                    extractTextFromDeepInfra (JObj m) = v)
  /\ (nullish (get c0 "text") ->
      nullish (get_opt (get c0 "message") "content") ->
      well_formed c0 = true -> exact_numbers c0 = true ->
      extractTextFromDeepInfra (JObj m) = JStr (stringify c0)
      /\ JSON_parse (stringify c0) = Some c0).
Proof.
  intros Ho Hr Hc Ht. rewrite (extract_choices m c0 more Ho Hr Hc Ht).
  split; [|split].
  - intros v Hv Hn. rewrite Hv. apply coalesce_some. exact Hn.
  - intros H1 msg v Hm Hv Hn. rewrite (coalesce_nullish _ _ H1), Hm.
    assert (E : get_opt (Some msg) "content" = Some v).
    { destruct msg; try discriminate Hv. exact Hv. }
    rewrite E. apply coalesce_some. exact Hn.
  - intros H1 H2 Hwf _.
    rewrite (coalesce_nullish _ _ H1), (coalesce_nullish _ _ H2).
    split; [reflexivity | apply JSON_parse_stringify; exact Hwf].
Qed.

(** X9 at a chat completion. *)
Lemma choices_element_witness :
  extractTextFromDeepInfra
    (JObj [("id", JStr "cmpl-1");
           ("choices",
            JArr [JObj [("index", JNum 0);
                        ("message",
                         JObj [("role", JStr "assistant");
                               ("content", JStr "Once upon a time")])]])])
  = JStr "Once upon a time".
Proof.
  refine (proj1 (proj2 (choices_element_is_read_in_order
                          [("id", JStr "cmpl-1");
                           ("choices",
                            JArr [JObj [("index", JNum 0);
                                        ("message",
                                         JObj [("role", JStr "assistant");
                                               ("content",
                                                JStr "Once upon a time")])]])]
                          (JObj [("index", JNum 0);
                                 ("message",
                                  JObj [("role", JStr "assistant");
                                        ("content",
                                         JStr "Once upon a time")])])
                          [] eq_refl eq_refl eq_refl eq_refl))
            (or_introl eq_refl)
            (JObj [("role", JStr "assistant");
                   ("content", JStr "Once upon a time")])
            (JStr "Once upon a time") eq_refl eq_refl _).
  discriminate.
Defined.

(** X10.  An error descriptor is reached last: when no [output], [results]
    or [choices] shape matches and the payload has a truthy [detail] with a
    truthy [error], and [detail] is one that the model represents (well
    formed, all its numbers safe integers), the extractor returns the JSON
    text of [detail] alone, not of the whole payload, and that text parses
    back to [detail]. *)
Theorem error_detail_is_serialized
  (m : list (string * value)) (d : value) :
  truthy_opt (lookup "output" m) = false ->
  has_truthy_first (lookup "results" m) = false ->
  has_truthy_first (lookup "choices" m) = false ->
  lookup "detail" m = Some d ->
  truthy d = true -> truthy_opt (get d "error") = true ->
  well_formed d = true -> exact_numbers d = true ->
  extractTextFromDeepInfra (JObj m) = JStr (stringify d)
  /\ JSON_parse (stringify d) = Some d.
Proof.
  intros Ho Hr Hc Hd Ht He Hwf _.
  split; [|apply JSON_parse_stringify; exact Hwf].
  unfold extractTextFromDeepInfra. cbn [truthy negb is_string].
  rewrite (try_output_none (JObj m) Ho), (try_results_none (JObj m) Hr),
    (try_choices_none (JObj m) Hc).
  unfold try_detail. cbn [get]. rewrite Hd, Ht, He. reflexivity.
Qed.

(** X10 at an error answer that also has an empty [results] array. *)
Lemma error_detail_witness :
  extractTextFromDeepInfra
    (JObj [("results", JArr []);
           ("detail", JObj [("error", JStr "model not found")]);
           ("request_id", JStr "r-1")])
  = JStr (stringify (JObj [("error", JStr "model not found")]))
  /\ JSON_parse (stringify (JObj [("error", JStr "model not found")]))
     = Some (JObj [("error", JStr "model not found")]).
Proof.
  destruct (error_detail_is_serialized
              [("results", JArr []);
               ("detail", JObj [("error", JStr "model not found")]);
               ("request_id", JStr "r-1")]
              (JObj [("error", JStr "model not found")])
              eq_refl eq_refl eq_refl eq_refl eq_refl eq_refl
              eq_refl eq_refl) as [H1 H2].
  split; [exact H1 | exact H2].
Defined.

(** ** The image reference (line 145) *)




(** ** The configuration (lines 11-15) *)





(** ** The placeholder count outside the usual range (lines 72 and 109) *)

(** X13.  The count of the placeholder story is [Number(paragraphs || 1)]:
    a falsy [paragraphs] ([null], [false], the number [0], the empty text)
    gives one paragraph, while a truthy one that converts to [NaN], to [0]
    or to a negative number (the text ["0"], the text ["abc"], an empty
    array, [-2]) gives no paragraph at all, and the story is then the
    preface after two line feeds.  The conversion is that of the values
    that [Number] converts as the model does, which leaves out the numeric
    texts that are no integer literal (["2.5"], ["1e1"], ["0x10"]); the
    genre and the characters are plain values. *)
Theorem placeholder_count_at_the_edges (cfg : Config) (up : Upstream)
  (b v : value) :
  no_key cfg = true -> DEV_FALLBACK cfg = true ->
  plain_fields b = true ->
  get b "paragraphs" = Some v ->
  (truthy v = false ->
   generate_story cfg up (Some b)
   = (Some (res_json
              (JObj [("story",
                      JStr (dummy_paragraph "short" (params_of b) 0
                            ++ NL ++ NL
                            ++ "Preface: This is a placeholder summary."));
                     ("paragraphs",
                      JArr [JStr (dummy_paragraph "short" (params_of b) 0)]);
                     ("images", JArr [])])),
      []))
  /\ (truthy v = true -> exact_count v = true ->
      ToNumber v = None \/ (exists n, ToNumber v = Some n /\ n <= 0) ->
      generate_story cfg up (Some b)
      = (Some (res_json
                 (JObj [("story",
                         JStr (NL ++ NL
                               ++ "Preface: This is a placeholder summary."));
                        ("paragraphs", JArr []);
                        ("images", JArr [])])),
         [])).
Proof.
  intros Hk Hf _ Hv.
  assert (Hb : b <> JNull) by (intros E; subst b; discriminate).
  rewrite (handler_no_key_run cfg up b Hb Hk Hf).
  unfold placeholder_body, placeholder_paragraphs.
  assert (Hl : placeholder_length (params_of b)
               = ToNumber (if truthy v then v else JNum 1)).
  { unfold placeholder_length, params_of, or_else. cbn [paragraphs].
    rewrite Hv. reflexivity. }
  rewrite Hl. split.
  - intros Ht. rewrite Ht. reflexivity.
  - intros Ht _ Hn. rewrite Ht.
    assert (E : ToLength (ToNumber v) = 0).
    { destruct Hn as [Hn|(n & Hn & Hle)]; rewrite Hn; [reflexivity|].
      unfold ToLength. rewrite Z.max_r by exact Hle. reflexivity. }
    rewrite E. reflexivity.
Qed.

(** X13 at the number [0] and at the text ["0"]. *)
Lemma placeholder_count_edges_witness :
  generate_story cfg_no_key up_down (Some (JObj [("paragraphs", JNum 0)]))
  = (Some (res_json
             (JObj [("story",
                     JStr ("Paragraph 1: A short fantasy scene featuring characters."
                           ++ NL ++ NL
                           ++ "Preface: This is a placeholder summary."));
                    ("paragraphs",
                     JArr [JStr "Paragraph 1: A short fantasy scene featuring characters."]);
                    ("images", JArr [])])),
     [])
  /\ generate_story cfg_no_key up_down (Some (JObj [("paragraphs", JStr "0")]))
     = (Some (res_json
                (JObj [("story",
                        JStr (NL ++ NL
                              ++ "Preface: This is a placeholder summary."));
                       ("paragraphs", JArr []);
                       ("images", JArr [])])),
        []).
Proof.
  split.
  - exact (proj1 (placeholder_count_at_the_edges cfg_no_key up_down
                    (JObj [("paragraphs", JNum 0)]) (JNum 0)
                    eq_refl eq_refl eq_refl eq_refl) eq_refl).
  - apply (proj2 (placeholder_count_at_the_edges cfg_no_key up_down
                    (JObj [("paragraphs", JStr "0")]) (JStr "0")
                    eq_refl eq_refl eq_refl eq_refl) eq_refl eq_refl).
    right. exists 0. split; [reflexivity | lia].
Defined.

(** ** The placeholder story and its paragraphs *)










(* ===================================================================== *)
(** * Properties of the client form *)
(* ===================================================================== *)

(** ** The characters, from the input to the prompt *)

Lemma split_on_piece (s : string) :
  no_comma s = true ->
  forall rest cur,
    Client.split_on "," (s ++ rest) cur = Client.split_on "," rest (cur ++ s).
Proof.
  induction s as [|c s IH]; intros H rest cur.
  - cbn [append]. rewrite append_nil_r. reflexivity.
  - cbn [no_comma] in H. apply andb_true_iff in H. destruct H as [Hc Hs].
    apply negb_true_iff in Hc.
    change (String c s ++ rest) with (String c (s ++ rest)).
    cbn [Client.split_on]. rewrite Hc, (IH Hs), append_assoc. reflexivity.
Qed.

Lemma no_comma_app (a b : string) :
  no_comma (a ++ b) = no_comma a && no_comma b.
Proof.
  induction a as [|c a IH]; [reflexivity|].
  cbn [append no_comma]. rewrite IH, andb_assoc. reflexivity.
Qed.

(** The pieces of a list of names written with a comma and a space: the
    names, each but the first after a space. *)
Lemma split_on_join (names : list string) :
  Forall (fun n => no_comma n = true) names ->
  forall pre n,
    no_comma pre = true -> no_comma n = true ->
    Client.split_on "," (pre ++ join ", " (n :: names)) ""
    = (pre ++ n) :: map (String " ") names.
Proof.
  induction 1 as [|n' names Hn' _ IH]; intros pre n Hpre Hn.
  - cbn [join map]. rewrite <- (append_nil_r (pre ++ n)) at 1.
    rewrite split_on_piece by (rewrite no_comma_app, Hpre, Hn; reflexivity).
    reflexivity.
  - change (join ", " (n :: n' :: names))
      with (n ++ ", " ++ join ", " (n' :: names)).
    rewrite <- append_assoc.
    rewrite split_on_piece by (rewrite no_comma_app, Hpre, Hn; reflexivity).
    change (", " ++ join ", " (n' :: names))
      with (String "," (" " ++ join ", " (n' :: names))).
    cbn [Client.split_on]. change (("," =? ",")%char) with true. cbv iota.
    rewrite (IH " " n' eq_refl Hn'). reflexivity.
Qed.

Lemma Array_join_strings (l : list string) (sep : string) :
  Array_join (map JStr l) sep = join sep l.
Proof.
  unfold Array_join. rewrite map_map. cbn [ToString]. rewrite map_id.
  reflexivity.
Qed.

(** X15.  The character string that the server writes into the prompt is
    the text of the input of the form with every comma-separated piece
    trimmed and the pieces joined again with a comma and a space.  For a
    text in that form already (names without a comma and without white
    space around them, separated by a comma and a space) the server gets
    the names as an array and recovers the very text of the input. *)
Theorem form_characters_reach_the_prompt (st : Client.AppState) :
  charStr_of (characters (params_of (Client.request_body st)))
  = JStr (join ", "
            (map trim (Client.split_comma (Client.characters st))))
  /\ forall names,
       names <> [] ->
       Forall (fun n => no_comma n = true /\ trim n = n) names ->
       Client.characters st = join ", " names ->
       get (Client.request_body st) "characters"
       = Some (JArr (map JStr names))
       /\ charStr_of (characters (params_of (Client.request_body st)))
          = JStr (Client.characters st).
Proof.
  assert (G : get (Client.request_body st) "characters"
              = Some (JArr (map JStr
                              (map trim
                                 (Client.split_comma
                                    (Client.characters st)))))).
  { rewrite map_map. reflexivity. }
  assert (E : charStr_of (characters (params_of (Client.request_body st)))
              = JStr (join ", "
                        (map trim
                           (Client.split_comma (Client.characters st))))).
  { unfold params_of. cbn [characters]. rewrite G.
    cbn [with_default charStr_of]. rewrite Array_join_strings.
    reflexivity. }
  split; [exact E|].
  intros names Hne Hall Hc.
  assert (Hs : map trim (Client.split_comma (Client.characters st)) = names).
  { rewrite Hc. destruct names as [|n names]; [congruence|].
    inversion Hall as [|? ? [Hn Ht] Hall']; subst.
    unfold Client.split_comma.
    change (join ", " (n :: names)) with ("" ++ join ", " (n :: names)).
    rewrite (split_on_join names) ;
      [| eapply Forall_impl; [|exact Hall']; intros a [Ha _]; exact Ha
       | reflexivity | exact Hn].
    cbn [map append]. rewrite Ht. f_equal.
    clear - Hall'. induction Hall' as [|a l [_ Ha] _ IH]; [reflexivity|].
    cbn [map]. rewrite IH. f_equal.
    change (trim (String " " a)) with (trim a). exact Ha. }
  split.
  - rewrite G, Hs. reflexivity.
  - rewrite E, Hs, Hc. reflexivity.
Qed.

(** X15 at the initial state of the form. *)
Lemma form_characters_witness :
  get (Client.request_body Client.initial) "characters"
  = Some (JArr [JStr "Arya"; JStr "Tom"])
  /\ charStr_of (characters (params_of (Client.request_body Client.initial)))
     = JStr "Arya, Tom".
Proof.
  apply (proj2 (form_characters_reach_the_prompt Client.initial)
           ["Arya"; "Tom"]).
  - discriminate.
  - repeat constructor.
  - reflexivity.
Defined.

(** ** A request of the form, served *)

(** A run for a request that does not ask for images. *)
Lemma run_without_images (cfg : Config) (up : Upstream) (b : value) :
  b <> JNull -> truthy (imagesPerParagraph (params_of b)) = false ->
  exists r log,
    generate_story cfg up (Some b) = (Some r, log)
    /\ (List.length log <= 1)%nat
    /\ (error_shape r
        \/ (exists kind preface,
              r = res_json (placeholder_body kind preface (params_of b)))
        \/ (exists fr textResp,
              up 0%nat (text_request cfg (params_of b)) = Resolved fr
              /\ json fr = inr textResp
              /\ r = res_json
                       (JObj [("story",
                               JStr (ToString (storyText_of textResp)));
                              ("raw", textResp);
                              ("images", JArr [])]))).
Proof.
  intros Hb Himg.
  assert (H500 : forall m,
             error_shape (res_status_json 500
                            (JObj [("error", JStr "server_error");
                                   ("message", JStr m)]))).
  { intros m. right. right. right. split; [reflexivity|]. eexists.
    reflexivity. }
  destruct (generate_story_cases cfg up (Some b))
    as [[[Eb|Eb] _]
       |(b' & Eb & _ & [(_ & _ & E)
                       |[(_ & err & _ & E)
                        |[(_ & r & _ & _ & E)
                         |(_ & r & textResp & st' & Hup & _ & Hjson & Hi
                           & E)]]])];
    try discriminate Eb; try congruence;
    inversion Eb; subst b'; rewrite E; do 2 eexists;
    (split; [reflexivity|]).
  - split; [cbn; lia|].
    destruct (_ <=? _); [right; left; do 2 eexists; reflexivity|].
    left. apply H500.
  - split; [cbn; lia|]. destruct (DEV_FALLBACK cfg).
    + destruct (_ <=? _); [right; left; do 2 eexists; reflexivity|].
      left. apply H500.
    + left. right. right. left. split; [reflexivity|]. eexists.
      reflexivity.
  - split; [cbn; lia|]. left. destruct (mentions_balance (text r)).
    + left. split; [reflexivity|]. eexists. reflexivity.
    + right. left. split; [reflexivity|]. do 2 eexists. reflexivity.
  - unfold generate_images in Hi. rewrite Himg in Hi.
    inversion Hi; subst st'. split; [cbn; lia|].
    right. right. exists r, textResp.
    split; [exact Hup|]. split; [exact Hjson | reflexivity].
Qed.

Lemma request_body_not_null (st : Client.AppState) :
  Client.request_body st <> JNull.
Proof. discriminate. Qed.

Lemma request_body_no_images (st : Client.AppState) :
  truthy (imagesPerParagraph (params_of (Client.request_body st))) = false.
Proof. reflexivity. Qed.

(** X16.  The form never asks for images: its request has no
    [imagesPerParagraph] field, so whatever the user entered and whatever
    the configuration and the upstream are, the server makes at most one
    upstream call for it, and its answer is an error or carries an empty
    [images] array. *)
Theorem form_requests_never_get_images
  (cfg : Config) (up : Upstream) (st : Client.AppState) :
  get (Client.request_body st) "imagesPerParagraph" = None
  /\ exists r log,
       generate_story cfg up (Some (Client.request_body st)) = (Some r, log)
       /\ (List.length log <= 1)%nat
       /\ (error_shape r
           \/ (http_status r = 200
               /\ get (http_body r) "images" = Some (JArr []))).
Proof.
  split; [reflexivity|].
  destruct (run_without_images cfg up (Client.request_body st)
              (request_body_not_null st) (request_body_no_images st))
    as (r & log & E & Hl & [He|[(kind & preface & Er)
                               |(fr & textResp & _ & _ & Er)]]).
  - exists r, log. split; [exact E|]. split; [exact Hl|]. left. exact He.
  - exists r, log. split; [exact E|]. split; [exact Hl|]. right.
    subst r. split; reflexivity.
  - exists r, log. split; [exact E|]. split; [exact Hl|]. right.
    subst r. split; reflexivity.
Qed.

Lemma well_formed_strings (l : list string) :
  forallb well_formed (map JStr l) = true.
Proof. induction l as [|s l IH]; [reflexivity | exact IH]. Qed.

Lemma request_body_well_formed (st : Client.AppState) :
  well_formed (Client.paragraphs st) = true ->
  well_formed (Client.request_body st) = true.
Proof.
  intros H. unfold Client.request_body. cbn [well_formed forallb].
  rewrite <- (map_map trim JStr), well_formed_strings, H. reflexivity.
Qed.

Lemma placeholder_body_well_formed (kind preface : string) (p : Params) :
  well_formed (placeholder_body kind preface p) = true.
Proof.
  unfold placeholder_body. cbv zeta. cbn [well_formed forallb].
  rewrite well_formed_strings. reflexivity.
Qed.

Lemma error_shape_not_2xx (r : HttpResponse) :
  error_shape r ->
  (200 <=? http_status r) && (http_status r <=? 299) = false.
Proof.
  intros [[E _]|[[E _]|[[E _]|[E _]]]]; rewrite E; reflexivity.
Qed.

(** X17.  [submit] against the server.  The form posts its request; when
    the server answers 200 the form leaves the waiting state, shows the
    story of the answer and has no image to show; when the server answers
    with one of its errors (402, 500, 502) the awaited call rejects, nothing
    catches it, and the form stays in the waiting state, with the button
    disabled and the previous story and images still shown.  The request
    fields are kept in both cases.  (The payloads of the upstream are
    results of [JSON.parse], hence well formed, and so is the paragraph
    count of the form, a number or a text.) *)
Theorem submit_leaves_waiting_only_on_success
  (cfg : Config) (up : Upstream) (st : Client.AppState) :
  well_formed (Client.paragraphs st) = true ->
  (forall n rq fr v,
     up n rq = Resolved fr -> json fr = inr v -> well_formed v = true) ->
  exists r,
    fst (generate_story cfg up (Some (Client.request_body st))) = Some r
    /\ ((http_status r = 200
         /\ exists s,
              get (http_body r) "story" = Some (JStr s)
              /\ Client.submit (Client.post_to_server cfg up) st
                 = {| Client.genre := Client.genre st;
                      Client.characters := Client.characters st;
                      Client.paragraphs := Client.paragraphs st;
                      Client.loading := false;
                      Client.story := Some (JStr s);
                      Client.images := JArr [] |})
        \/ (error_shape r
            /\ Client.submit (Client.post_to_server cfg up) st
               = {| Client.genre := Client.genre st;
                    Client.characters := Client.characters st;
                    Client.paragraphs := Client.paragraphs st;
                    Client.loading := true;
                    Client.story := Client.story st;
                    Client.images := Client.images st |})).
Proof.
  intros Hp Hup.
  destruct (run_without_images cfg up (Client.request_body st)
              (request_body_not_null st) (request_body_no_images st))
    as (r & log & E & _ & Hr).
  exists r. split; [rewrite E; reflexivity|].
  unfold Client.submit, Client.post_to_server. cbv zeta.
  rewrite (JSON_parse_stringify _ (request_body_well_formed st Hp)), E.
  cbn [fst].
  destruct Hr as [He|[(kind & preface & Er)|(fr & textResp & Hf & Hj & Er)]].
  - right. split; [exact He|]. rewrite (error_shape_not_2xx r He).
    reflexivity.
  - left. subst r. split; [reflexivity|].
    cbn [http_status http_body res_json].
    change ((200 <=? 200) && (200 <=? 299)) with true. cbv iota.
    rewrite (JSON_parse_stringify _
               (placeholder_body_well_formed kind preface _)).
    eexists. split; reflexivity.
  - left. subst r. split; [reflexivity|].
    cbn [http_status http_body res_json].
    change ((200 <=? 200) && (200 <=? 299)) with true. cbv iota.
    rewrite JSON_parse_stringify.
    + eexists. split; reflexivity.
    + cbn [well_formed forallb]. rewrite (Hup _ _ _ _ Hf Hj). reflexivity.
Qed.

(** X17 at the initial state, against a server without a key and against
    one whose upstream is out of credit. *)
Lemma submit_witness :
  Client.loading
    (Client.submit (Client.post_to_server cfg_no_key up_down) Client.initial)
  = false
  /\ Client.loading
       (Client.submit (Client.post_to_server cfg_key up_no_credit)
          Client.initial)
     = true.
Proof.
  split.
  - destruct (submit_leaves_waiting_only_on_success cfg_no_key up_down
                Client.initial eq_refl)
      as (r & Er & [(_ & s & _ & E)|(He & _)]).
    + intros n rq fr v H. discriminate H.
    + rewrite E. reflexivity.
    + exfalso. vm_compute in Er. inversion Er; subst r.
      destruct He as [[E _]|[[E _]|[[E _]|[E _]]]]; discriminate E.
  - destruct (submit_leaves_waiting_only_on_success cfg_key up_no_credit
                Client.initial eq_refl)
      as (r & Er & [(H200 & _)|(_ & E)]).
    + intros n rq fr v H Hj. inversion H; subst fr. discriminate Hj.
    + exfalso. vm_compute in Er. inversion Er; subst r. discriminate H200.
    + rewrite E. reflexivity.
Defined.

(** ** What the form shows for the image slots *)

(** X18.  Of the slots that the server writes into [images], the form
    shows the URL references only: such a slot renders as an image whose
    source is the reference and whose text is [para-] and the position.
    A raw payload and an error descriptor render as nothing, without any
    message; rendering a slot never throws, and the [base64] branch of line
    49 is never taken for a slot of this server. *)
Theorem only_url_slots_are_shown (s : value) (i : nat) :
  paragraph_slot s \/ failure_slot s ->
  (exists u,
     s = JObj [("url", u)] /\ truthy u = true
     /\ Client.render_image s i
        = Some (Client.Img (ToString u)
                  ("para-" ++ NumberToString (Z.of_nat i))))
  \/ (get s "url" = None
      /\ Client.render_image s i = Some (Client.Leftover None)).
Proof.
  intros [[(u & E & Hu)|[(j & E)|(st & txt & E)]]|(err & E)]; subst s.
  - left. exists u. split; [reflexivity|]. split; [exact Hu|].
    unfold Client.render_image.
    change (get (JObj [("url", u)]) "url") with (Some u).
    cbv iota beta. rewrite Hu. reflexivity.
  - right. split; reflexivity.
  - right. split; reflexivity.
  - right. split; reflexivity.
Qed.

(** X18 at a URL slot and at the descriptor of a failed image call. *)
Lemma only_url_slots_witness :
  Client.render_image (JObj [("url", JStr "https://img.example/1.png")]) 0
  = Some (Client.Img "https://img.example/1.png" "para-0")
  /\ Client.render_image
       (JObj [("error", JStr "image_upstream_503");
              ("detail", JStr "Service Unavailable")]) 1
     = Some (Client.Leftover None).
Proof.
  split.
  - destruct (only_url_slots_are_shown
                (JObj [("url", JStr "https://img.example/1.png")]) 0)
      as [(u & E & _ & R)|(G & _)].
    + left. left. eexists. split; reflexivity.
    + inversion E; subst u. exact R.
    + discriminate G.
  - destruct (only_url_slots_are_shown
                (JObj [("error", JStr "image_upstream_503");
                       ("detail", JStr "Service Unavailable")]) 1)
      as [(u & E & _)|(_ & R)].
    + left. right. right. exists 503, "Service Unavailable". reflexivity.
    + discriminate E.
    + exact R.
Defined.
